(** * Clinical dashboard data layer: a shallow embedding and its properties

    The development follows the JavaScript sources of the dashboard:
    - [DepartmentAnalytics.js]: the journey-time indicator;
    - [restApiService.js]: the REST client ([searchResources],
      [calculateAge], [extractVitals], [buildDashboardData]);
    - [fhirClient.js]: the SMART client ([buildDashboardData],
      [extractVitalsFromObservations]);
    - [dataSyncService.js]: the synchronisation service ([subscribe],
      [notifySubscribers], [initialize], [loadDashboardData], [refresh],
      [generateTimelineEvents]).

    Conventions.  JavaScript numbers that hold minutes, years, HTTP status
    codes and epoch milliseconds are integers ([Z]); measured quantities
    and [Math.random()] draws are rationals ([Q]).  A field that the code
    reads through [?.] or tests for truthiness is an [option].  A [Date] is
    given by the calendar fields its local getters return. *)

From Stdlib Require Import ZArith QArith Qabs Qround List Sorting Permutation Lia Lqa.
From Stdlib Require Import String Ascii DecimalString.
From stdpp Require Import gmap strings.

Local Open Scope string_scope.
Local Open Scope Z_scope.

(** ** JavaScript primitives used throughout *)

Module Js.

(** [`${n}`] for an integral number, in the range in which a number
    prints its digits in full (magnitudes below ten to the 21). *)
Definition string_of_Z (z : Z) : string :=
  NilZero.string_of_int (Z.to_int z).

(** [Math.round]: the nearest integer, ties towards plus infinity. *)
Definition Math_round (x : Q) : Z := Qfloor (x + (1 # 2)).

(** [Math.floor]. *)
Definition Math_floor (x : Q) : Z := Qfloor x.

(** Truthiness of a number: every number but zero (and NaN, which a
    rational is not). *)
Definition truthyQ (x : Q) : bool := negb (Qeq_bool x 0).
Definition truthyZ (z : Z) : bool := negb (z =? 0).

(** Truthiness of a string: every string but the empty one. *)
Definition truthyS (s : string) : bool :=
  match s with EmptyString => false | _ => true end.

(** [s.split(sep)] for a one-character separator. *)
Fixpoint split (sep : ascii) (s : string) : list string :=
  match s with
  | EmptyString => [EmptyString]
  | String c r =>
      if Ascii.eqb c sep then EmptyString :: split sep r
      else match split sep r with
           | [] => [String c EmptyString]
           | h :: t => String c h :: t
           end
  end.

(** [parts[i]] inside a template literal: an absent element prints as
    [undefined]. *)
Definition nth_or_undefined (parts : list string) (i : nat) : string :=
  nth i parts "undefined".

(** [x.toFixed(1)]: the nearest multiple of one tenth of the magnitude
    (ties to the larger), printed with its sign. *)
Definition toFixed1 (x : Q) : string :=
  let n := Qfloor (Qabs x * 10 + (1 # 2)) in
  (if Qle_bool 0 x then "" else "-") +:+
  string_of_Z (n / 10) +:+ "." +:+ string_of_Z (n mod 10).

(** [s.trim()]: white space removed at both ends. *)
Definition isSpace (c : ascii) : bool :=
  let n := nat_of_ascii c in
  (Nat.eqb n 32 || ((9 <=? n)%nat && (n <=? 13)%nat))%bool.

Fixpoint trimStart (s : string) : string :=
  match s with
  | String c r => if isSpace c then trimStart r else s
  | EmptyString => EmptyString
  end.

Fixpoint trimEnd (s : string) : string :=
  match s with
  | String c r =>
      match trimEnd r with
      | EmptyString => if isSpace c then EmptyString else String c EmptyString
      | r' => String c r'
      end
  | EmptyString => EmptyString
  end.

Definition trim (s : string) : string := trimEnd (trimStart s).

(** Conversion of a number to a time value: the fraction is dropped. *)
Definition truncate (x : Q) : Z := if Qle_bool 0 x then Qfloor x else Qceiling x.

(** An exception value: what was thrown is never inspected by the code,
    only logged. *)
Inductive exn :=
| TypeError
| HttpError (status : Z)
| NetworkFailure
| SyntaxError
| CallbackError.

(** The outcome of code that may throw. *)
Inductive result (A : Type) :=
| Ok (a : A)
| Err (e : exn).
Arguments Ok {A} a.
Arguments Err {A} e.

Definition rbind {A B} (r : result A) (f : A -> result B) : result B :=
  match r with Ok a => f a | Err e => Err e end.

(** [l.map(f)] when [f] may throw: the first exception aborts the map. *)
Fixpoint rmap {A B} (f : A -> result B) (l : list A) : result (list B) :=
  match l with
  | [] => Ok []
  | x :: r => rbind (f x) (fun y => rbind (rmap f r) (fun ys => Ok (y :: ys)))
  end.

(** [l.filter(f)] when the predicate may throw. *)
Fixpoint rfilter {A} (f : A -> result bool) (l : list A) : result (list A) :=
  match l with
  | [] => Ok []
  | x :: r =>
      rbind (f x) (fun b =>
      rbind (rfilter f r) (fun ys => Ok (if b then x :: ys else ys)))
  end.

(** [x || d] on a possibly absent integral number. *)
Definition or_default (d : Z) (x : option Z) : Z :=
  match x with
  | Some v => if truthyZ v then v else d
  | None => d
  end.

End Js.

(** ** DepartmentAnalytics.js: the four-hour journey indicator *)

Module DepartmentAnalytics.

Inductive StatusLabel := ON_TARGET | AT_RISK | OFF_TARGET.

(** The fallback literal of [safeData.turnaround]. *)
Definition defaultTurnaround : gmap string Z :=
  <["Triage to Nurse" := 8]> (
  <["Triage to Doctor" := 25]> (
  <["Pathology Request to Result" := 45]> (
  <["Imaging Request to Reported" := 75]> (
  <["Admission Request to Bed" := 90]> (
  <["Bed Allocation to Departure" := 20]> ∅))))).

(** [source?.turnaround || {...}]: an object is always truthy, so the
    literal is used exactly when the property is absent. *)
Definition safeTurnaround (source : option (gmap string Z)) : gmap string Z :=
  match source with
  | Some t => t
  | None => defaultTurnaround
  end.

Definition keySteps : list string :=
  [ "Triage to Nurse";
    "Triage to Doctor";
    "Pathology Request to Result";
    "Imaging Request to Reported";
    "Doctor to Senior Doctor";
    "Admission Request to Bed";
    "Bed Allocation to Departure" ].

(** [keySteps.reduce((sum, k) => sum + (turnaround?.[k] || 0), 0)] *)
Definition estimatedJourney (turnaround : gmap string Z) : Z :=
  fold_left (fun sum k => sum + Js.or_default 0 (turnaround !! k)) keySteps 0.

Definition fourHourThreshold : Z := 240.

Definition fourHourStatus (estimated : Z) : StatusLabel :=
  if estimated <=? fourHourThreshold then ON_TARGET
  else if estimated <=? 300 then AT_RISK
  else OFF_TARGET.

(** The label the component renders for a turnaround mapping. *)
Definition journeyStatus (turnaround : gmap string Z) : StatusLabel :=
  fourHourStatus (estimatedJourney turnaround).

(** The turnaround of a step, zero when the mapping has none. *)
Definition stepMinutes (turnaround : gmap string Z) (k : string) : Z :=
  default 0 (turnaround !! k).

(** The sum over the workflow steps, written out. *)
Definition journeySum (turnaround : gmap string Z) : Z :=
  stepMinutes turnaround "Triage to Nurse" +
  stepMinutes turnaround "Triage to Doctor" +
  stepMinutes turnaround "Pathology Request to Result" +
  stepMinutes turnaround "Imaging Request to Reported" +
  stepMinutes turnaround "Doctor to Senior Doctor" +
  stepMinutes turnaround "Admission Request to Bed" +
  stepMinutes turnaround "Bed Allocation to Departure".

End DepartmentAnalytics.

(** ** Calendar dates and the two age computations *)

Module Age.

(** What [getFullYear()], [getMonth()] (0 to 11) and [getDate()] return. *)
Record JsDate := mkDate { getFullYear : Z; getMonth : Z; getDate : Z }.

(** restApiService.js, [calculateAge(birthDate)]; [today] is [new Date()]
    and the argument is [None] when [birthDate] is falsy, and otherwise
    what the local getters return for [new Date(birthDate)]. *)
Definition calculateAge (today : JsDate) (birthDate : option JsDate) : Z :=
  match birthDate with
  | None => 0
  | Some birth =>
      let age := getFullYear today - getFullYear birth in
      let monthDiff := getMonth today - getMonth birth in
      if (monthDiff <? 0) || ((monthDiff =? 0) && (getDate today <? getDate birth))
      then age - 1
      else age
  end.

(** fhirClient.js, the [age] property in [buildDashboardData]:
    [new Date().getFullYear() - new Date(p.resource.birthDate).getFullYear()]. *)
Definition fhirClientAge (today birth : JsDate) : Z :=
  getFullYear today - getFullYear birth.

(** Month/day of [a] strictly before month/day of [b]. *)
Definition monthDayBefore (a b : JsDate) : Prop :=
  getMonth a < getMonth b \/ (getMonth a = getMonth b /\ getDate a < getDate b).

(** Calendar order on full dates. *)
Definition dateLe (a b : JsDate) : Prop :=
  getFullYear a < getFullYear b \/
  (getFullYear a = getFullYear b /\ ~ monthDayBefore b a).

(** The [n]-th anniversary of a birth date. *)
Definition anniversary (birth : JsDate) (n : Z) : JsDate :=
  mkDate (getFullYear birth + n) (getMonth birth) (getDate birth).

(** Exact calendar age: year difference, less one when the birthday has
    not yet occurred in the current year. *)
Definition calendarAge (today birth : JsDate) (age : Z) : Prop :=
  (monthDayBefore today birth -> age = getFullYear today - getFullYear birth - 1) /\
  (~ monthDayBefore today birth -> age = getFullYear today - getFullYear birth).

End Age.

(** ** The FHIR resources the services read

    One record stands for the duck-typed [resource] object: a property the
    code reads is a field, and a property that may be missing is an
    [option].  A bundle entry always carries its [resource], and a
    resource its [id]. *)

Module Fhir.

Record Coding := { coding_code : option string }.
Record CodeableConcept := { coding : option (list Coding) }.
Record Reference := { reference : option string }.
Record Quantity := { value : option Q }.
Record HumanName := { given : option (list string); family : option string }.

Record Resource := {
  id : string;
  name : option (list HumanName);
  birthDate : option Age.JsDate;
  gender : option string;
  status : option string;
  subject : option Reference;
  code : option CodeableConcept;
  valueQuantity : option Quantity
}.

Record Entry := { resource : Resource }.

(** [`Patient/${patientId}`] *)
Definition patientRef (patientId : string) : string := "Patient/" +:+ patientId.

End Fhir.

(** ** Vital signs, as both clients return them *)

Module Vitals.

(** A property value that is a number or a string. *)
Inductive JsVal :=
| Num (z : Z)
| Str (s : string).

Definition NA : JsVal := Str "N/A".

(** [x || 'N/A'] for a numeric and for a string property of the
    accumulator. *)
Definition numOrNA (x : option Z) : JsVal :=
  match x with
  | Some z => if Js.truthyZ z then Num z else NA
  | None => NA
  end.

Definition strOrNA (x : option string) : JsVal :=
  match x with
  | Some s => if Js.truthyS s then Str s else NA
  | None => NA
  end.

End Vitals.

(** ** restApiService.js: the pure helpers *)

Module RestApiService.
Import Fhir Vitals.

(** The local object [vitals] of [extractVitals]. *)
Record VitalsAcc := {
  acc_hr : option Z;
  acc_bp : option string;
  acc_temp : option string;
  acc_spo2 : option Z
}.

Definition emptyAcc : VitalsAcc :=
  {| acc_hr := None; acc_bp := None; acc_temp := None; acc_spo2 := None |}.

Record VitalSigns := {
  hr : JsVal;
  bp : JsVal;
  temp : JsVal;
  rr : JsVal;
  spo2 : JsVal
}.

(** [obs.resource.subject && obs.resource.subject.reference === `Patient/${patientId}`] *)
Definition isPatientObservation (patientId : string) (obs : Entry) : bool :=
  match subject (resource obs) with
  | Some s =>
      match reference s with
      | Some r => String.eqb r (patientRef patientId)
      | None => false
      end
  | None => false
  end.

(** [obs.resource.code?.coding?.[0]?.code] *)
Definition firstCode (obs : Entry) : option string :=
  match code (resource obs) with
  | Some cc =>
      match coding cc with
      | Some (c :: _) => coding_code c
      | _ => None
      end
  | None => None
  end.

(** [obs.resource.valueQuantity?.value] *)
Definition quantityValue (obs : Entry) : option Q :=
  match valueQuantity (resource obs) with
  | Some q => value q
  | None => None
  end.

(** [vitals.bp] is set and truthy. *)
Definition bpSet (acc : VitalsAcc) : option string :=
  match acc_bp acc with
  | Some s => if Js.truthyS s then Some s else None
  | None => None
  end.

(** The assignment made by one arm of the [switch]. *)
Definition assignVital (acc : VitalsAcc) (c : string) (v : Q) : VitalsAcc :=
  if String.eqb c "8867-4" then
    {| acc_hr := Some (Js.Math_round v); acc_bp := acc_bp acc;
       acc_temp := acc_temp acc; acc_spo2 := acc_spo2 acc |}
  else if String.eqb c "8480-6" then
    {| acc_hr := acc_hr acc;
       acc_bp := Some
         match bpSet acc with
         | Some old =>
             Js.string_of_Z (Js.Math_round v) +:+ "/" +:+
             Js.nth_or_undefined (Js.split "/" old) 1
         | None => Js.string_of_Z (Js.Math_round v) +:+ "/--"
         end;
       acc_temp := acc_temp acc; acc_spo2 := acc_spo2 acc |}
  else if String.eqb c "8462-4" then
    {| acc_hr := acc_hr acc;
       acc_bp := Some
         match bpSet acc with
         | Some old =>
             Js.nth_or_undefined (Js.split "/" old) 0 +:+ "/" +:+
             Js.string_of_Z (Js.Math_round v)
         | None => "--/" +:+ Js.string_of_Z (Js.Math_round v)
         end;
       acc_temp := acc_temp acc; acc_spo2 := acc_spo2 acc |}
  else if String.eqb c "8310-5" then
    {| acc_hr := acc_hr acc; acc_bp := acc_bp acc;
       acc_temp := Some (Js.toFixed1 v); acc_spo2 := acc_spo2 acc |}
  else if String.eqb c "2708-6" then
    {| acc_hr := acc_hr acc; acc_bp := acc_bp acc;
       acc_temp := acc_temp acc; acc_spo2 := Some (Js.Math_round v) |}
  else acc.

(** The body of [patientObservations.forEach]. *)
Definition vitalsStep (acc : VitalsAcc) (obs : Entry) : VitalsAcc :=
  match firstCode obs, quantityValue obs with
  | Some c, Some v =>
      if Js.truthyS c && Js.truthyQ v then assignVital acc c v else acc
  | _, _ => acc
  end.

Definition finishVitals (acc : VitalsAcc) : VitalSigns :=
  {| hr := numOrNA (acc_hr acc);
     bp := strOrNA (acc_bp acc);
     temp := strOrNA (acc_temp acc);
     rr := NA;
     spo2 := numOrNA (acc_spo2 acc) |}.

Definition extractVitals (observations : list Entry) (patientId : string) : VitalSigns :=
  let patientObservations := List.filter (isPatientObservation patientId) observations in
  finishVitals (fold_left vitalsStep patientObservations emptyAcc).


(** An observation of the patient whose first coding carries [c]. *)
Definition matchesCode (patientId c : string) (obs : Entry) : bool :=
  isPatientObservation patientId obs &&
  match firstCode obs with
  | Some c' => String.eqb c' c
  | None => false
  end.



(** The observations the loop visits carry none of the codes [cs]. *)
Definition noneOf (cs : list string) (l : list Entry) : Prop :=
  Forall (fun obs => forall c, firstCode obs = Some c -> ~ In c cs) l.

End RestApiService.

(** ** fhirClient.js: dashboard assembly of the SMART client *)

Module FHIRClient.
Import Fhir Vitals.

Section WithNumberToString.

(** [Number.prototype.toString], the decimal rendering of a number. *)
Variable Number_toString : Q -> string.

Record VitalSigns := {
  hr : JsVal;
  bp : JsVal;
  temp : JsVal;
  spo2 : JsVal
}.

(** [o.resource.subject.reference === `Patient/${patientId}`]: reading
    [reference] of a missing [subject] throws. *)
Definition isPatientObservation (patientId : string) (o : Entry) : Js.result bool :=
  match subject (resource o) with
  | Some s =>
      Js.Ok match reference s with
            | Some r => String.eqb r (patientRef patientId)
            | None => false
            end
  | None => Js.Err Js.TypeError
  end.

(** [obs.resource.code.coding[0].code]: the property key, which is the
    text [undefined] when the coding has no [code]. *)
Definition firstCode (obs : Entry) : Js.result string :=
  match code (resource obs) with
  | Some cc =>
      match coding cc with
      | Some (c :: _) =>
          Js.Ok match coding_code c with Some k => k | None => "undefined" end
      | _ => Js.Err Js.TypeError
      end
  | None => Js.Err Js.TypeError
  end.

(** The body of [patientObservations.forEach]; [vitals] is an object
    keyed by observation code. *)
Definition vitalsStep (vitals : gmap string string) (obs : Entry)
  : Js.result (gmap string string) :=
  Js.rbind (firstCode obs) (fun c =>
  Js.Ok match valueQuantity (resource obs) with
        | Some q =>
            match value q with
            | Some v => if Js.truthyQ v then <[c := Number_toString v]> vitals else vitals
            | None => vitals
            end
        | None => vitals
        end).

Fixpoint forEachVital (l : list Entry) (vitals : gmap string string)
  : Js.result (gmap string string) :=
  match l with
  | [] => Js.Ok vitals
  | obs :: r => Js.rbind (vitalsStep vitals obs) (forEachVital r)
  end.

Definition extractVitalsFromObservations (observations : list Entry) (patientId : string)
  : Js.result VitalSigns :=
  Js.rbind (Js.rfilter (isPatientObservation patientId) observations)
    (fun patientObservations =>
  Js.rbind (forEachVital patientObservations ∅) (fun vitals =>
  Js.Ok {| hr := strOrNA (vitals !! "hr");
           bp := strOrNA (vitals !! "bp");
           temp := strOrNA (vitals !! "temp");
           spo2 := strOrNA (vitals !! "spo2") |})).

Record Kpis := {
  totalPatients : Z;
  waitingPatients : Z;
  averageWaitTime : Z;
  bedOccupancy : Z;
  criticalAlerts : Z
}.

(** A row of [patients]; [age] is [None] when the subtraction is NaN
    (no birth date). *)
Record PatientRow := {
  row_id : string;
  row_name : string;
  row_age : option Z;
  row_gender : option string;
  row_status : string;
  row_priority : string;
  row_department : string;
  row_waitTime : Z;
  row_vitals : VitalSigns
}.

Record DashboardData := { kpis : Kpis; patients : list PatientRow }.

(** [`${p.resource.name[0].given[0]} ${p.resource.name[0].family}`] *)
Definition displayName (r : Resource) : Js.result string :=
  match name r with
  | Some (n :: _) =>
      match given n with
      | Some g =>
          Js.Ok (nth 0 g "undefined" +:+ " " +:+
                 match family n with Some f => f | None => "undefined" end)
      | None => Js.Err Js.TypeError
      end
  | _ => Js.Err Js.TypeError
  end.

(** [new Date().getFullYear() - new Date(p.resource.birthDate).getFullYear()] *)
Definition ageOf (today : Age.JsDate) (r : Resource) : option Z :=
  match birthDate r with
  | Some birth => Some (Age.fhirClientAge today birth)
  | None => None
  end.

Definition patientRow (today : Age.JsDate) (observations : list Entry) (p : Entry)
  : Js.result PatientRow :=
  Js.rbind (displayName (resource p)) (fun nm =>
  Js.rbind (extractVitalsFromObservations observations (id (resource p))) (fun v =>
  Js.Ok {| row_id := id (resource p);
           row_name := nm;
           row_age := ageOf today (resource p);
           row_gender := gender (resource p);
           row_status := "in-treatment";
           row_priority := "normal";
           row_department := "Emergency";
           row_waitTime := 15;
           row_vitals := v |})).

Definition inProgress (e : Entry) : bool :=
  match status (resource e) with
  | Some s => String.eqb s "in-progress"
  | None => false
  end.

Definition buildDashboardData (today : Age.JsDate)
    (patients encounters observations : list Entry) : Js.result DashboardData :=
  let k := {| totalPatients := Z.of_nat (length patients);
              waitingPatients := Z.of_nat (length (List.filter inProgress encounters));
              averageWaitTime := 45;
              bedOccupancy := 85;
              criticalAlerts := 3 |} in
  Js.rbind (Js.rmap (patientRow today observations) patients) (fun rows =>
  Js.Ok {| kpis := k; patients := rows |}).

(** An observation of the patient that is stored under the key [k]. *)
Definition storesUnder (patientId k : string) (obs : Entry) : bool :=
  match isPatientObservation patientId obs, firstCode obs with
  | Js.Ok true, Js.Ok c => String.eqb c k
  | _, _ => false
  end.

End WithNumberToString.

End FHIRClient.

(** ** dataSyncService.js: timeline events and their ordering *)

Module Timeline.

(** A timeline event; [timestamp] is the time value of its [Date], in
    milliseconds. *)
Record TimelineEvent := {
  ev_id : string;
  timestamp : Z;
  ev_type : string;
  description : string;
  ev_priority : string;
  source : string;
  confidence : option Q;
  ev_patientId : option string;
  ev_status : option string
}.

(** An encounter in the shape the user interface reads. *)
Record Encounter := {
  enc_id : string;
  enc_patientId : option string;
  startTime : option Z;
  endTime : option Z;
  aiTimeline : list TimelineEvent;
  timelineEvents : list TimelineEvent
}.

(** [Array.prototype.sort(cmp)]: a stable sort.  An element goes in front
    of the first element it does not compare greater than, so elements
    that compare equal keep their order. *)
Fixpoint sortInsert {A} (cmp : A -> A -> Z) (x : A) (sorted : list A) : list A :=
  match sorted with
  | [] => [x]
  | y :: r => if cmp x y <=? 0 then x :: y :: r else y :: sortInsert cmp x r
  end.

Definition Array_sort {A} (cmp : A -> A -> Z) (l : list A) : list A :=
  fold_right (sortInsert cmp) [] l.

(** [(a, b) => b.timestamp - a.timestamp] *)
Definition byTimestampDesc (a b : TimelineEvent) : Z := timestamp b - timestamp a.

Definition encounterEvent (encounter : Encounter) (suffix type text : string) (t : Z)
  : TimelineEvent :=
  {| ev_id := "encounter_" +:+ enc_id encounter +:+ suffix;
     timestamp := t;
     ev_type := type;
     description := text;
     ev_priority := "high";
     source := "fhir";
     confidence := None;
     ev_patientId := enc_patientId encounter;
     ev_status := None |}.

Definition startEvents (encounter : Encounter) : list TimelineEvent :=
  match startTime encounter with
  | Some t => [encounterEvent encounter "_start" "encounter_start" "Encounter started" t]
  | None => []
  end.

Definition endEvents (encounter : Encounter) : list TimelineEvent :=
  match endTime encounter with
  | Some t => [encounterEvent encounter "_end" "encounter_end" "Encounter completed" t]
  | None => []
  end.

(** The array [events] before it is sorted: the start event, the
    AI-generated events, the end event. *)
Definition pushedEvents (encounter : Encounter) (aiTimestamps : list TimelineEvent)
  : list TimelineEvent :=
  (startEvents encounter ++ aiTimestamps ++ endEvents encounter)%list.

(** [generateTimelineEvents(encounter, aiTimestamps = [])]: an argument
    that is [undefined] takes the default. *)
Definition generateTimelineEvents (encounter : Encounter)
    (aiTimestamps : option (list TimelineEvent)) : list TimelineEvent :=
  Array_sort byTimestampDesc (pushedEvents encounter (default [] aiTimestamps)).

(** [getLatestAITimestamp(timestamps)] *)
Definition getLatestAITimestamp (timestamps : option (list TimelineEvent))
  : option TimelineEvent :=
  match timestamps with
  | Some (e :: _) => Some e
  | _ => None
  end.

(** Events recorded from the clinical record, as opposed to generated. *)
Definition isClinical (e : TimelineEvent) : bool := String.eqb (source e) "fhir".

(** Descending by timestamp. *)
Definition sortedDesc (l : list TimelineEvent) : Prop :=
  StronglySorted (fun a b => timestamp b <= timestamp a) l.

(** No generated event stands in front of a clinical event of the same
    timestamp. *)
Fixpoint clinicalFirstOnTies (l : list TimelineEvent) : bool :=
  match l with
  | [] => true
  | e :: r =>
      (isClinical e ||
       forallb (fun e' => negb (isClinical e' && (timestamp e' =? timestamp e))) r)
      && clinicalFirstOnTies r
  end.

End Timeline.

(** ** The dashboard data the services exchange *)

Module Dashboard.
Import Timeline.

(** A parsed JSON document whose shape the services do not inspect. *)
#[warnings="-register-all"]
Inductive Json :=
| JNull
| JBool (b : bool)
| JNum (q : Q)
| JStr (s : string)
| JArr (items : list Json)
| JObj (fields : list (string * Json)).

(** The body of an HTTP response, once [response.json()] has parsed it: a
    FHIR bundle with its [entry] property, or any other document. *)
Inductive Body :=
| Bundle (entry : option (list Fhir.Entry))
| Document (doc : Json).

Record Kpis := {
  totalPatients : Z;
  waitingPatients : Z;
  averageWaitTime : Z;
  bedOccupancy : Z;
  criticalAlerts : Z
}.

Record PatientSummary := {
  id : string;
  name : string;
  age : Z;
  gender : option string;
  status : string;
  priority : string;
  department : string;
  waitTime : Z;
  vitals : option RestApiService.VitalSigns;
  aiTimestamps : option (list TimelineEvent);
  lastAITimestamp : option TimelineEvent
}.

Record Department := {
  dept_name : string;
  dept_status : string;
  occupancy : Z;
  dept_waitTime : Z
}.

Record Alert := {
  alert_id : string;
  title : string;
  alert_description : string;
  severity : string;
  patient : string;
  alert_patientId : string;
  alert_timestamp : string
}.

Record LosStats := { average : Q; median : Q }.

Record AdmittedPatient := {
  adm_id : string;
  adm_name : string;
  adm_department : string;
  bedWaitTime : Z
}.

(** What the AI service stores per patient in [cachedData.aiInsights]. *)
Record AiInsight := {
  insights : option Json;
  recommendations : option Json;
  ai_confidence : option Q;
  generatedAt : option string
}.

(** A dashboard object: the raw data of the REST path, the adapted data
    of the mock path, and the cache, which differ only in the properties
    that are present. *)
Record Data := {
  kpis : option Kpis;
  patients : option (list PatientSummary);
  encounters : option (list Encounter);
  observations : option (list Fhir.Entry);
  departments : option (list Department);
  alerts : option (list Alert);
  turnaround : option (gmap string Z);
  losStats : option LosStats;
  admittedPatients : option (list AdmittedPatient);
  analytics : option Body;
  aiInsights : option (gmap string AiInsight)
}.

(** [a || b] on a property that may be absent (a present object or array
    is truthy). *)
Definition orElse {A} (a b : option A) : option A :=
  match a with Some _ => a | None => b end.

(** [{ ...base, ...over }] *)
Definition spread (base over : Data) : Data :=
  {| kpis := orElse (kpis over) (kpis base);
     patients := orElse (patients over) (patients base);
     encounters := orElse (encounters over) (encounters base);
     observations := orElse (observations over) (observations base);
     departments := orElse (departments over) (departments base);
     alerts := orElse (alerts over) (alerts base);
     turnaround := orElse (turnaround over) (turnaround base);
     losStats := orElse (losStats over) (losStats base);
     admittedPatients := orElse (admittedPatients over) (admittedPatients base);
     analytics := orElse (analytics over) (analytics base);
     aiInsights := orElse (aiInsights over) (aiInsights base) |}.

(** The cache a fresh [DataSyncService] is constructed with. *)
Definition initialCache : Data :=
  {| kpis := None;
     patients := Some [];
     encounters := Some [];
     observations := Some [];
     departments := None;
     alerts := Some [];
     turnaround := None;
     losStats := None;
     admittedPatients := None;
     analytics := Some (Document (JObj []));
     aiInsights := None |}.

Definition withPatients (d : Data) (ps : option (list PatientSummary)) : Data :=
  {| kpis := kpis d; patients := ps; encounters := encounters d;
     observations := observations d; departments := departments d;
     alerts := alerts d; turnaround := turnaround d; losStats := losStats d;
     admittedPatients := admittedPatients d; analytics := analytics d;
     aiInsights := aiInsights d |}.

Definition withEncounters (d : Data) (es : option (list Encounter)) : Data :=
  {| kpis := kpis d; patients := patients d; encounters := es;
     observations := observations d; departments := departments d;
     alerts := alerts d; turnaround := turnaround d; losStats := losStats d;
     admittedPatients := admittedPatients d; analytics := analytics d;
     aiInsights := aiInsights d |}.

Definition withAnalytics (d : Data) (a : option Body) : Data :=
  {| kpis := kpis d; patients := patients d; encounters := encounters d;
     observations := observations d; departments := departments d;
     alerts := alerts d; turnaround := turnaround d; losStats := losStats d;
     admittedPatients := admittedPatients d; analytics := a;
     aiInsights := aiInsights d |}.

Definition withAiInsights (d : Data) (i : option (gmap string AiInsight)) : Data :=
  {| kpis := kpis d; patients := patients d; encounters := encounters d;
     observations := observations d; departments := departments d;
     alerts := alerts d; turnaround := turnaround d; losStats := losStats d;
     admittedPatients := admittedPatients d; analytics := analytics d;
     aiInsights := i |}.

End Dashboard.

(** ** Effects: requests, randomness, the clock, callbacks, service state

    An asynchronous function is a tree of the effects it performs.  The
    tree is finite: every loop of the services runs over a list. *)

Module Effects.
Import Dashboard Timeline.
Export Js.

(** The address of a request: a search on the FHIR server with its query
    parameters in order, the capability statement, or a static file. *)
Inductive Url :=
| SearchUrl (resourceType : string) (query : list (string * string))
| Metadata
| Static (path : string).

(** What [await fetch(url)] followed by [await response.json()] gives: the
    request is rejected, or a response arrives with a status and a body
    that parses ([Some]) or not ([None]). *)
Inductive FetchOutcome :=
| Rejected
| Responded (status : Z) (body : option Body).

(** [new Date()]: the time value and the local calendar fields. *)
Record Instant := { getTime : Z; calendar : Age.JsDate }.

(** An entry of the table [events] of [generatePatientAITimestamps]. *)
Record EventTemplate := {
  tpl_type : string;
  tpl_description : string;
  tpl_priority : string
}.

(** What [aiDataService.generatePatientTimeline(patient)] resolves to. *)
Record AiTimelineData := {
  ai_timelineEvents : option (list TimelineEvent);
  ai_insight : AiInsight
}.

(** The state of the two singleton services and of the interval timers. *)
Record World := {
  rest_isConnected : bool;
  isConnected : bool;
  lastSyncTime : option Z;
  syncInterval : option nat;
  subscribers : list nat;
  cachedData : Data;
  aiTimestampData : gmap string (list TimelineEvent);
  activeTimers : list nat;
  nextTimer : nat
}.

Definition setRestConnected (w : World) (b : bool) : World :=
  {| rest_isConnected := b; isConnected := isConnected w;
     lastSyncTime := lastSyncTime w; syncInterval := syncInterval w;
     subscribers := subscribers w; cachedData := cachedData w;
     aiTimestampData := aiTimestampData w; activeTimers := activeTimers w;
     nextTimer := nextTimer w |}.

Definition setIsConnected (w : World) (b : bool) : World :=
  {| rest_isConnected := rest_isConnected w; isConnected := b;
     lastSyncTime := lastSyncTime w; syncInterval := syncInterval w;
     subscribers := subscribers w; cachedData := cachedData w;
     aiTimestampData := aiTimestampData w; activeTimers := activeTimers w;
     nextTimer := nextTimer w |}.

Definition setLastSyncTime (w : World) (t : option Z) : World :=
  {| rest_isConnected := rest_isConnected w; isConnected := isConnected w;
     lastSyncTime := t; syncInterval := syncInterval w;
     subscribers := subscribers w; cachedData := cachedData w;
     aiTimestampData := aiTimestampData w; activeTimers := activeTimers w;
     nextTimer := nextTimer w |}.

Definition setSubscribers (w : World) (s : list nat) : World :=
  {| rest_isConnected := rest_isConnected w; isConnected := isConnected w;
     lastSyncTime := lastSyncTime w; syncInterval := syncInterval w;
     subscribers := s; cachedData := cachedData w;
     aiTimestampData := aiTimestampData w; activeTimers := activeTimers w;
     nextTimer := nextTimer w |}.

Definition setCachedData (w : World) (d : Data) : World :=
  {| rest_isConnected := rest_isConnected w; isConnected := isConnected w;
     lastSyncTime := lastSyncTime w; syncInterval := syncInterval w;
     subscribers := subscribers w; cachedData := d;
     aiTimestampData := aiTimestampData w; activeTimers := activeTimers w;
     nextTimer := nextTimer w |}.

Definition setAiTimestampData (w : World) (m : gmap string (list TimelineEvent)) : World :=
  {| rest_isConnected := rest_isConnected w; isConnected := isConnected w;
     lastSyncTime := lastSyncTime w; syncInterval := syncInterval w;
     subscribers := subscribers w; cachedData := cachedData w;
     aiTimestampData := m; activeTimers := activeTimers w;
     nextTimer := nextTimer w |}.

(** [clearInterval(id)] and [setInterval(...)], which returns a fresh
    identifier; [setSyncInterval] assigns [this.syncInterval]. *)
Definition clearInterval (w : World) (timer : nat) : World :=
  {| rest_isConnected := rest_isConnected w; isConnected := isConnected w;
     lastSyncTime := lastSyncTime w; syncInterval := syncInterval w;
     subscribers := subscribers w; cachedData := cachedData w;
     aiTimestampData := aiTimestampData w;
     activeTimers := List.filter (fun t => negb (Nat.eqb t timer)) (activeTimers w);
     nextTimer := nextTimer w |}.

Definition setInterval (w : World) : World :=
  {| rest_isConnected := rest_isConnected w; isConnected := isConnected w;
     lastSyncTime := lastSyncTime w; syncInterval := syncInterval w;
     subscribers := subscribers w; cachedData := cachedData w;
     aiTimestampData := aiTimestampData w;
     activeTimers := (activeTimers w ++ [nextTimer w])%list;
     nextTimer := S (nextTimer w) |}.

Definition setSyncInterval (w : World) (timer : option nat) : World :=
  {| rest_isConnected := rest_isConnected w; isConnected := isConnected w;
     lastSyncTime := lastSyncTime w; syncInterval := timer;
     subscribers := subscribers w; cachedData := cachedData w;
     aiTimestampData := aiTimestampData w; activeTimers := activeTimers w;
     nextTimer := nextTimer w |}.

(** What the outside can observe of a run, in order. *)
Inductive Event :=
| Fetched (url : Url)
| Notified (callback : nat) (data : Data)
| AiRequested (p : PatientSummary)
| RandomDrawn
| ClockRead
| Shuffled.

(** The effects: a request with its awaited response, a draw of
    [Math.random()], a reading of the clock, the random-comparator sort
    of the event table, a call of a subscriber's callback (which returns
    or throws, and does not call back into the services), a call of the
    AI service, and reads and writes of the service state. *)
Inductive prog (A : Type) : Type :=
| Ret (a : A)
| Throw (e : exn)
| Fetch (url : Url) (k : FetchOutcome -> prog A)
| MathRandom (k : Q -> prog A)
| NewDate (k : Instant -> prog A)
| SortRandomly (l : list EventTemplate) (k : list EventTemplate -> prog A)
| Call (callback : nat) (data : Data) (k : option exn -> prog A)
| GeneratePatientTimeline (p : PatientSummary) (k : result AiTimelineData -> prog A)
| Get (k : World -> prog A)
| Put (w : World) (k : prog A).

Arguments Ret {A} a.
Arguments Throw {A} e.
Arguments Fetch {A} url k.
Arguments MathRandom {A} k.
Arguments NewDate {A} k.
Arguments SortRandomly {A} l k.
Arguments Call {A} callback data k.
Arguments GeneratePatientTimeline {A} p k.
Arguments Get {A} k.
Arguments Put {A} w k.

Fixpoint bind {A B} (p : prog A) (f : A -> prog B) : prog B :=
  match p with
  | Ret a => f a
  | Throw e => Throw e
  | Fetch u k => Fetch u (fun o => bind (k o) f)
  | MathRandom k => MathRandom (fun r => bind (k r) f)
  | NewDate k => NewDate (fun d => bind (k d) f)
  | SortRandomly l k => SortRandomly l (fun l' => bind (k l') f)
  | Call c d k => Call c d (fun o => bind (k o) f)
  | GeneratePatientTimeline p k => GeneratePatientTimeline p (fun o => bind (k o) f)
  | Get k => Get (fun w => bind (k w) f)
  | Put w k => Put w (bind k f)
  end.

(** [try { p } catch (error) { h error }] *)
Fixpoint try_catch {A} (p : prog A) (h : exn -> prog A) : prog A :=
  match p with
  | Ret a => Ret a
  | Throw e => h e
  | Fetch u k => Fetch u (fun o => try_catch (k o) h)
  | MathRandom k => MathRandom (fun r => try_catch (k r) h)
  | NewDate k => NewDate (fun d => try_catch (k d) h)
  | SortRandomly l k => SortRandomly l (fun l' => try_catch (k l') h)
  | Call c d k => Call c d (fun o => try_catch (k o) h)
  | GeneratePatientTimeline p k =>
      GeneratePatientTimeline p (fun o => try_catch (k o) h)
  | Get k => Get (fun w => try_catch (k w) h)
  | Put w k => Put w (try_catch k h)
  end.

Declare Scope prog_scope.
Delimit Scope prog_scope with prog.
Notation "x <- p ;; q" := (bind p (fun x => q))
  (at level 100, p at next level, right associativity) : prog_scope.
Notation "p ;; q" := (bind p (fun _ => q))
  (at level 100, right associativity) : prog_scope.

Definition fetch (url : Url) : prog FetchOutcome := Fetch url Ret.
Definition random : prog Q := MathRandom Ret.
Definition newDate : prog Instant := NewDate Ret.
Definition get : prog World := Get Ret.
Definition put (w : World) : prog unit := Put w (Ret tt).
Definition lift {A} (r : result A) : prog A :=
  match r with Ok a => Ret a | Err e => Throw e end.

(** [l.map(f)] and a [for] loop over [l], with effects in the body. *)
Fixpoint mapM {A B} (f : A -> prog B) (l : list A) : prog (list B) :=
  match l with
  | [] => Ret []
  | x :: r => (y <- f x ;; ys <- mapM f r ;; Ret (y :: ys))%prog
  end.

Fixpoint forEach {A} (f : A -> prog unit) (l : list A) : prog unit :=
  match l with
  | [] => Ret tt
  | x :: r => (f x ;; forEach f r)%prog
  end.

(** The surroundings of a run: each answer may depend on what has been
    observed so far. *)
Record Env := {
  env_fetch : list Event -> Url -> FetchOutcome;
  env_random : list Event -> Q;
  env_now : list Event -> Instant;
  env_shuffle : list Event -> list EventTemplate -> list EventTemplate;
  env_callback : list Event -> nat -> Data -> option exn;
  env_ai : list Event -> PatientSummary -> result AiTimelineData
}.

(** A run in which every awaited answer arrives before the next
    statement: the outcome, the final state and everything observed. *)
Fixpoint run {A} (env : Env) (p : prog A) (w : World) (tr : list Event)
  : result A * World * list Event :=
  match p with
  | Ret a => (Ok a, w, tr)
  | Throw e => (Err e, w, tr)
  | Fetch u k => run env (k (env_fetch env tr u)) w (tr ++ [Fetched u])%list
  | MathRandom k => run env (k (env_random env tr)) w (tr ++ [RandomDrawn])%list
  | NewDate k => run env (k (env_now env tr)) w (tr ++ [ClockRead])%list
  | SortRandomly l k => run env (k (env_shuffle env tr l)) w (tr ++ [Shuffled])%list
  | Call c d k => run env (k (env_callback env tr c d)) w (tr ++ [Notified c d])%list
  | GeneratePatientTimeline p k =>
      run env (k (env_ai env tr p)) w (tr ++ [AiRequested p])%list
  | Get k => run env (k w) w tr
  | Put w' k => run env k w' tr
  end.

(** The snapshots a callback received, in order. *)
Definition deliveries (callback : nat) (tr : list Event) : list Data :=
  flat_map (fun ev =>
    match ev with
    | Notified c d => if Nat.eqb c callback then [d] else []
    | _ => []
    end) tr.

(** The requests observed, in order. *)
Definition requests (tr : list Event) : list Url :=
  flat_map (fun ev => match ev with Fetched u => [u] | _ => [] end) tr.

(** The query parameters of a search request. *)
Definition queryOf (u : Url) : list (string * string) :=
  match u with
  | SearchUrl _ query => query
  | _ => []
  end.

(** Events that are neither a request nor a notification. *)
Definition internal (ev : Event) : bool :=
  match ev with
  | Fetched _ | Notified _ _ => false
  | _ => true
  end.

(** A request that did not bring a 2xx response. *)
Definition failed (o : FetchOutcome) : bool :=
  match o with
  | Rejected => true
  | Responded status _ => negb ((200 <=? status) && (status <=? 299))
  end.

(** Two states that differ at most in the cache, and there at most in
    the AI insights. *)
Definition sameButInsights (w w' : World) : Prop :=
  exists i, w' = setCachedData w (withAiInsights (cachedData w) i).

(** A request to the FHIR server, as opposed to a static file. *)
Definition remoteRequest (ev : Event) : bool :=
  match ev with
  | Fetched (SearchUrl _ _) => true
  | _ => false
  end.

End Effects.

(** ** restApiService.js: requests and dashboard assembly *)

Module RestApi.
Import Fhir Dashboard Effects.
Local Open Scope prog_scope.

(** A property value of the [params] object. *)
Inductive ParamValue :=
| PUndefined
| PNull
| PNum (z : Z)
| PStr (s : string).

(** The [params] object: its own properties in insertion order, each key
    once. *)
Definition Params := list (string * ParamValue).

(** [params[key]] *)
Fixpoint getParam (params : Params) (key : string) : ParamValue :=
  match params with
  | [] => PUndefined
  | (k, v) :: r => if String.eqb k key then v else getParam r key
  end.

Definition truthyParam (v : ParamValue) : bool :=
  match v with
  | PUndefined | PNull => false
  | PNum z => truthyZ z
  | PStr s => truthyS s
  end.

(** The text [qp.append(key, value)] stores, for a value that is neither
    [undefined] nor [null]. *)
Definition paramText (v : ParamValue) : option string :=
  match v with
  | PUndefined | PNull => None
  | PNum z => Some (string_of_Z z)
  | PStr s => Some s
  end.

Definition buildUrl (resourceType : string) (params : Params) (omitSort : bool) : Url :=
  let qp := flat_map (fun kv =>
              match paramText (snd kv) with
              | Some text => [(fst kv, text)]
              | None => []
              end) params in
  let qp := if truthyParam (getParam params "_count") then qp
            else (qp ++ [("_count", "10")])%list in
  let qp := if negb omitSort && negb (truthyParam (getParam params "_sort"))
            then (qp ++ [("_sort", "-_lastUpdated")])%list
            else qp in
  SearchUrl resourceType qp.

(** [response.ok] *)
Definition ok (status : Z) : bool := (200 <=? status) && (status <=? 299).

(** [await fetch(url, ...)]: a rejected request throws. *)
Definition fetchResponse (url : Url) : prog (Z * option Body) :=
  o <- fetch url ;;
  match o with
  | Rejected => Throw NetworkFailure
  | Responded status body => Ret (status, body)
  end.

(** [await response.json()]: a body that does not parse throws. *)
Definition json (response : Z * option Body) : prog Body :=
  match snd response with
  | Some data => Ret data
  | None => Throw SyntaxError
  end.

(** [data.entry || []]; reading a property of [null] throws.  A document
    that is not a bundle is one without an [entry] property. *)
Definition entryOrEmpty (data : Body) : prog (list Entry) :=
  match data with
  | Bundle (Some entry) => Ret entry
  | Bundle None => Ret []
  | Document JNull => Throw TypeError
  | Document _ => Ret []
  end.

Definition getMockResources (resourceType : string) (params : Params) : list Entry := [].

Definition searchResources (resourceType : string) (params : Params) : prog (list Entry) :=
  try_catch
    (response <- fetchResponse (buildUrl resourceType params false) ;;
     response <- (if negb (ok (fst response)) &&
                     ((fst response =? 400) || (fst response =? 422))
                  then fetchResponse (buildUrl resourceType params true)
                  else Ret response) ;;
     if negb (ok (fst response)) then Throw (HttpError (fst response))
     else (data <- json response ;; entryOrEmpty data))
    (fun error => Ret (getMockResources resourceType params)).

(** What a search resolves to once the last response is in. *)
Definition searchOutcome (o : FetchOutcome) : list Fhir.Entry :=
  match o with
  | Responded status (Some (Bundle (Some entry))) => if ok status then entry else []
  | _ => []
  end.

Definition rejectsParameters (o : FetchOutcome) : bool :=
  match o with
  | Responded status _ => (status =? 400) || (status =? 422)
  | Rejected => false
  end.

(** Modelled from the spec: the resource type names of the missing
    [models/fhirTypes] table, which the spec lists as Patient, Encounter,
    Observation and DiagnosticReport. *)
Definition PATIENT : string := "Patient".
Definition ENCOUNTER : string := "Encounter".
Definition OBSERVATION : string := "Observation".

Definition getPatientName (patient : Resource) : string :=
  match Fhir.name patient with
  | Some (n :: _) =>
      let given := match Fhir.given n with
                   | Some g => String.concat " " g
                   | None => ""
                   end in
      let family := match Fhir.family n with
                    | Some f => if truthyS f then f else ""
                    | None => ""
                    end in
      trim (given +:+ " " +:+ family)
  | _ => "Unknown Patient"
  end.

Definition getPatientStatus (patient : Resource) : string := "in-treatment".
Definition getPatientPriority (patient : Resource) : string := "normal".

(** [Math.floor(Math.random() * 60) + 10] *)
Definition calculateWaitTime (patient : Resource) : prog Z :=
  r <- random ;; Ret (Math_floor (r * 60) + 10).

(** [calculateAge(birthDate)], reading the clock. *)
Definition calculateAge (birthDate : option Age.JsDate) : prog Z :=
  match birthDate with
  | None => Ret 0
  | Some birth => today <- newDate ;; Ret (Age.calculateAge (calendar today) (Some birth))
  end.

Definition adaptPatient (observations : list Entry) (patient : Entry) : prog PatientSummary :=
  a <- calculateAge (birthDate (resource patient)) ;;
  w <- calculateWaitTime (resource patient) ;;
  Ret {| id := Fhir.id (resource patient);
         name := getPatientName (resource patient);
         age := a;
         gender := Fhir.gender (resource patient);
         status := getPatientStatus (resource patient);
         priority := getPatientPriority (resource patient);
         department := "Emergency";
         waitTime := w;
         vitals := Some (RestApiService.extractVitals observations (Fhir.id (resource patient)));
         aiTimestamps := None;
         lastAITimestamp := None |}.

Definition calculateAverageWaitTime (patients : list PatientSummary) : Z :=
  match patients with
  | [] => 0
  | _ =>
      let totalWaitTime := fold_left (fun sum p => sum + waitTime p) patients 0 in
      Math_round (inject_Z totalWaitTime / inject_Z (Z.of_nat (length patients)))
  end.

Definition hasStatus (s : string) (enc : Entry) : bool :=
  match Fhir.status (resource enc) with
  | Some x => String.eqb x s
  | None => false
  end.

Definition calculateBedOccupancy (encounters : list Entry) : Z :=
  let activeEncounters := Z.of_nat (length (List.filter (hasStatus "in-progress") encounters)) in
  Math_round (inject_Z activeEncounters / 20 * 100).

Definition isCritical (p : PatientSummary) : bool := String.eqb (priority p) "critical".

Definition countCriticalAlerts (patients : list PatientSummary) : Z :=
  Z.of_nat (length (List.filter isCritical patients)).

Definition buildDepartmentData (encounters : list Entry) : list Department :=
  [ {| dept_name := "Emergency Department";
       dept_status := "operational";
       occupancy := calculateBedOccupancy encounters;
       dept_waitTime := 25 |} ].

Definition buildAlertsData (patients : list PatientSummary) : list Alert :=
  map (fun p =>
         {| alert_id := "alert-" +:+ id p;
            title := "Critical Patient Alert";
            alert_description := "Patient " +:+ name p +:+ " requires immediate attention";
            severity := "critical";
            patient := name p;
            alert_patientId := id p;
            alert_timestamp := "Just now" |})
      (List.filter isCritical patients).

Definition buildTurnaroundData (encounters : list Entry) : gmap string Z :=
  DepartmentAnalytics.defaultTurnaround.

Definition buildLOSStats (encounters : list Entry) : LosStats :=
  {| average := 45 # 10; median := 32 # 10 |}.

(** [Math.floor(Math.random() * 120) + 60] for each finished encounter. *)
Definition buildAdmittedPatients (encounters : list Entry) : prog (list AdmittedPatient) :=
  mapM (fun enc =>
          r <- random ;;
          Ret {| adm_id := Fhir.id (resource enc);
                 adm_name := "Patient " +:+ Fhir.id (resource enc);
                 adm_department := "Emergency";
                 bedWaitTime := Math_floor (r * 120) + 60 |})
       (List.filter (hasStatus "finished") encounters).

Definition buildDashboardData (patients encounters observations : list Entry) : prog Data :=
  adaptedPatients <- mapM (adaptPatient observations) patients ;;
  admitted <- buildAdmittedPatients encounters ;;
  Ret {| kpis := Some
           {| totalPatients := Z.of_nat (length adaptedPatients);
              waitingPatients :=
                Z.of_nat (length (List.filter
                  (fun p => String.eqb (status p) "waiting") adaptedPatients));
              averageWaitTime := calculateAverageWaitTime adaptedPatients;
              bedOccupancy := calculateBedOccupancy encounters;
              criticalAlerts := countCriticalAlerts adaptedPatients |};
         patients := Some adaptedPatients;
         encounters := None;
         observations := None;
         departments := Some (buildDepartmentData encounters);
         alerts := Some (buildAlertsData adaptedPatients);
         turnaround := Some (buildTurnaroundData encounters);
         losStats := Some (buildLOSStats encounters);
         admittedPatients := Some admitted;
         analytics := None;
         aiInsights := None |}.

(** What [getDashboardData] resolves to: a dashboard object, or the mock
    document as it was parsed. *)
Inductive RawData :=
| Shaped (d : Data)
| Unshaped (b : Body).

Definition summaryFixture : Url := Static "/mock-data/ed-summary.json".
Definition analyticsFixture : Url := Static "/mock-data/department-analytics.json".

Definition emptyDashboard : Data :=
  {| kpis := Some {| totalPatients := 0; waitingPatients := 0; averageWaitTime := 0;
                     bedOccupancy := 0; criticalAlerts := 0 |};
     patients := Some [];
     encounters := None;
     observations := None;
     departments := Some [];
     alerts := Some [];
     turnaround := Some ∅;
     losStats := Some {| average := 0; median := 0 |};
     admittedPatients := Some [];
     analytics := None;
     aiInsights := None |}.

Definition getMockDashboardData : prog RawData :=
  try_catch
    (response <- fetchResponse summaryFixture ;;
     b <- json response ;;
     Ret (Unshaped b))
    (fun error => Ret (Shaped emptyDashboard)).

Definition getDashboardData : prog RawData :=
  try_catch
    (patients <- searchResources PATIENT [("_count", PNum 20)] ;;
     encounters <- searchResources ENCOUNTER [("_count", PNum 20)] ;;
     observations <- searchResources OBSERVATION [("_count", PNum 50)] ;;
     d <- buildDashboardData patients encounters observations ;;
     Ret (Shaped d))
    (fun error => getMockDashboardData).

(** [testConnection()]: the probe of the capability statement. *)
Definition testConnection : prog bool :=
  try_catch
    (response <- fetchResponse Metadata ;;
     w <- get ;;
     if ok (fst response)
     then (put (setRestConnected w true) ;; Ret true)
     else (put (setRestConnected w false) ;; Ret false))
    (fun error =>
     w <- get ;;
     put (setRestConnected w false) ;;
     Ret false).

(** The dashboard that [buildDashboardData] assembles from three empty
    result sets. *)
Definition dashboardOfNothing : Data :=
  {| kpis := Some {| totalPatients := 0; waitingPatients := 0; averageWaitTime := 0;
                     bedOccupancy := 0; criticalAlerts := 0 |};
     patients := Some [];
     encounters := None;
     observations := None;
     departments := Some (buildDepartmentData []);
     alerts := Some [];
     turnaround := Some (buildTurnaroundData []);
     losStats := Some (buildLOSStats []);
     admittedPatients := Some [];
     analytics := None;
     aiInsights := None |}.

End RestApi.

(** ** dataSyncService.js: subscriptions, load cycles, refresh *)

Module DataSyncService.
Import Fhir Dashboard Timeline Effects.
Local Open Scope prog_scope.

(** The argument of [subscribe]: a function, known by its identity, or
    any other value. *)
Inductive JsValue :=
| Function (f : nat)
| NotAFunction (v : Json).

(** The function [subscribe] returns: the closure that deletes the
    callback, or the empty function. *)
Inductive Unsubscribe :=
| DeleteCallback (f : nat)
| EmptyFunction.

(** [Set.prototype.add] and [Set.prototype.delete]; a [Set] iterates in
    insertion order. *)
Definition setAdd (f : nat) (s : list nat) : list nat :=
  if existsb (Nat.eqb f) s then s else (s ++ [f])%list.

Definition setDelete (f : nat) (s : list nat) : list nat :=
  List.filter (fun g => negb (Nat.eqb g f)) s.

Definition subscribe (callback : JsValue) : prog Unsubscribe :=
  match callback with
  | NotAFunction _ => Ret EmptyFunction
  | Function f =>
      w <- get ;;
      put (setSubscribers w (setAdd f (subscribers w))) ;;
      Ret (DeleteCallback f)
  end.

(** A call of the function that [subscribe] returned. *)
Definition unsubscribe (u : Unsubscribe) : prog unit :=
  match u with
  | EmptyFunction => Ret tt
  | DeleteCallback f =>
      try_catch
        (w <- get ;; put (setSubscribers w (setDelete f (subscribers w))))
        (fun error => Ret tt)
  end.

(** [callback(data)]: the callback returns or throws. *)
Definition invoke (callback : nat) (data : Data) : prog unit :=
  Call callback data (fun o =>
    match o with
    | Some e => Throw e
    | None => Ret tt
    end).

Definition notifySubscribers (data : Data) : prog unit :=
  w <- get ;;
  forEach (fun callback => try_catch (invoke callback data) (fun error => Ret tt))
          (subscribers w).

(** The table [events] of [generatePatientAITimestamps]. *)
Definition eventTable : list EventTemplate :=
  [ {| tpl_type := "admission";
       tpl_description := "Patient admitted to emergency department";
       tpl_priority := "high" |};
    {| tpl_type := "vital_check";
       tpl_description := "Vital signs checked";
       tpl_priority := "medium" |};
    {| tpl_type := "lab_order";
       tpl_description := "Laboratory tests ordered";
       tpl_priority := "medium" |};
    {| tpl_type := "imaging";
       tpl_description := "Diagnostic imaging scheduled";
       tpl_priority := "high" |};
    {| tpl_type := "consultation";
       tpl_description := "Specialist consultation requested";
       tpl_priority := "high" |};
    {| tpl_type := "medication";
       tpl_description := "Medication administered";
       tpl_priority := "medium" |};
    {| tpl_type := "discharge_plan";
       tpl_description := "Discharge planning initiated";
       tpl_priority := "low" |} ].

(** The body of [selectedEvents.forEach((event, index) => ...)]: three
    draws, for the event time, the confidence and the status. *)
Definition aiEvent (now : Z) (patient : PatientSummary) (index : nat)
    (event : EventTemplate) : prog TimelineEvent :=
  r1 <- random ;;
  r2 <- random ;;
  r3 <- random ;;
  Ret {| ev_id := "ai_" +:+ id patient +:+ "_" +:+ string_of_Z (Z.of_nat index);
         timestamp :=
           truncate (inject_Z now -
                     (inject_Z (Z.of_nat index * 15) + r1 * 30) * 60000);
         ev_type := tpl_type event;
         description := tpl_description event;
         ev_priority := tpl_priority event;
         source := "ai_generated";
         confidence := Some (r2 * (3 # 10) + (7 # 10))%Q;
         ev_patientId := Some (id patient);
         ev_status := Some (if Qle_bool r3 (2 # 10) then "pending" else "completed") |}.

Fixpoint forEachIndexed {A B} (f : nat -> A -> prog B) (index : nat) (l : list A)
  : prog (list B) :=
  match l with
  | [] => Ret []
  | x :: r => y <- f index x ;; ys <- forEachIndexed f (S index) r ;; Ret (y :: ys)
  end.

Definition generatePatientAITimestamps (patient : PatientSummary)
  : prog (list TimelineEvent) :=
  now <- newDate ;;
  r <- random ;;
  let numEvents := Math_floor (r * 5) + 3 in
  shuffled <- SortRandomly eventTable Ret ;;
  let selectedEvents := firstn (Z.to_nat numEvents) shuffled in
  timestamps <- forEachIndexed (aiEvent (getTime now) patient) 0 selectedEvents ;;
  Ret (Array_sort byTimestampDesc timestamps).

(** The [try] block of the loop body of [generateAITimestamps]. *)
Definition requestAiTimeline (patient : PatientSummary)
    (aiTimestamps : gmap string (list TimelineEvent))
  : prog (gmap string (list TimelineEvent)) :=
  aiTimelineData <- GeneratePatientTimeline patient lift ;;
  w <- get ;;
  put (setCachedData w
         (withAiInsights (cachedData w)
            (Some (<[id patient := ai_insight aiTimelineData]>
                     (default ∅ (aiInsights (cachedData w))))))) ;;
  Ret (<[id patient := default [] (ai_timelineEvents aiTimelineData)]> aiTimestamps).

Fixpoint forPatients (ps : list PatientSummary)
    (aiTimestamps : gmap string (list TimelineEvent))
  : prog (gmap string (list TimelineEvent)) :=
  match ps with
  | [] => Ret aiTimestamps
  | patient :: r =>
      next <- try_catch (requestAiTimeline patient aiTimestamps)
                (fun error =>
                   ts <- generatePatientAITimestamps patient ;;
                   Ret (<[id patient := ts]> aiTimestamps)) ;;
      forPatients r next
  end.

Definition generateAITimestamps (data : Data) : prog (gmap string (list TimelineEvent)) :=
  match patients data with
  | Some ps => forPatients ps ∅
  | None => Ret ∅
  end.

(** A property key read from a value that may be [undefined]. *)
Definition propertyKey (k : option string) : string := default "undefined" k.

Definition enhancePatient (aiTimestamps : gmap string (list TimelineEvent))
    (p : PatientSummary) : PatientSummary :=
  {| id := id p; name := name p; age := age p; gender := gender p;
     status := status p; priority := priority p; department := department p;
     waitTime := waitTime p; vitals := vitals p;
     aiTimestamps := Some (default [] (aiTimestamps !! id p));
     lastAITimestamp := getLatestAITimestamp (aiTimestamps !! id p) |}.

Definition enhanceEncounter (aiTimestamps : gmap string (list TimelineEvent))
    (encounter : Encounter) : Encounter :=
  let ai := aiTimestamps !! propertyKey (enc_patientId encounter) in
  {| enc_id := enc_id encounter; enc_patientId := enc_patientId encounter;
     startTime := startTime encounter; endTime := endTime encounter;
     aiTimeline := default [] ai;
     timelineEvents := generateTimelineEvents encounter ai |}.

(** The two assignments to [data.patients] and [data.encounters]. *)
Definition annotate (aiTimestamps : gmap string (list TimelineEvent)) (data : Data) : Data :=
  let data1 := match patients data with
               | Some ps => withPatients data (Some (map (enhancePatient aiTimestamps) ps))
               | None => data
               end in
  match encounters data1 with
  | Some es => withEncounters data1 (Some (map (enhanceEncounter aiTimestamps) es))
  | None => data1
  end.

Definition enhanceWithAITimestamps (data : Data) : prog Data :=
  try_catch
    (aiTimestamps <- generateAITimestamps data ;;
     Ret (annotate aiTimestamps data))
    (fun error => Ret data).

Section WithAdapter.

(** [adaptDashboardData(rawData, isFHIR)] of the module [utils/fhirAdapter],
    whose source is not part of the development: any function, which may
    throw. *)
Variable adaptDashboardData : Body -> bool -> result Data.

(** The dashboard properties of a parsed document, for the one path on
    which a document is used without being adapted. *)
Variable asDashboard : Body -> Data.

Definition loadDashboardData : prog unit :=
  try_catch
    (w <- get ;;
     rawData <- (if isConnected w
                 then RestApi.getDashboardData
                 else (response <- RestApi.fetchResponse RestApi.summaryFixture ;;
                       b <- RestApi.json response ;;
                       Ret (RestApi.Unshaped b))) ;;
     w <- get ;;
     adaptedData <- (if isConnected w
                     then Ret match rawData with
                              | RestApi.Shaped d => d
                              | RestApi.Unshaped b => asDashboard b
                              end
                     else match rawData with
                          | RestApi.Unshaped b => lift (adaptDashboardData b false)
                          | RestApi.Shaped d => Ret d
                          end) ;;
     enhancedData <- enhanceWithAITimestamps adaptedData ;;
     w <- get ;;
     put (setCachedData w (spread (cachedData w) enhancedData)) ;;
     w <- get ;;
     notifySubscribers (cachedData w) ;;
     now <- newDate ;;
     w <- get ;;
     put (setLastSyncTime w (Some (getTime now))))
    (fun error => Throw error).

Definition loadAnalyticsData : prog unit :=
  try_catch
    (response <- RestApi.fetchResponse RestApi.analyticsFixture ;;
     analyticsData <- RestApi.json response ;;
     w <- get ;;
     put (setCachedData w (withAnalytics (cachedData w) (Some analyticsData))) ;;
     w <- get ;;
     notifySubscribers (cachedData w))
    (fun error => Ret tt).

(** [startPeriodicSync()]: the running timer, if any, is cleared and a new
    one is armed. *)
Definition startPeriodicSync : prog unit :=
  w <- get ;;
  let w1 := match syncInterval w with
            | Some timer => clearInterval w timer
            | None => w
            end in
  put (setSyncInterval (setInterval w1) (Some (nextTimer w1))).

Definition stopPeriodicSync : prog unit :=
  w <- get ;;
  match syncInterval w with
  | Some timer => put (setSyncInterval (clearInterval w timer) None)
  | None => Ret tt
  end.

Definition initialize (useFHIR : bool) : prog unit :=
  try_catch
    (w <- get ;;
     put (setIsConnected w (useFHIR && rest_isConnected w)) ;;
     loadDashboardData ;;
     loadAnalyticsData ;;
     w <- get ;;
     if isConnected w then startPeriodicSync else Ret tt)
    (fun error => Throw error).

Definition refresh : prog unit :=
  loadDashboardData ;;
  loadAnalyticsData.

Definition destroy : prog unit :=
  stopPeriodicSync ;;
  w <- get ;;
  put (setAiTimestampData (setSubscribers w []) ∅).

End WithAdapter.

(** A service as its constructor leaves it, next to a REST client whose
    last probe gave [probe]. *)
Definition freshWorld (probe : bool) : World :=
  {| rest_isConnected := probe;
     isConnected := false;
     lastSyncTime := None;
     syncInterval := None;
     subscribers := [];
     cachedData := initialCache;
     aiTimestampData := ∅;
     activeTimers := [];
     nextTimer := 0 |}.

(** The fallback as the specification words it: the run ends without an
    error, the mock summary has been read, and every subscriber has
    received a snapshot. *)
Definition fellBackToMock (subs : list nat) (outcome : result unit * World * list Event)
  : Prop :=
  fst (fst outcome) = Ok tt /\
  In RestApi.summaryFixture (requests (snd outcome)) /\
  forall callback, In callback subs -> deliveries callback (snd outcome) <> [].

End DataSyncService.

(** ** The event loop: calls whose awaited answers are still outstanding

    Code runs without interruption up to an [await] of a request or of
    the AI service; there the call is suspended, and it resumes when its
    answer arrives, in any order relative to the other suspended calls. *)

Module EventLoop.
Import Dashboard Effects.

(** A suspended call: what it will do with the answer it awaits. *)
Inductive Suspended :=
| AwaitFetch (k : FetchOutcome -> prog unit)
| AwaitAi (k : result AiTimelineData -> prog unit).

Record Loop := {
  world : World;
  observed : list Event;
  suspended : list Suspended
}.

(** Run [p] up to its next suspension. *)
Fixpoint advance (env : Env) (p : prog unit) (w : World) (tr : list Event)
  : World * list Event * option Suspended :=
  match p with
  | Ret _ => (w, tr, None)
  | Throw _ => (w, tr, None)
  | Fetch u k => (w, (tr ++ [Fetched u])%list, Some (AwaitFetch k))
  | GeneratePatientTimeline p k => (w, (tr ++ [AiRequested p])%list, Some (AwaitAi k))
  | MathRandom k => advance env (k (env_random env tr)) w (tr ++ [RandomDrawn])%list
  | NewDate k => advance env (k (env_now env tr)) w (tr ++ [ClockRead])%list
  | SortRandomly l k => advance env (k (env_shuffle env tr l)) w (tr ++ [Shuffled])%list
  | Call c d k => advance env (k (env_callback env tr c d)) w (tr ++ [Notified c d])%list
  | Get k => advance env (k w) w tr
  | Put w' k => advance env k w' tr
  end.

Definition enter (env : Env) (p : prog unit) (l : Loop) (others : list Suspended) : Loop :=
  let '(w, tr, s) := advance env p (world l) (observed l) in
  {| world := w;
     observed := tr;
     suspended := match s with
                  | Some task => (others ++ [task])%list
                  | None => others
                  end |}.

(** A call of an asynchronous function whose promise the caller does not
    await. *)
Definition callAsync (env : Env) (p : prog unit) (l : Loop) : Loop :=
  enter env p l (suspended l).

(** One answer arrives, for any one of the suspended calls. *)
Inductive step (env : Env) : Loop -> Loop -> Prop :=
| step_fetch l before k after o :
    suspended l = (before ++ AwaitFetch k :: after)%list ->
    step env l (enter env (k o) l (before ++ after)%list)
| step_ai l before k after o :
    suspended l = (before ++ AwaitAi k :: after)%list ->
    step env l (enter env (k o) l (before ++ after)%list).

Inductive steps (env : Env) : Loop -> Loop -> Prop :=
| steps_refl l : steps env l l
| steps_step l1 l2 l3 : step env l1 l2 -> steps env l2 l3 -> steps env l1 l3.

(** A loop in which nothing is in flight. *)
Definition idle (w : World) : Loop :=
  {| world := w; observed := []; suspended := [] |}.

(** The request that opens a round of source fetches: the mock summary,
    or the patient search of the REST client. *)
Definition opensRound (u : Url) : bool :=
  match u with
  | Static path => String.eqb path "/mock-data/ed-summary.json"
  | SearchUrl resourceType _ => String.eqb resourceType "Patient"
  | Metadata => false
  end.

Definition rounds (tr : list Event) : nat :=
  length (List.filter opensRound (requests tr)).

End EventLoop.

(** ** Shapes of a blood-pressure text *)

Module BloodPressure.

Definition isDigit (c : ascii) : bool :=
  let n := nat_of_ascii c in ((48 <=? n)%nat && (n <=? 57)%nat)%bool.

Fixpoint allDigits (s : string) : bool :=
  match s with
  | EmptyString => true
  | String c r => isDigit c && allDigits r
  end.

(** One or more digits, after an optional minus sign. *)
Definition isIntegerText (s : string) : bool :=
  match s with
  | EmptyString => false
  | String c r =>
      if Ascii.eqb c "-" then Js.truthyS r && allDigits r
      else isDigit c && allDigits r
  end.

(** A number on each side of the one slash. *)
Definition isCompletePair (s : string) : bool :=
  match Js.split "/" s with
  | [systolic; diastolic] => isIntegerText systolic && isIntegerText diastolic
  | _ => false
  end.

(** A number or the placeholder [--] on each side of the one slash. *)
Definition isHalf (s : string) : bool := isIntegerText s || String.eqb s "--".

Definition isPairWithPlaceholders (s : string) : bool :=
  match Js.split "/" s with
  | [systolic; diastolic] => isHalf systolic && isHalf diastolic
  | _ => false
  end.

(** The field is the sentinel or a complete pair. *)
Definition completeOrNA (v : Vitals.JsVal) : bool :=
  match v with
  | Vitals.Str s => String.eqb s "N/A" || isCompletePair s
  | Vitals.Num _ => false
  end.

(** No slash in the text. *)
Fixpoint slashFree (s : string) : bool :=
  match s with
  | EmptyString => true
  | String c r => negb (Ascii.eqb c "/") && slashFree r
  end.

(** What the loop of [extractVitals] maintains about its accumulator. *)
Definition accInvariant (acc : RestApiService.VitalsAcc) : Prop :=
  (RestApiService.acc_bp acc = None \/
   exists a b, RestApiService.acc_bp acc = Some (a +:+ "/" +:+ b) /\ isHalf a = true /\ isHalf b = true) /\
  (RestApiService.acc_temp acc = None \/ exists q, RestApiService.acc_temp acc = Some (Js.toFixed1 q)).

End BloodPressure.

(** ** Sample data for the examples *)

Module Samples.
Import Fhir.

(** 10 March 2024 and 15 June 2000; months count from zero. *)
Definition today : Age.JsDate := Age.mkDate 2024 2 10.
Definition birth : Age.JsDate := Age.mkDate 2000 5 15.

Definition patientEntry : Entry :=
  {| resource :=
       {| id := "p1";
          name := Some [ {| given := Some ["Ada"]; family := Some "Lovelace" |} ];
          birthDate := Some birth;
          gender := Some "female";
          status := None;
          subject := None;
          code := None;
          valueQuantity := None |} |}.

(** An observation of patient [pid] with one coding and a value. *)
Definition observation (pid c : string) (v : Q) : Entry :=
  {| resource :=
       {| id := "obs-" +:+ c;
          name := None;
          birthDate := None;
          gender := None;
          status := Some "final";
          subject := Some {| reference := Some (patientRef pid) |};
          code := Some {| coding := Some [ {| coding_code := Some c |} ] |};
          valueQuantity := Some {| value := Some v |} |} |}.


(** An encounter that ended at time 100, and an event the AI service
    generated for the same instant. *)
Definition endedEncounter : Timeline.Encounter :=
  {| Timeline.enc_id := "e1";
     Timeline.enc_patientId := Some "p1";
     Timeline.startTime := None;
     Timeline.endTime := Some 100;
     Timeline.aiTimeline := [];
     Timeline.timelineEvents := [] |}.

Definition aiEventAt (t : Z) : Timeline.TimelineEvent :=
  {| Timeline.ev_id := "ai_p1_0";
     Timeline.timestamp := t;
     Timeline.ev_type := "medication";
     Timeline.description := "Medication administered";
     Timeline.ev_priority := "medium";
     Timeline.source := "ai_generated";
     Timeline.confidence := Some (9 # 10);
     Timeline.ev_patientId := Some "p1";
     Timeline.ev_status := Some "completed" |}.

(** Surroundings for the examples: every request is rejected; or the
    first request is answered with status 400 and later ones with an
    empty bundle; a clock, draws and an AI service that do not matter;
    and callback 0 throws while every other callback returns. *)
Definition silentEnv (fetchAnswer : list Effects.Event -> Effects.Url -> Effects.FetchOutcome)
  : Effects.Env :=
  {| Effects.env_fetch := fetchAnswer;
     Effects.env_random := fun _ => 1 # 2;
     Effects.env_now := fun _ => {| Effects.getTime := 1710000000000;
                                    Effects.calendar := today |};
     Effects.env_shuffle := fun _ l => l;
     Effects.env_callback := fun _ c _ => if Nat.eqb c 0 then Some Js.CallbackError else None;
     Effects.env_ai := fun _ _ => Js.Err Js.TypeError |}.

Definition offline : Effects.Env := silentEnv (fun _ _ => Effects.Rejected).

Definition rejectsFirst : Effects.Env :=
  silentEnv (fun tr _ =>
    match tr with
    | [] => Effects.Responded 400 None
    | _ => Effects.Responded 200 (Some (Dashboard.Bundle None))
    end).

(** The remote server cannot be reached while the static files are
    served: the mock summary lists one patient. *)
Definition mockPatient : Dashboard.PatientSummary :=
  {| Dashboard.id := "p1";
     Dashboard.name := "Ada Lovelace";
     Dashboard.age := 23;
     Dashboard.gender := Some "female";
     Dashboard.status := "waiting";
     Dashboard.priority := "urgent";
     Dashboard.department := "Emergency";
     Dashboard.waitTime := 12;
     Dashboard.vitals := None;
     Dashboard.aiTimestamps := None;
     Dashboard.lastAITimestamp := None |}.

Definition mockDashboard : Dashboard.Data :=
  Dashboard.withPatients RestApi.emptyDashboard (Some [mockPatient]).

Definition summaryDocument : Dashboard.Body :=
  Dashboard.Document (Dashboard.JObj [("patients", Dashboard.JArr [Dashboard.JStr "p1"])]).

Definition remoteDown : Effects.Env :=
  silentEnv (fun _ u =>
    match u with
    | Effects.Static _ => Effects.Responded 200 (Some summaryDocument)
    | _ => Effects.Rejected
    end).

(** A stand-in for the missing adapter: it reads the mock summary as
    [mockDashboard]. *)
Definition sampleAdapter (b : Dashboard.Body) (isFHIR : bool) : Js.result Dashboard.Data :=
  Js.Ok mockDashboard.

Definition sampleView (b : Dashboard.Body) : Dashboard.Data := mockDashboard.

(** A service with the subscribers 0 (which throws) and 1. *)
Definition subscribedWorld (probe : bool) : Effects.World :=
  Effects.setSubscribers (DataSyncService.freshWorld probe) [0; 1]%nat.

End Samples.

(** ** DepartmentAnalytics.js: the turnaround cards *)

Module TurnaroundCards.

Record Thresholds := { medium : Z; high : Z }.

(** The table [timeThresholds]. *)
Definition timeThresholds : gmap string Thresholds :=
  <["Triage to Nurse" := {| medium := 10; high := 15 |}]> (
  <["Triage to Doctor" := {| medium := 30; high := 45 |}]> (
  <["Pathology Request to Result" := {| medium := 60; high := 120 |}]> (
  <["Imaging Request to Reported" := {| medium := 90; high := 150 |}]> (
  <["Admission Request to Bed" := {| medium := 120; high := 240 |}]> (
  <["Bed Allocation to Departure" := {| medium := 30; high := 60 |}]> ∅))))).

(** [timeThresholds[key] || { medium: 30, high: 60 }] *)
Definition thresholdsFor (key : string) : Thresholds :=
  default {| medium := 30; high := 60 |} (timeThresholds !! key).

Inductive Tone := Danger | Accent | Success.

Definition getMetricColor (value : Z) (thresholds : Thresholds) : Tone :=
  if high thresholds <=? value then Danger
  else if medium thresholds <=? value then Accent
  else Success.

(** [Math.min(Math.round((value / threshold.high) * 100), 100)]; the
    table and the fallback have positive [high] values only. *)
Definition calculatePercentage (value : Z) (threshold : Thresholds) : Z :=
  Z.min (Js.Math_round (inject_Z value / inject_Z (high threshold) * 100)) 100.

(** The tone of the bar and the line under it:
    [percentage >= 100 ? ... : percentage >= 75 ? ... : ...]. *)
Definition barTone (percentage : Z) : Tone :=
  if 100 <=? percentage then Danger
  else if 75 <=? percentage then Accent
  else Success.

End TurnaroundCards.

(** ** restApiService.js: the analytics computed from fetched resources *)

Module Analytics.
Import Fhir Dashboard Effects.
Local Open Scope prog_scope.

(** A date text that is present, and what [new Date(text).getTime()] makes
    of it. *)
Inductive DateText :=
| Unparsable
| ParsesTo (t : Z).

(** [Encounter.period]; the code does not guard the parsing of these two
    dates, and they are taken to parse. *)
Record Period := { period_start : option Z; period_end : option Z }.

(** An encounter entry: the properties read elsewhere, and its period. *)
Record EncounterEntry := { entry : Entry; period : option Period }.

Record Category := { cat_coding : option (list Coding); cat_text : option string }.

(** A diagnostic report entry. *)
Record ReportEntry := {
  effectiveDateTime : option DateText;
  effectivePeriod_start : option DateText;
  issued : option DateText;
  category : option (list Category)
}.

(** [Math.max(0, Math.round((end - start) / 60000))], where [end] is
    [Date.now()] for an encounter without [period.end]. *)
Definition stayMinutes (p : Period) (start : Z) : prog Z :=
  finish <- match period_end p with
            | Some t => Ret t
            | None => (now <- newDate ;; Ret (getTime now))
            end ;;
  Ret (Z.max 0 (Math_round (inject_Z (finish - start) / 60000))).

(** The periods that pass [.filter(p => p?.start)], with their start. *)
Definition startedPeriods (encounters : list EncounterEntry) : list (Period * Z) :=
  flat_map (fun e =>
    match period e with
    | Some p => match period_start p with
                | Some start => [(p, start)]
                | None => []
                end
    | None => []
    end) encounters.

Definition losMinutes (encounters : list EncounterEntry) : prog (list Z) :=
  mapM (fun ps => stayMinutes (fst ps) (snd ps)) (startedPeriods encounters).

(** [+x.toFixed(1)]: the number with one decimal nearest to [x]. *)
Definition oneDecimal (x : Q) : Q :=
  let n := Qfloor (Qabs x * 10 + (1 # 2)) in
  if Qle_bool 0 x then n # 10 else (- n) # 10.

Definition sum (l : list Z) : Z := fold_left Z.add l 0.

(** [(a, b) => a - b] *)
Definition ascending (a b : Z) : Z := a - b.

Definition avgLosHours (minutes : list Z) : Q :=
  match minutes with
  | [] => 45 # 10
  | _ => oneDecimal (inject_Z (sum minutes) / inject_Z (Z.of_nat (length minutes)) / 60)
  end.

(** [losMinutes.sort((a, b) => a - b)[Math.floor(losMinutes.length / 2)]] *)
Definition middle (minutes : list Z) : Z :=
  nth (Nat.div (length minutes) 2) (Timeline.Array_sort ascending minutes) 0.

Definition medianLosHours (minutes : list Z) : Q :=
  match minutes with
  | [] => 32 # 10
  | _ => oneDecimal (inject_Z (middle minutes) / 60)
  end.

(** [deriveMinutes(r)]; [None] is [null]. *)
Definition deriveMinutes (r : ReportEntry) : option Z :=
  match orElse (effectiveDateTime r) (effectivePeriod_start r), issued r with
  | Some eff, Some iss =>
      match eff, iss with
      | ParsesTo start, ParsesTo finish =>
          if finish <? start then None
          else Some (Math_round (inject_Z (finish - start) / 60000))
      | _, _ => None
      end
  | _, _ => None
  end.

(** [t.toLowerCase()], for texts in ASCII. *)
Definition lowerChar (c : ascii) : ascii :=
  let n := nat_of_ascii c in
  if ((65 <=? n)%nat && (n <=? 90)%nat)%bool then ascii_of_nat (n + 32) else c.

Fixpoint toLowerCase (s : string) : string :=
  match s with
  | EmptyString => EmptyString
  | String c r => String (lowerChar c) (toLowerCase r)
  end.

(** [s.includes(part)] *)
Fixpoint includes (s part : string) : bool :=
  String.prefix part s ||
  match s with
  | EmptyString => false
  | String _ r => includes r part
  end.

Inductive Kind := imaging | lab | other.

(** [category?.flatMap(c => c.coding || []) || []], then [.map(c => c.code)] *)
Definition categoryCodes (r : ReportEntry) : list (option string) :=
  map coding_code
    (flat_map (fun c => default [] (cat_coding c)) (default [] (category r))).

(** [(category || []).map(c => c.text?.toLowerCase()).filter(Boolean)] *)
Definition categoryTexts (r : ReportEntry) : list string :=
  flat_map (fun c =>
    match cat_text c with
    | Some t => if truthyS (toLowerCase t) then [toLowerCase t] else []
    | None => []
    end) (default [] (category r)).

Definition hasCode (c : string) (codes : list (option string)) : bool :=
  existsb (fun x => match x with Some k => String.eqb k c | None => false end) codes.

Definition classify (r : ReportEntry) : Kind :=
  let codes := categoryCodes r in
  let texts := categoryTexts r in
  if hasCode "RAD" codes || existsb (fun t => includes t "imaging") texts then imaging
  else if hasCode "LAB" codes || existsb (fun t => includes t "lab") texts then lab
  else other.

(** The two arrays the loop over the reports fills. *)
Definition durationsOf (k : Kind) (diagReports : list ReportEntry) : list Z :=
  flat_map (fun r =>
    match deriveMinutes r with
    | None => []
    | Some m =>
        match classify r, k with
        | imaging, imaging => [m]
        | lab, lab => [m]
        | _, _ => []
        end
    end) diagReports.

(** [avg(arr)]; [None] is [undefined]. *)
Definition avg (arr : list Z) : option Z :=
  match arr with
  | [] => None
  | _ => Some (Z.max 1 (Math_round (inject_Z (sum arr) / inject_Z (Z.of_nat (length arr)))))
  end.

Definition override (key : string) (value : option Z) (turnaround : gmap string Z)
  : gmap string Z :=
  match value with
  | Some v => <[key := v]> turnaround
  | None => turnaround
  end.

Definition turnaroundOf (encounters : list Entry) (diagReports : list ReportEntry)
  : gmap string Z :=
  override "Imaging Request to Reported" (avg (durationsOf imaging diagReports))
    (override "Pathology Request to Result" (avg (durationsOf lab diagReports))
       (RestApi.buildTurnaroundData encounters)).

Record AnalyticsData := {
  an_turnaround : gmap string Z;
  an_losStats : LosStats;
  an_admittedPatients : list AdmittedPatient
}.

(** The body of [getAnalytics] once the two searches have resolved. *)
Definition computeAnalytics (encounters : list EncounterEntry)
    (diagReports : list ReportEntry) : prog AnalyticsData :=
  minutes <- losMinutes encounters ;;
  admitted <- RestApi.buildAdmittedPatients (map entry encounters) ;;
  Ret {| an_turnaround := turnaroundOf (map entry encounters) diagReports;
         an_losStats := {| average := avgLosHours minutes;
                           median := medianLosHours minutes |};
         an_admittedPatients := admitted |}.

End Analytics.

(** ** Timelines on request, and updates of the AI timestamps *)

Module SyncQueries.
Import Fhir Dashboard Timeline Effects DataSyncService.
Local Open Scope prog_scope.

(** [s.padStart(3, '0')] *)
Definition padStart3 (s : string) : string :=
  String.concat "" (repeat "0" (3 - String.length s)) +:+ s.

(** [s.slice(-3)] *)
Definition sliceLast3 (s : string) : string :=
  String.substring (String.length s - 3) 3 s.

(** The mock encounter document [dataSyncService.getPatientTimeline]
    asks for, and the one [openTimeline] of App.js asks for. *)
Definition syncEncounterPath (patientId : string) : string :=
  "/mock-data/encounter-" +:+ padStart3 patientId +:+ ".json".

Definition appEncounterPath (patientId : string) : string :=
  "/mock-data/encounter-" +:+ sliceLast3 patientId +:+ ".json".

(** restApiService.js, [getPatientTimeline(patientId)] *)
Definition restPatientTimeline (patientId : string) : prog (list Resource) :=
  try_catch
    (encounters <- RestApi.searchResources RestApi.ENCOUNTER
                     [("patient", RestApi.PStr patientId); ("_count", RestApi.PNum 10)] ;;
     Ret (map resource encounters))
    (fun error => Ret []).

(** An element of [timelineData]: an item of the mock document, or an
    encounter resource from the server. *)
Inductive RawEncounter :=
| FromDocument (j : Json)
| FromServer (r : Resource).

(** [timelineData.map] exists only if the parsed document is an array. *)
Definition documentItems (b : Body) : prog (list RawEncounter) :=
  match b with
  | Document (JArr items) => Ret (map FromDocument items)
  | _ => Throw TypeError
  end.

Definition withTimeline (aiTimestamps : list TimelineEvent) (encounter : Encounter)
  : Encounter :=
  {| enc_id := enc_id encounter; enc_patientId := enc_patientId encounter;
     startTime := startTime encounter; endTime := endTime encounter;
     aiTimeline := aiTimestamps;
     timelineEvents := generateTimelineEvents encounter (Some aiTimestamps) |}.

Section WithEncounterAdapter.

(** [adaptEncounterData(enc, isFHIR)] of the module [utils/fhirAdapter],
    whose source is not part of the development: any function, which may
    throw. *)
Variable adaptEncounterData : RawEncounter -> bool -> result Encounter.

(** dataSyncService.js, [getPatientTimeline(patientId)] *)
Definition getPatientTimeline (patientId : string) : prog (list Encounter) :=
  try_catch
    (w <- get ;;
     timelineData <- (if isConnected w
                      then (l <- restPatientTimeline patientId ;; Ret (map FromServer l))
                      else (response <- RestApi.fetchResponse
                                          (Static (syncEncounterPath patientId)) ;;
                            b <- RestApi.json response ;;
                            documentItems b)) ;;
     w <- get ;;
     adaptedTimeline <- mapM (fun enc => lift (adaptEncounterData enc (isConnected w)))
                             timelineData ;;
     w <- get ;;
     let aiTimestamps := default [] (aiTimestampData w !! patientId) in
     Ret (map (withTimeline aiTimestamps) adaptedTimeline))
    (fun error => Ret []).

End WithEncounterAdapter.

(** The assignments to the first cached patient with the given id. *)
Fixpoint updateFirst (patientId : string) (timestamps : list TimelineEvent)
    (ps : list PatientSummary) : list PatientSummary :=
  match ps with
  | [] => []
  | p :: r =>
      if String.eqb (id p) patientId
      then {| id := id p; name := name p; age := age p; gender := gender p;
              status := status p; priority := priority p; department := department p;
              waitTime := waitTime p; vitals := vitals p;
              aiTimestamps := Some timestamps;
              lastAITimestamp := getLatestAITimestamp (Some timestamps) |} :: r
      else p :: updateFirst patientId timestamps r
  end.

(** dataSyncService.js, [updateAITimestamps(patientId, timestamps)] *)
Definition updateAITimestamps (patientId : string) (timestamps : list TimelineEvent)
  : prog unit :=
  w <- get ;;
  put (setAiTimestampData w (<[patientId := timestamps]> (aiTimestampData w))) ;;
  w <- get ;;
  match patients (cachedData w) with
  | Some ps =>
      put (setCachedData w
             (withPatients (cachedData w) (Some (updateFirst patientId timestamps ps))))
  | None => Ret tt
  end ;;
  w <- get ;;
  notifySubscribers (cachedData w).

(** dataSyncService.js, [getCachedData()] *)
Definition getCachedData : prog Data :=
  w <- get ;; Ret (cachedData w).

End SyncQueries.

(** ** VitalMonitoring.js: the colour of a vital sign *)

Module VitalMonitoring.
Import Vitals.

Inductive Colour := Red | Yellow | Green | Gray.

Section WithToNumber.

(** The conversion of a string to a number, [None] being NaN. *)
Variable ToNumber : string -> option Q.

Definition toNumber (value : JsVal) : option Q :=
  match value with
  | Num z => Some (inject_Z z)
  | Str s => ToNumber s
  end.

(** [value > bound] and [value < bound]; a comparison with NaN is false. *)
Definition above (value : JsVal) (bound : Q) : bool :=
  match toNumber value with
  | Some x => negb (Qle_bool x bound)
  | None => false
  end.

Definition below (value : JsVal) (bound : Q) : bool :=
  match toNumber value with
  | Some x => negb (Qle_bool bound x)
  | None => false
  end.

Definition getVitalColor (type : string) (value : JsVal) : Colour :=
  if String.eqb type "hr" then
    if above value 100 || below value 60 then Red
    else if above value 90 || below value 70 then Yellow
    else Green
  else if String.eqb type "spo2" then
    if below value 95 then Red
    else if below value 98 then Yellow
    else Green
  else if String.eqb type "temp" then
    if above value 38 || below value 36 then Red
    else if above value (375 # 10) || below value (365 # 10) then Yellow
    else Green
  else Gray.

End WithToNumber.

(** [patient.vitals || { hr: 'N/A', ... }] *)
Definition vitalsOrNA (vitals : option RestApiService.VitalSigns) : RestApiService.VitalSigns :=
  match vitals with
  | Some v => v
  | None => {| RestApiService.hr := NA; RestApiService.bp := NA;
               RestApiService.temp := NA; RestApiService.rr := NA;
               RestApiService.spo2 := NA |}
  end.

End VitalMonitoring.

(** ** Notions used to state the properties below *)

Module Notions.
Import Fhir Dashboard Effects.

(** An observation of the patient with the code [c] and a value that the
    loop of [extractVitals] does not skip. *)
Definition usable (patientId c : string) (obs : Entry) : bool :=
  RestApiService.matchesCode patientId c obs &&
  match RestApiService.quantityValue obs with
  | Some v => Js.truthyQ v
  | None => false
  end.

(** The only running timer is the one the service holds, and timer
    identifiers in use are below the next fresh one. *)
Definition timersOwned (w : World) : Prop :=
  activeTimers w = match syncInterval w with Some t => [t] | None => [] end /\
  Forall (fun t => (t < nextTimer w)%nat) (activeTimers w).

(** Every draw of [Math.random()] lies in the unit interval, and the
    random sort returns as many entries as it was given. *)
Definition fairEnv (env : Env) : Prop :=
  (forall tr, (0 <= env_random env tr)%Q /\ (env_random env tr < 1)%Q) /\
  (forall tr l, length (env_shuffle env tr l) = length l).

(** A sample conversion of a string to a number: the digit strings. *)
Definition digitsToNumber (s : string) : option Q :=
  match s with
  | EmptyString => Some 0%Q
  | _ => if BloodPressure.allDigits s
         then option_map (fun d => inject_Z (Z.of_uint d)) (NilEmpty.uint_of_string s)
         else None
  end.

(** Surroundings with draws inside the unit interval. *)
Definition fairSample : Env := Samples.remoteDown.

(** What one patient entry becomes in the REST dashboard. *)
Definition adaptedFrom (env : Env) (observations : list Entry) (p : Entry)
    (row : PatientSummary) : Prop :=
  id row = Fhir.id (resource p) /\
  name row = RestApi.getPatientName (resource p) /\
  gender row = Fhir.gender (resource p) /\
  status row = "in-treatment" /\
  priority row = "normal" /\
  vitals row = Some (RestApiService.extractVitals observations (Fhir.id (resource p))) /\
  (fairEnv env -> 10 <= waitTime row <= 69).

(** An event that is a search on the FHIR server, or neither a request
    nor a notification. *)
Definition serverOrInternal (ev : Event) : bool := remoteRequest ev || internal ev.

(** The error with which the loading of the mock summary ends, if it
    does: the request is rejected, the body does not parse, or the
    adapter throws. *)
Definition mockFailure (adaptDashboardData : Body -> bool -> Js.result Data)
    (o : FetchOutcome) : option Js.exn :=
  match o with
  | Rejected => Some Js.NetworkFailure
  | Responded _ None => Some Js.SyntaxError
  | Responded _ (Some b) =>
      match adaptDashboardData b false with
      | Js.Err e => Some e
      | Js.Ok _ => None
      end
  end.

(** An event as [generatePatientAITimestamps] makes it for the patient
    [p] at the time [now]: at most [bound] minutes old, marked as
    generated, with a confidence from 70 to 100 percent. *)
Definition generatedFor (now : Z) (p : PatientSummary) (bound : Z)
    (e : Timeline.TimelineEvent) : Prop :=
  now - bound * 60000 <= Timeline.timestamp e <= now /\
  Timeline.source e = "ai_generated" /\
  Timeline.ev_patientId e = Some (id p) /\
  exists c, Timeline.confidence e = Some c /\ (7 # 10 <= c)%Q /\ (c < 1)%Q.

(** The value of the last observation of the patient that carries the
    code [c] and that the loop of [extractVitals] does not skip. *)
Definition lastValue (patientId c : string) (observations : list Entry) : option Q :=
  match rev (List.filter (usable patientId c) observations) with
  | obs :: _ => RestApiService.quantityValue obs
  | [] => None
  end.

(** One side of the blood pressure text, and the text for the two
    readings, when there is one. *)
Definition halfText (x : option Z) : string :=
  match x with
  | Some z => Js.string_of_Z z
  | None => "--"
  end.

Definition bpText (systolic diastolic : option Z) : option string :=
  match systolic, diastolic with
  | None, None => None
  | _, _ => Some (halfText systolic +:+ "/" +:+ halfText diastolic)
  end.

(** The accumulator that holds, for each field, the last reading. *)
Definition readings (patientId : string) (observations : list Entry)
  : RestApiService.VitalsAcc :=
  let rounded c := option_map Js.Math_round (lastValue patientId c observations) in
  {| RestApiService.acc_hr := rounded "8867-4";
     RestApiService.acc_bp := bpText (rounded "8480-6") (rounded "8462-4");
     RestApiService.acc_temp :=
       option_map Js.toFixed1 (lastValue patientId "8310-5" observations);
     RestApiService.acc_spo2 := rounded "2708-6" |}.

(** A server that answers as FHIR asks: every 2xx answer to a search
    whose body parses is a bundle, whose [entry], when present, is an
    array of entries that carry a resource with properties of the types
    FHIR gives them (what [Bundle] holds). *)
Definition conformantServer (env : Env) : Prop :=
  forall tr resourceType query status body,
    env_fetch env tr (SearchUrl resourceType query) = Responded status (Some body) ->
    RestApi.ok status = true ->
    exists entry, body = Bundle entry.

(** Surroundings with such a server: it lists one patient and no
    encounter or observation, and the static files are served. *)
Definition servingSample : Env :=
  Samples.silentEnv (fun _ u =>
    match u with
    | SearchUrl resourceType _ =>
        if String.eqb resourceType RestApi.PATIENT
        then Responded 200 (Some (Bundle (Some [Samples.patientEntry])))
        else Responded 200 (Some (Bundle None))
    | _ => Responded 200 (Some Samples.summaryDocument)
    end).

(** [new Date(text)] for a date text [YYYY-MM-DD], read with the local
    getters.  The text is taken as midnight UTC of the written day; with
    the local time [offset] minutes ahead of UTC at that instant, less
    than a day either way, the local day is the written one when the
    offset is not negative and the day before when it is.  Months count
    from zero. *)
Definition isLeapYear (y : Z) : bool :=
  (y mod 4 =? 0) && (negb (y mod 100 =? 0) || (y mod 400 =? 0)).

Definition daysInMonth (y m : Z) : Z :=
  if m =? 1 then (if isLeapYear y then 29 else 28)
  else if (m =? 3) || (m =? 5) || (m =? 8) || (m =? 10) then 30
  else 31.

Definition validDate (d : Age.JsDate) : Prop :=
  0 <= Age.getMonth d <= 11 /\
  1 <= Age.getDate d <= daysInMonth (Age.getFullYear d) (Age.getMonth d).

Definition dayBefore (d : Age.JsDate) : Age.JsDate :=
  if 1 <? Age.getDate d
  then Age.mkDate (Age.getFullYear d) (Age.getMonth d) (Age.getDate d - 1)
  else if 0 <? Age.getMonth d
  then Age.mkDate (Age.getFullYear d) (Age.getMonth d - 1)
                  (daysInMonth (Age.getFullYear d) (Age.getMonth d - 1))
  else Age.mkDate (Age.getFullYear d - 1) 11 31.

Definition localFields (offset : Z) (written : Age.JsDate) : Age.JsDate :=
  if offset <? 0 then dayBefore written else written.

End Notions.

(** * Properties *)

(** ** The journey-time indicator *)

Section JourneyTime.
Import DepartmentAnalytics.

Lemma or_default_zero (x : option Z) : Js.or_default 0 x = default 0 x.
Proof.
  destruct x as [v|]; simpl; [|reflexivity].
  unfold Js.truthyZ. destruct (Z.eqb_spec v 0); simpl; congruence.
Qed.

Lemma estimatedJourney_sum (turnaround : gmap string Z) :
  estimatedJourney turnaround = journeySum turnaround.
Proof.
  unfold estimatedJourney, journeySum, stepMinutes, keySteps. simpl.
  rewrite !or_default_zero. lia.
Qed.

Lemma fourHourStatus_spec (m : Z) :
  (m <= 240 -> fourHourStatus m = ON_TARGET) /\
  (240 < m <= 300 -> fourHourStatus m = AT_RISK) /\
  (300 < m -> fourHourStatus m = OFF_TARGET).
Proof.
  unfold fourHourStatus, fourHourThreshold.
  destruct (Z.leb_spec m 240), (Z.leb_spec m 300); repeat split; intros; lia || reflexivity.
Qed.

(** C2.  The label depends on the turnaround mapping only through the sum
    of its values over the seven workflow steps: a sum of at most 240 is
    on target, a sum above 240 and at most 300 is at risk, a sum above 300
    is off target; 240 and 300 belong to the lower band. *)
Theorem journeyStatus_bands (turnaround : gmap string Z) :
  (journeySum turnaround <= 240 -> journeyStatus turnaround = ON_TARGET) /\
  (240 < journeySum turnaround <= 300 -> journeyStatus turnaround = AT_RISK) /\
  (300 < journeySum turnaround -> journeyStatus turnaround = OFF_TARGET).
Proof.
  unfold journeyStatus. rewrite estimatedJourney_sum. apply fourHourStatus_spec.
Qed.

Lemma journeyStatus_bands_witness :
  journeyStatus {["Triage to Doctor" := 240]} = ON_TARGET /\
  journeyStatus {["Triage to Doctor" := 241]} = AT_RISK /\
  journeyStatus (<["Triage to Nurse" := 60]> {["Admission Request to Bed" := 240]}) = AT_RISK /\
  journeyStatus (<["Triage to Nurse" := 61]> {["Admission Request to Bed" := 240]}) = OFF_TARGET.
Proof.
  split; [|split; [|split]].
  - apply (proj1 (journeyStatus_bands _)). vm_compute. discriminate.
  - apply (proj1 (proj2 (journeyStatus_bands _))). vm_compute. split; [reflexivity | discriminate].
  - apply (proj1 (proj2 (journeyStatus_bands _))). vm_compute. split; [reflexivity | discriminate].
  - apply (proj2 (proj2 (journeyStatus_bands _))). vm_compute. reflexivity.
Defined.

(** The label is a function of the sum alone. *)
Lemma journeyStatus_of_sum (t1 t2 : gmap string Z) :
  journeySum t1 = journeySum t2 -> journeyStatus t1 = journeyStatus t2.
Proof.
  unfold journeyStatus. rewrite !estimatedJourney_sum. congruence.
Qed.

(** With the fallback literal the journey takes 263 minutes. *)
Example default_journey_at_risk :
  estimatedJourney (safeTurnaround None) = 263 /\
  journeyStatus (safeTurnaround None) = AT_RISK.
Proof. split; vm_compute; reflexivity. Qed.

End JourneyTime.

(** ** Age *)

Section AgeFacts.
Import Age.

(** [calculateAge] is the year difference, less one exactly when the
    current month/day precedes the birth month/day. *)
Lemma calculateAge_calendar (today birth : JsDate) :
  calendarAge today birth (calculateAge today (Some birth)).
Proof.
  unfold calendarAge, monthDayBefore, calculateAge.
  destruct (Z.ltb_spec (getMonth today - getMonth birth) 0),
           (Z.eqb_spec (getMonth today - getMonth birth) 0),
           (Z.ltb_spec (getDate today) (getDate birth)); simpl; split; intros; lia.
Qed.

(** The age counts the anniversaries that have been reached. *)
Lemma calculateAge_anniversaries (today birth : JsDate) (n : Z) :
  n <= calculateAge today (Some birth) <-> dateLe (anniversary birth n) today.
Proof.
  unfold dateLe, anniversary, monthDayBefore, calculateAge. simpl.
  destruct (Z.ltb_spec (getMonth today - getMonth birth) 0),
           (Z.eqb_spec (getMonth today - getMonth birth) 0),
           (Z.ltb_spec (getDate today) (getDate birth)); simpl; lia.
Qed.

Lemma calculateAge_no_birthDate (today : JsDate) : calculateAge today None = 0.
Proof. reflexivity. Qed.

Lemma calendarAge_unique (today birth : JsDate) (a b : Z) :
  calendarAge today birth a -> calendarAge today birth b -> a = b.
Proof.
  unfold calendarAge, monthDayBefore. intros [H1 H2] [H3 H4].
  destruct (Z.lt_ge_cases (getMonth today) (getMonth birth)); [lia|].
  destruct (Z.eq_dec (getMonth today) (getMonth birth));
    destruct (Z.lt_ge_cases (getDate today) (getDate birth)); lia.
Qed.

(** C4.  The dashboard assembly of the SMART client takes the plain year
    difference: for a patient whose birthday is still to come in the
    current year the row shows one year more than the calendar age that
    [calculateAge] gives, and that value is not the calendar age. *)
Theorem fhirClient_age_overshoots (Number_toString : Q -> string)
    (today birth : JsDate) (observations : list Fhir.Entry) (p : Fhir.Entry)
    (row : FHIRClient.PatientRow) :
  Fhir.birthDate (Fhir.resource p) = Some birth ->
  monthDayBefore today birth ->
  FHIRClient.patientRow Number_toString today observations p = Js.Ok row ->
  FHIRClient.row_age row = Some (calculateAge today (Some birth) + 1) /\
  ~ calendarAge today birth (calculateAge today (Some birth) + 1).
Proof.
  intros Hb Hmd Hrow. split.
  - rewrite (proj1 (calculateAge_calendar today birth) Hmd).
    unfold FHIRClient.patientRow in Hrow.
    destruct (FHIRClient.displayName _); simpl in Hrow; [|discriminate].
    destruct (FHIRClient.extractVitalsFromObservations _ _ _); simpl in Hrow; [|discriminate].
    injection Hrow as <-. simpl. unfold FHIRClient.ageOf. rewrite Hb.
    f_equal. unfold fhirClientAge. lia.
  - intros Hc.
    pose proof (calendarAge_unique _ _ _ _ Hc (calculateAge_calendar today birth)). lia.
Qed.

Lemma fhirClient_age_overshoots_witness :
  FHIRClient.row_age <$>
    (match FHIRClient.buildDashboardData (fun _ => "") Samples.today
             [Samples.patientEntry] [] [] with
     | Js.Ok d => FHIRClient.patients d
     | Js.Err _ => []
     end) = [Some 24] /\
  calculateAge Samples.today (Some Samples.birth) = 23 /\
  ~ calendarAge Samples.today Samples.birth 24.
Proof.
  split; [vm_compute; reflexivity|]. split; [reflexivity|].
  refine (proj2 (fhirClient_age_overshoots (fun _ => "") Samples.today Samples.birth []
                   Samples.patientEntry _ eq_refl _ eq_refl)).
  unfold monthDayBefore; simpl; lia.
Defined.

End AgeFacts.

(** ** Vital signs *)

Section VitalsFacts.
Import Fhir Vitals RestApiService BloodPressure.

Lemma digits_of_uint (d : Decimal.uint) :
  allDigits (NilEmpty.string_of_uint d) = true.
Proof. induction d; simpl; auto. Qed.

Lemma integerText_of_uint (d : Decimal.uint) :
  isIntegerText (NilZero.string_of_uint d) = true /\
  Js.truthyS (NilZero.string_of_uint d) = true /\
  allDigits (NilZero.string_of_uint d) = true.
Proof.
  destruct d; simpl; repeat split; try reflexivity; apply digits_of_uint.
Qed.

Lemma integerText_string_of_Z (z : Z) : isIntegerText (Js.string_of_Z z) = true.
Proof.
  unfold Js.string_of_Z, NilZero.string_of_int.
  destruct (Z.to_int z) as [d|d].
  - apply integerText_of_uint.
  - destruct (integerText_of_uint d) as (_ & Ht & Hd).
    simpl. rewrite Ht, Hd. reflexivity.
Qed.

Lemma allDigits_slashFree (s : string) : allDigits s = true -> slashFree s = true.
Proof.
  induction s as [|c r IH]; simpl; [reflexivity|].
  intros [Hc Hr]%andb_prop. rewrite (IH Hr), andb_true_r.
  destruct (Ascii.eqb_spec c "/") as [->|]; [discriminate Hc | reflexivity].
Qed.

Lemma integerText_slashFree (s : string) : isIntegerText s = true -> slashFree s = true.
Proof.
  destruct s as [|c r]; simpl; [discriminate|].
  destruct (Ascii.eqb_spec c "-") as [->|Hne].
  - intros [_ Hr]%andb_prop. simpl. apply allDigits_slashFree, Hr.
  - intros [Hc Hr]%andb_prop. rewrite (allDigits_slashFree _ Hr), andb_true_r.
    destruct (Ascii.eqb_spec c "/") as [->|]; [discriminate Hc | reflexivity].
Qed.

Lemma half_slashFree (s : string) : isHalf s = true -> slashFree s = true.
Proof.
  unfold isHalf. intros [H|H]%orb_prop.
  - apply integerText_slashFree, H.
  - apply String.eqb_eq in H. subst. reflexivity.
Qed.

Lemma split_slashFree (s : string) : slashFree s = true -> Js.split "/" s = [s].
Proof.
  induction s as [|c r IH]; simpl; [reflexivity|].
  intros [Hc Hr]%andb_prop. apply negb_true_iff in Hc. rewrite Hc, (IH Hr). reflexivity.
Qed.

Lemma split_pair (a b : string) :
  slashFree a = true -> slashFree b = true ->
  Js.split "/" (a +:+ "/" +:+ b) = [a; b].
Proof.
  intros Ha Hb. induction a as [|c r IH].
  - change (Js.split "/" ("" +:+ "/" +:+ b)) with ("" :: Js.split "/" b).
    rewrite (split_slashFree _ Hb). reflexivity.
  - simpl in Ha. apply andb_prop in Ha as [Hc Hr]. apply negb_true_iff in Hc.
    change (Js.split "/" (String c r +:+ "/" +:+ b))
      with (if Ascii.eqb c "/" then "" :: Js.split "/" (r +:+ "/" +:+ b)
            else match Js.split "/" (r +:+ "/" +:+ b) with
                 | [] => [String c ""]
                 | h :: t => String c h :: t
                 end).
    rewrite Hc, (IH Hr). reflexivity.
Qed.

Lemma truthy_pair (a b : string) : Js.truthyS (a +:+ "/" +:+ b) = true.
Proof. destruct a; reflexivity. Qed.

Lemma pair_with_placeholders (a b : string) :
  isHalf a = true -> isHalf b = true ->
  isPairWithPlaceholders (a +:+ "/" +:+ b) = true.
Proof.
  intros Ha Hb. unfold isPairWithPlaceholders.
  rewrite (split_pair _ _ (half_slashFree _ Ha) (half_slashFree _ Hb)), Ha, Hb.
  reflexivity.
Qed.

Lemma half_string_of_Z (z : Z) : isHalf (Js.string_of_Z z) = true.
Proof. unfold isHalf. rewrite integerText_string_of_Z. reflexivity. Qed.

Lemma assignVital_invariant (acc : VitalsAcc) (c : string) (v : Q) :
  accInvariant acc -> accInvariant (assignVital acc c v).
Proof.
  intros [Hbp Htemp]. unfold assignVital.
  repeat match goal with
         | |- context [String.eqb c ?k] => destruct (String.eqb c k)
         end; split; simpl; auto.
  - right. unfold bpSet.
    destruct Hbp as [->|(a & b & -> & Ha & Hb)].
    + exists (Js.string_of_Z (Js.Math_round v)), "--".
      repeat split; auto using half_string_of_Z.
    + rewrite truthy_pair.
      rewrite (split_pair _ _ (half_slashFree _ Ha) (half_slashFree _ Hb)). simpl.
      exists (Js.string_of_Z (Js.Math_round v)), b.
      repeat split; auto using half_string_of_Z.
  - right. unfold bpSet.
    destruct Hbp as [->|(a & b & -> & Ha & Hb)].
    + exists "--", (Js.string_of_Z (Js.Math_round v)).
      repeat split; auto using half_string_of_Z.
    + rewrite truthy_pair.
      rewrite (split_pair _ _ (half_slashFree _ Ha) (half_slashFree _ Hb)). simpl.
      exists a, (Js.string_of_Z (Js.Math_round v)).
      repeat split; auto using half_string_of_Z.
  - right. exists v. reflexivity.
Qed.

Lemma vitalsStep_invariant (acc : VitalsAcc) (obs : Entry) :
  accInvariant acc -> accInvariant (vitalsStep acc obs).
Proof.
  intros H. unfold vitalsStep.
  destruct (firstCode obs), (quantityValue obs); auto.
  destruct (_ && _); auto using assignVital_invariant.
Qed.

Lemma fold_invariant (l : list Entry) (acc : VitalsAcc) :
  accInvariant acc -> accInvariant (fold_left vitalsStep l acc).
Proof.
  revert acc. induction l as [|obs l IH]; simpl; auto using vitalsStep_invariant.
Qed.

Lemma numOrNA_cases (x : option Z) :
  numOrNA x = NA \/ exists z, z <> 0 /\ numOrNA x = Num z.
Proof.
  destruct x as [z|]; simpl; auto. unfold Js.truthyZ.
  destruct (Z.eqb_spec z 0); simpl; eauto.
Qed.

(** C5, as the code has it.  Each field of the extracted vital signs is
    the sentinel or a parsed value: [hr] and [spo2] a non-zero integer,
    [temp] a one-decimal text, [rr] always the sentinel, and [bp] a text
    with exactly one slash whose two sides are each an integer or the
    placeholder [--]. *)
Theorem extractVitals_fields (observations : list Entry) (patientId : string) :
  let v := extractVitals observations patientId in
  (hr v = NA \/ exists z, z <> 0 /\ hr v = Num z) /\
  (bp v = NA \/ exists s, bp v = Str s /\ isPairWithPlaceholders s = true) /\
  (temp v = NA \/ exists q, temp v = Str (Js.toFixed1 q)) /\
  rr v = NA /\
  (spo2 v = NA \/ exists z, z <> 0 /\ spo2 v = Num z).
Proof.
  unfold extractVitals.
  set (acc := fold_left vitalsStep _ emptyAcc).
  assert (Hinv : accInvariant acc).
  { apply fold_invariant. split; left; reflexivity. }
  destruct Hinv as [Hbp Htemp]. simpl.
  split; [apply numOrNA_cases|]. split; [|split; [|split; [reflexivity | apply numOrNA_cases]]].
  - destruct Hbp as [->|(a & b & -> & Ha & Hb)]; simpl; auto.
    rewrite truthy_pair. right. eexists. split; [reflexivity|].
    apply pair_with_placeholders; assumption.
  - destruct Htemp as [->|(q & ->)]; simpl; auto.
    destruct (Js.truthyS _); eauto.
Qed.

(** With a systolic observation alone the blood-pressure field is a
    half-filled pair, neither the sentinel nor a complete pair. *)
Lemma extractVitals_half_filled :
  let v := extractVitals [Samples.observation "p1" "8480-6" 120] "p1" in
  bp v = Str "120/--" /\ completeOrNA (bp v) = false.
Proof. split; vm_compute; reflexivity. Qed.

End VitalsFacts.

Section VitalsTable.
Import Fhir Vitals RestApiService BloodPressure.






Ltac step_cases c :=
  unfold assignVital;
  repeat match goal with
         | |- context [String.eqb c ?k] => destruct (String.eqb_spec c k)
         end; subst; simpl; try reflexivity.



(** Without a systolic observation the systolic side stays the
    placeholder. *)
Lemma fold_systolic_missing (l : list Entry) (acc : VitalsAcc) :
  noneOf ["8480-6"] l ->
  (acc_bp acc = None \/ exists d, acc_bp acc = Some ("--" +:+ "/" +:+ d) /\ isHalf d = true) ->
  let acc' := fold_left vitalsStep l acc in
  acc_bp acc' = None \/ exists d, acc_bp acc' = Some ("--" +:+ "/" +:+ d) /\ isHalf d = true.
Proof.
  revert acc. induction l as [|obs l IH]; intros acc Hl Hacc; simpl; [exact Hacc|].
  inversion Hl as [|? ? Ho Hl']; subst. apply IH; [exact Hl'|].
  unfold vitalsStep. destruct (firstCode obs) as [c|] eqn:E; [|exact Hacc].
  destruct (quantityValue obs) as [v|]; [|exact Hacc].
  destruct (_ && _); [|exact Hacc].
  specialize (Ho c eq_refl). step_cases c; try exact Hacc.
  - exfalso. apply Ho. simpl. auto.
  - right. unfold bpSet. destruct Hacc as [->|(d & -> & Hd)].
    + eexists. split; [reflexivity | apply half_string_of_Z].
    + rewrite truthy_pair, (split_pair "--" d eq_refl (half_slashFree _ Hd)). simpl.
      eexists. split; [reflexivity | apply half_string_of_Z].
Qed.

Lemma rfilter_Ok {A} (f : A -> Js.result bool) (l l' : list A) :
  Js.rfilter f l = Js.Ok l' -> Forall (fun x => In x l /\ f x = Js.Ok true) l'.
Proof.
  revert l'. induction l as [|x l IH]; simpl; intros l' H.
  - injection H as <-. constructor.
  - destruct (f x) as [b|] eqn:Ef; simpl in H; [|discriminate H].
    destruct (Js.rfilter f l) as [ys|]; simpl in H; [|discriminate H].
    injection H as <-.
    assert (Hys : Forall (fun y => In y (x :: l) /\ f y = Js.Ok true) ys).
    { eapply List.Forall_impl; [|exact (IH ys eq_refl)]. simpl. tauto. }
    destruct b; [constructor; [split; [left; reflexivity | exact Ef]|]|]; exact Hys.
Qed.

Lemma forEachVital_keeps (Number_toString : Q -> string) (k : string) (l : list Entry)
    (m m' : gmap string string) :
  FHIRClient.forEachVital Number_toString l m = Js.Ok m' ->
  Forall (fun obs => FHIRClient.firstCode obs <> Js.Ok k) l ->
  m' !! k = m !! k.
Proof.
  revert m. induction l as [|obs l IH]; simpl; intros m H Hl.
  - injection H as <-. reflexivity.
  - inversion Hl as [|? ? Hobs Hl']; subst.
    unfold FHIRClient.vitalsStep in H.
    destruct (FHIRClient.firstCode obs) as [c|] eqn:Ec; simpl in H; [|discriminate H].
    rewrite (IH _ H Hl').
    destruct (valueQuantity (resource obs)) as [q|]; [|reflexivity].
    destruct (value q) as [v|]; [|reflexivity].
    destruct (Js.truthyQ v); [|reflexivity].
    apply lookup_insert_ne. congruence.
Qed.

Lemma fhirClient_field_missing (Number_toString : Q -> string) (k : string)
    (observations l : list Entry) (patientId : string) (m : gmap string string) :
  Js.rfilter (FHIRClient.isPatientObservation patientId) observations = Js.Ok l ->
  FHIRClient.forEachVital Number_toString l ∅ = Js.Ok m ->
  existsb (FHIRClient.storesUnder patientId k) observations = false ->
  strOrNA (m !! k) = NA.
Proof.
  intros Hl Hm Hno.
  rewrite (forEachVital_keeps _ k _ _ _ Hm); [rewrite lookup_empty; reflexivity|].
  eapply List.Forall_impl; [|exact (rfilter_Ok _ _ _ Hl)].
  intros obs [Hin Hp] Hc.
  assert (Hs : FHIRClient.storesUnder patientId k obs = true).
  { unfold FHIRClient.storesUnder. rewrite Hp, Hc. apply String.eqb_refl. }
  assert (Hex : existsb (FHIRClient.storesUnder patientId k) observations = true).
  { apply existsb_exists. exists obs. split; assumption. }
  congruence.
Qed.


(** The extraction of the SMART client returns the sentinel for a field
    name under which none of the patient's observations is stored. *)
Lemma fhirClient_missing_fields (Number_toString : Q -> string)
    (observations : list Entry) (patientId : string) (v' : FHIRClient.VitalSigns) :
  FHIRClient.extractVitalsFromObservations Number_toString observations patientId
    = Js.Ok v' ->
  (existsb (FHIRClient.storesUnder patientId "hr") observations = false ->
   FHIRClient.hr v' = NA) /\
  (existsb (FHIRClient.storesUnder patientId "bp") observations = false ->
   FHIRClient.bp v' = NA) /\
  (existsb (FHIRClient.storesUnder patientId "temp") observations = false ->
   FHIRClient.temp v' = NA) /\
  (existsb (FHIRClient.storesUnder patientId "spo2") observations = false ->
   FHIRClient.spo2 v' = NA).
Proof.
  intros Hv'. unfold FHIRClient.extractVitalsFromObservations in Hv'.
  destruct (Js.rfilter _ observations) as [po|] eqn:Hpo; simpl in Hv'; [|discriminate Hv'].
  destruct (FHIRClient.forEachVital _ po ∅) as [m|] eqn:Hm; simpl in Hv'; [|discriminate Hv'].
  injection Hv' as <-. simpl.
  repeat split; intros H; eapply fhirClient_field_missing; eassumption.
Qed.


(** The SMART client keys its extraction on the field names themselves:
    a heart-rate observation under the standard code is dropped, one
    whose code is [hr] is kept. *)
Example fhirClient_vitals_by_field_name (Number_toString : Q -> string) :
  FHIRClient.extractVitalsFromObservations Number_toString
    [Samples.observation "p1" "8867-4" 72] "p1"
  = Js.Ok {| FHIRClient.hr := NA; FHIRClient.bp := NA;
             FHIRClient.temp := NA; FHIRClient.spo2 := NA |} /\
  FHIRClient.extractVitalsFromObservations Number_toString
    [Samples.observation "p1" "hr" 72] "p1"
  = Js.Ok {| FHIRClient.hr := strOrNA (Some (Number_toString 72%Q)); FHIRClient.bp := NA;
             FHIRClient.temp := NA; FHIRClient.spo2 := NA |}.
Proof. split; reflexivity. Qed.

End VitalsTable.

(** ** Timeline order *)

Section TimelineFacts.
Import Timeline.

Lemma sortInsert_perm {A} (cmp : A -> A -> Z) (x : A) (l : list A) :
  Permutation (x :: l) (sortInsert cmp x l).
Proof.
  induction l as [|y r IH]; simpl; [reflexivity|].
  destruct (cmp x y <=? 0); [reflexivity|].
  rewrite perm_swap. apply perm_skip, IH.
Qed.

Lemma Array_sort_perm {A} (cmp : A -> A -> Z) (l : list A) :
  Permutation l (Array_sort cmp l).
Proof.
  induction l as [|x l IH]; simpl; [reflexivity|].
  rewrite <- sortInsert_perm. apply perm_skip, IH.
Qed.

Lemma sortInsert_sorted (x : TimelineEvent) (l : list TimelineEvent) :
  sortedDesc l -> sortedDesc (sortInsert byTimestampDesc x l).
Proof.
  unfold sortedDesc, byTimestampDesc. induction 1 as [|y r Hr IH Hy]; simpl.
  - repeat constructor.
  - destruct (Z.leb_spec (timestamp y - timestamp x) 0).
    + constructor; [constructor; assumption|].
      constructor; [lia|].
      eapply List.Forall_impl; [|exact Hy]. simpl. intros; lia.
    + constructor; [exact IH|].
      rewrite <- (sortInsert_perm byTimestampDesc x r).
      constructor; [lia | exact Hy].
Qed.

Lemma Array_sort_sorted (l : list TimelineEvent) :
  sortedDesc (Array_sort byTimestampDesc l).
Proof.
  induction l as [|x l IH]; simpl; [constructor | apply sortInsert_sorted, IH].
Qed.

Lemma sortInsert_stable (t : Z) (x : TimelineEvent) (l : list TimelineEvent) :
  List.filter (fun e => timestamp e =? t) (sortInsert byTimestampDesc x l) =
  List.filter (fun e => timestamp e =? t) (x :: l).
Proof.
  unfold byTimestampDesc. induction l as [|y r IH]; [reflexivity|].
  simpl sortInsert. destruct (Z.leb_spec (timestamp y - timestamp x) 0); [reflexivity|].
  simpl in *. rewrite IH.
  destruct (Z.eqb_spec (timestamp x) t), (Z.eqb_spec (timestamp y) t); try reflexivity; lia.
Qed.

Lemma Array_sort_stable (t : Z) (l : list TimelineEvent) :
  List.filter (fun e => timestamp e =? t) (Array_sort byTimestampDesc l) =
  List.filter (fun e => timestamp e =? t) l.
Proof.
  induction l as [|x l IH]; [reflexivity|].
  simpl Array_sort. rewrite sortInsert_stable. simpl. rewrite IH. reflexivity.
Qed.

(** C8, as the code has it.  The events of an encounter come out sorted
    descending by timestamp; they are the pushed events (start event,
    generated events, end event) rearranged, and events of one timestamp
    keep the order in which they were pushed: the start event before the
    generated events, the generated events before the end event. *)
Theorem generateTimelineEvents_order (encounter : Encounter)
    (aiTimestamps : option (list TimelineEvent)) :
  let events := pushedEvents encounter (default [] aiTimestamps) in
  let out := generateTimelineEvents encounter aiTimestamps in
  sortedDesc out /\
  Permutation events out /\
  forall t, List.filter (fun e => timestamp e =? t) out =
            List.filter (fun e => timestamp e =? t) events.
Proof.
  unfold generateTimelineEvents.
  split; [apply Array_sort_sorted|]. split; [apply Array_sort_perm|].
  intros t. apply Array_sort_stable.
Qed.

(** A generated event with the timestamp of the end of the encounter
    comes out in front of the clinical end event. *)
Lemma generateTimelineEvents_tie_at_end :
  let out := generateTimelineEvents Samples.endedEncounter (Some [Samples.aiEventAt 100]) in
  map source out = ["ai_generated"; "fhir"] /\
  map timestamp out = [100; 100] /\
  clinicalFirstOnTies out = false.
Proof. repeat split. Qed.

(** On a tie at the start the clinical event does come first. *)
Example generateTimelineEvents_tie_at_start :
  let encounter :=
    {| enc_id := "e1"; enc_patientId := Some "p1"; startTime := Some 100;
       endTime := None; aiTimeline := []; timelineEvents := [] |} in
  let out := generateTimelineEvents encounter (Some [Samples.aiEventAt 100]) in
  map source out = ["fhir"; "ai_generated"] /\ clinicalFirstOnTies out = true.
Proof. repeat split. Qed.

End TimelineFacts.

(** ** Running effect trees *)

Section RunFacts.
Import Dashboard Effects.

Lemma run_bind {A B} (env : Env) (p : prog A) (f : A -> prog B) (w : World) (tr : list Event) :
  run env (bind p f) w tr =
  match run env p w tr with
  | (Ok a, w', tr') => run env (f a) w' tr'
  | (Err e, w', tr') => (Err e, w', tr')
  end.
Proof. revert w tr. induction p; intros; simpl; auto. Qed.

Lemma run_try_catch {A} (env : Env) (p : prog A) (h : exn -> prog A)
    (w : World) (tr : list Event) :
  run env (try_catch p h) w tr =
  match run env p w tr with
  | (Ok a, w', tr') => (Ok a, w', tr')
  | (Err e, w', tr') => run env (h e) w' tr'
  end.
Proof. revert w tr. induction p; intros; simpl; auto. Qed.

Lemma requests_app (tr1 tr2 : list Event) :
  requests (tr1 ++ tr2) = (requests tr1 ++ requests tr2)%list.
Proof. unfold requests. apply flat_map_app. Qed.

Lemma deliveries_app (cb : nat) (tr1 tr2 : list Event) :
  deliveries cb (tr1 ++ tr2) = (deliveries cb tr1 ++ deliveries cb tr2)%list.
Proof. unfold deliveries. apply flat_map_app. Qed.

End RunFacts.

(** ** The REST search *)

Section SearchFacts.
Import Dashboard Effects RestApi.

Lemma buildUrl_caller_sort (resourceType : string) (params : Params) (omitSort : bool) :
  truthyParam (getParam params "_sort") = true ->
  buildUrl resourceType params omitSort = buildUrl resourceType params false.
Proof.
  intros H. unfold buildUrl. rewrite H, !andb_false_r. reflexivity.
Qed.

Lemma caller_sort_in_query (resourceType : string) (params : Params) (omitSort : bool) :
  truthyParam (getParam params "_sort") = true ->
  In "_sort" (map fst (queryOf (buildUrl resourceType params omitSort))).
Proof.
  intros H. unfold buildUrl. rewrite H, andb_false_r. simpl.
  assert (Hin : In "_sort" (map fst (flat_map (fun kv : string * ParamValue =>
            match paramText (snd kv) with
            | Some text => [(fst kv, text)]
            | None => []
            end) params))).
  { induction params as [|[k v] r IH]; simpl in *; [discriminate H|].
    destruct (String.eqb_spec k "_sort") as [->|Hne].
    - destruct v; simpl in *; try discriminate H; auto.
    - rewrite map_app. apply in_or_app. right. apply IH, H. }
  destruct (truthyParam (getParam params "_count")); [exact Hin|].
  rewrite map_app. apply in_or_app. left. exact Hin.
Qed.

(** Without a [_sort] property the retry carries no sort parameter. *)
Lemma retry_without_default_sort (resourceType : string) (params : Params) :
  ~ In "_sort" (map fst params) ->
  ~ In "_sort" (map fst (queryOf (buildUrl resourceType params true))).
Proof.
  intros Hno. unfold buildUrl. simpl.
  assert (Hq : ~ In "_sort" (map fst (flat_map (fun kv : string * ParamValue =>
            match paramText (snd kv) with
            | Some text => [(fst kv, text)]
            | None => []
            end) params))).
  { induction params as [|[k v] r IH]; simpl in *; [tauto|].
    rewrite map_app. intros [Hk|Hr]%in_app_or.
    - destruct (paramText v); simpl in Hk; [|contradiction]. tauto.
    - apply IH; tauto. }
  destruct (truthyParam (getParam params "_count")); [exact Hq|].
  rewrite map_app. intros [H|[H|[]]]%in_app_or; [tauto | discriminate H].
Qed.

(** A search never throws; it retries exactly once, with [omitSort], when
    the first response has status 400 or 422, and it resolves to the
    entries of the last response if that is a 2xx bundle and to the empty
    list otherwise. *)
Lemma searchResources_run (env : Env) (resourceType : string) (params : Params)
    (w : World) (tr : list Event) :
  let u0 := buildUrl resourceType params false in
  let u1 := buildUrl resourceType params true in
  let first := env_fetch env tr u0 in
  let second := env_fetch env (tr ++ [Fetched u0]) u1 in
  run env (searchResources resourceType params) w tr =
  if rejectsParameters first
  then (Ok (searchOutcome second), w, (tr ++ [Fetched u0; Fetched u1])%list)
  else (Ok (searchOutcome first), w, (tr ++ [Fetched u0])%list).
Proof.
  cbv zeta. unfold searchResources. rewrite run_try_catch, run_bind.
  unfold fetchResponse at 1. simpl.
  destruct (env_fetch env tr (buildUrl resourceType params false)) as [|s b] eqn:E1; simpl;
    [reflexivity|].
  rewrite run_bind.
  assert (Hok : forall z, (z =? 400) || (z =? 422) = true -> ok z = false).
  { intros z Hz. unfold ok. destruct (Z.eqb_spec z 400), (Z.eqb_spec z 422);
      try discriminate Hz; subst; reflexivity. }
  destruct ((s =? 400) || (s =? 422)) eqn:E400.
  - rewrite (Hok _ E400). simpl. rewrite <- app_assoc. simpl.
    destruct (env_fetch env (tr ++ [Fetched _]) _) as [|s2 b2]; simpl; [reflexivity|].
    destruct (ok s2); simpl; destruct b2 as [[[e|]|[]]|]; reflexivity.
  - rewrite andb_false_r. simpl.
    destruct (ok s); simpl; destruct b as [[[e|]|[]]|]; reflexivity.
Qed.

Lemma searchResources_total (env : Env) (resourceType : string) (params : Params)
    (w : World) (tr : list Event) :
  exists entries more,
    run env (searchResources resourceType params) w tr = (Ok entries, w, (tr ++ more)%list) /\
    (forall cb, deliveries cb more = []).
Proof.
  rewrite searchResources_run. destruct (rejectsParameters _); eauto.
Qed.

(** C7.  When the caller passes its own [_sort] and the server answers
    400 or 422, the one retry goes to the same address as the first
    request: the sort parameter is still in its query. *)
Theorem searchResources_keeps_caller_sort (env : Env) (resourceType : string)
    (params : Params) (w : World) (tr : list Event) (status : Z) (body : option Body) :
  truthyParam (getParam params "_sort") = true ->
  env_fetch env tr (buildUrl resourceType params false) = Responded status body ->
  status = 400 \/ status = 422 ->
  exists entries retry,
    run env (searchResources resourceType params) w tr
      = (Ok entries, w, (tr ++ [Fetched (buildUrl resourceType params false); Fetched retry])%list) /\
    retry = buildUrl resourceType params false /\
    In "_sort" (map fst (queryOf retry)).
Proof.
  intros Hsort Hfirst Hstatus.
  rewrite searchResources_run. cbv zeta. rewrite Hfirst. simpl.
  replace ((status =? 400) || (status =? 422)) with true
    by (destruct Hstatus; subst; reflexivity).
  eexists. eexists. split; [reflexivity|].
  split; [apply buildUrl_caller_sort, Hsort | apply caller_sort_in_query, Hsort].
Qed.

Lemma searchResources_keeps_caller_sort_witness :
  exists entries retry,
    run Samples.rejectsFirst (searchResources "Patient" [("_sort", PStr "date")])
        (DataSyncService.freshWorld true) []
      = (Ok entries, DataSyncService.freshWorld true,
         [Fetched (SearchUrl "Patient" [("_sort", "date"); ("_count", "10")]);
          Fetched retry]) /\
    retry = SearchUrl "Patient" [("_sort", "date"); ("_count", "10")] /\
    In "_sort" (map fst (queryOf retry)).
Proof.
  exact (searchResources_keeps_caller_sort Samples.rejectsFirst "Patient"
           [("_sort", PStr "date")] (DataSyncService.freshWorld true) [] 400 None
           eq_refl eq_refl (or_introl eq_refl)).
Defined.

(** A probe that is rejected, or answered outside 2xx, leaves the flag
    of the REST client false; a 2xx answer sets it. *)
Lemma testConnection_run (env : Env) (w : World) (tr : list Event) :
  run env testConnection w tr =
  (Ok (negb (failed (env_fetch env tr Metadata))),
   setRestConnected w (negb (failed (env_fetch env tr Metadata))),
   (tr ++ [Fetched Metadata])%list).
Proof.
  unfold testConnection. rewrite run_try_catch.
  unfold fetchResponse, fetch. cbn [run bind].
  destruct (env_fetch env tr Metadata) as [|status body]; [reflexivity|].
  cbn [run bind get put fst failed]. unfold ok. rewrite negb_involutive.
  destruct ((200 <=? status) && (status <=? 299)); reflexivity.
Qed.

(** With the parameters the services themselves pass, the retry drops the
    default sort. *)
Example searchResources_retry_default_sort :
  requests (snd (run Samples.rejectsFirst (searchResources "Patient" [("_count", PNum 20)])
                     (DataSyncService.freshWorld true) []))
  = [ SearchUrl "Patient" [("_count", "20"); ("_sort", "-_lastUpdated")];
      SearchUrl "Patient" [("_count", "20")] ].
Proof. reflexivity. Qed.

End SearchFacts.

(** ** Subscriptions and notification *)

Section SubscriberFacts.
Import Dashboard Effects DataSyncService.

Lemma notify_one (env : Env) (data : Data) (callback : nat) (w : World) (tr : list Event) :
  run env (try_catch (invoke callback data) (fun error => Ret tt)) w tr =
  (Ok tt, w, (tr ++ [Notified callback data])%list).
Proof.
  simpl. destruct (env_callback env tr callback data); reflexivity.
Qed.

Lemma notify_each (env : Env) (data : Data) (l : list nat) (w : World) (tr : list Event) :
  run env (forEach (fun callback => try_catch (invoke callback data) (fun error => Ret tt)) l)
      w tr =
  (Ok tt, w, (tr ++ map (fun callback => Notified callback data) l)%list).
Proof.
  revert tr. induction l as [|callback l IH]; intros tr.
  - simpl. rewrite app_nil_r. reflexivity.
  - change (forEach ?f (callback :: l)) with (bind (f callback) (fun _ => forEach f l)).
    rewrite run_bind, notify_one, IH. simpl. rewrite <- app_assoc. reflexivity.
Qed.

Lemma notifySubscribers_run (env : Env) (data : Data) (w : World) (tr : list Event) :
  run env (notifySubscribers data) w tr =
  (Ok tt, w, (tr ++ map (fun callback => Notified callback data) (subscribers w))%list).
Proof.
  unfold notifySubscribers. cbn [run bind get]. apply notify_each.
Qed.

(** C3.  One notification cycle calls every subscribed callback once, in
    subscription order, with the same data, whichever of them throw; the
    cycle itself does not throw, and the service, its subscriber set
    included, is as before. *)
Theorem notifySubscribers_isolated (env : Env) (data : Data) (w : World) (tr : list Event) :
  run env (notifySubscribers data) w tr =
  (Ok tt, w, (tr ++ map (fun callback => Notified callback data) (subscribers w))%list).
Proof.
  unfold notifySubscribers. cbn [run bind get].
  generalize (subscribers w) as l. intros l. revert tr.
  induction l as [|callback l IH]; intros tr.
  - simpl. rewrite app_nil_r. reflexivity.
  - change (forEach ?f (callback :: l)) with (bind (f callback) (fun _ => forEach f l)).
    rewrite run_bind, notify_one, IH. simpl. rewrite <- app_assoc. reflexivity.
Qed.

(** A callback that throws does not keep the next one from its data. *)
Example notifySubscribers_after_throw :
  let w := setSubscribers (freshWorld false) [0; 1]%nat in
  env_callback Samples.offline [] 0%nat initialCache = Some CallbackError /\
  run Samples.offline (notifySubscribers initialCache) w [] =
  (Ok tt, w, [Notified 0 initialCache; Notified 1 initialCache]).
Proof. split; reflexivity. Qed.

Lemma deliveries_cons (callback c : nat) (data : Data) (tr : list Event) :
  deliveries callback (Notified c data :: tr) =
  ((if Nat.eqb c callback then [data] else []) ++ deliveries callback tr)%list.
Proof. reflexivity. Qed.

Lemma deliveries_absent (callback : nat) (data : Data) (l : list nat) :
  ~ In callback l -> deliveries callback (map (fun c => Notified c data) l) = [].
Proof.
  induction l as [|c l IH]; [reflexivity|]. intros Hnot.
  change (map _ (c :: l)) with (Notified c data :: map (fun c => Notified c data) l).
  rewrite deliveries_cons, IH by (intros H; apply Hnot; right; exact H).
  destruct (Nat.eqb_spec c callback) as [->|_]; [|reflexivity].
  exfalso. apply Hnot. left. reflexivity.
Qed.

Lemma deliveries_notified (callback : nat) (data : Data) (l : list nat) :
  In callback l -> List.NoDup l ->
  deliveries callback (map (fun c => Notified c data) l) = [data].
Proof.
  induction l as [|c l IH]; [intros []|]. intros Hin Hnd.
  inversion Hnd as [|? ? Hc Hl]; subst.
  change (map _ (c :: l)) with (Notified c data :: map (fun c => Notified c data) l).
  rewrite deliveries_cons.
  destruct (Nat.eqb_spec c callback) as [->|Hne].
  - rewrite deliveries_absent by exact Hc. reflexivity.
  - destruct Hin as [->|Hin]; [contradiction|]. rewrite IH by assumption. reflexivity.
Qed.

(** C10.  [subscribe] of a value that is not a function changes nothing
    and returns the empty function; calling that function changes nothing
    either, so a notification cycle after them runs as it would have
    without them. *)
Theorem subscribe_not_a_function (env : Env) (v : Json) (w : World) (tr : list Event) :
  run env (subscribe (NotAFunction v)) w tr = (Ok EmptyFunction, w, tr) /\
  run env (unsubscribe EmptyFunction) w tr = (Ok tt, w, tr) /\
  forall data,
    run env (bind (subscribe (NotAFunction v))
                  (fun u => bind (unsubscribe u) (fun _ => notifySubscribers data))) w tr =
    run env (notifySubscribers data) w tr.
Proof. repeat split. Qed.

(** A function is added once, at the end, and its closure removes it. *)
Lemma subscribe_function (env : Env) (f : nat) (w : World) (tr : list Event) :
  run env (subscribe (Function f)) w tr =
  (Ok (DeleteCallback f), setSubscribers w (setAdd f (subscribers w)), tr) /\
  run env (unsubscribe (DeleteCallback f)) w tr =
  (Ok tt, setSubscribers w (setDelete f (subscribers w)), tr).
Proof. split; reflexivity. Qed.

End SubscriberFacts.

(** ** The AI enhancement never fails and touches only the insights *)

Section EnhanceFacts.
Import Dashboard Timeline Effects DataSyncService.

Lemma internal_requests (more : list Event) :
  forallb internal more = true -> requests more = [].
Proof.
  induction more as [|ev more IH]; [reflexivity|]. simpl.
  intros [Hev Hmore]%andb_prop. unfold requests in *. simpl. rewrite (IH Hmore).
  destruct ev; try discriminate Hev; reflexivity.
Qed.

Lemma internal_deliveries (callback : nat) (more : list Event) :
  forallb internal more = true -> deliveries callback more = [].
Proof.
  induction more as [|ev more IH]; [reflexivity|]. simpl.
  intros [Hev Hmore]%andb_prop. unfold deliveries in *. simpl. rewrite (IH Hmore).
  destruct ev; try discriminate Hev; reflexivity.
Qed.

Lemma sameButInsights_refl (w : World) : sameButInsights w w.
Proof.
  exists (aiInsights (cachedData w)). destruct w as [? ? ? ? ? c ? ? ?]. destruct c. reflexivity.
Qed.

Lemma sameButInsights_trans (w1 w2 w3 : World) :
  sameButInsights w1 w2 -> sameButInsights w2 w3 -> sameButInsights w1 w3.
Proof.
  intros [i ->] [j ->]. exists j. reflexivity.
Qed.

Lemma sameButInsights_fields (w w' : World) :
  sameButInsights w w' ->
  isConnected w' = isConnected w /\ subscribers w' = subscribers w /\
  rest_isConnected w' = rest_isConnected w /\ syncInterval w' = syncInterval w /\
  exists i, cachedData w' = withAiInsights (cachedData w) i.
Proof. intros [i ->]. repeat split. exists i. reflexivity. Qed.

Lemma forEachIndexed_run (env : Env) (now : Z) (p : PatientSummary)
    (l : list EventTemplate) (index : nat) (w : World) (tr : list Event) :
  exists ts more,
    run env (forEachIndexed (aiEvent now p) index l) w tr = (Ok ts, w, (tr ++ more)%list) /\
    forallb internal more = true.
Proof.
  revert index tr. induction l as [|ev l IH]; intros index tr.
  - exists [], []. simpl. rewrite app_nil_r. split; reflexivity.
  - change (forEachIndexed (aiEvent now p) index (ev :: l))
      with (bind (aiEvent now p index ev)
              (fun y => bind (forEachIndexed (aiEvent now p) (S index) l)
                             (fun ys => Ret (y :: ys)))).
    rewrite run_bind. simpl run at 1. lazy beta iota. rewrite run_bind.
    destruct (IH (S index) (((tr ++ [RandomDrawn]) ++ [RandomDrawn]) ++ [RandomDrawn])%list)
      as (ts & more & -> & Hmore).
    simpl. eexists. exists ([RandomDrawn; RandomDrawn; RandomDrawn] ++ more)%list.
    rewrite <- !app_assoc. simpl. split; [reflexivity | exact Hmore].
Qed.

Lemma generatePatientAITimestamps_run (env : Env) (p : PatientSummary)
    (w : World) (tr : list Event) :
  exists ts more,
    run env (generatePatientAITimestamps p) w tr = (Ok ts, w, (tr ++ more)%list) /\
    forallb internal more = true /\ sortedDesc ts.
Proof.
  unfold generatePatientAITimestamps. simpl. rewrite run_bind.
  match goal with
  | |- context [run env (forEachIndexed (aiEvent ?now p) 0 ?l) w ?t] =>
      destruct (forEachIndexed_run env now p l 0 w t) as (ts & more & -> & Hmore)
  end.
  simpl. eexists. exists ([ClockRead; RandomDrawn; Shuffled] ++ more)%list.
  rewrite <- !app_assoc. simpl. split; [reflexivity|].
  split; [exact Hmore | apply Array_sort_sorted].
Qed.

Lemma forPatients_cons (p : PatientSummary) (ps : list PatientSummary)
    (acc : gmap string (list TimelineEvent)) :
  forPatients (p :: ps) acc =
  bind (try_catch (requestAiTimeline p acc)
          (fun error => bind (generatePatientAITimestamps p)
                             (fun ts => Ret (<[id p := ts]> acc))))
       (forPatients ps).
Proof. reflexivity. Qed.

Lemma forPatients_run (env : Env) (ps : list PatientSummary)
    (acc : gmap string (list TimelineEvent)) (w : World) (tr : list Event) :
  exists m w' more,
    run env (forPatients ps acc) w tr = (Ok m, w', (tr ++ more)%list) /\
    sameButInsights w w' /\ forallb internal more = true.
Proof.
  revert acc w tr. induction ps as [|p ps IH]; intros acc w tr.
  - exists acc, w, []. simpl. rewrite app_nil_r.
    split; [reflexivity|]. split; [apply sameButInsights_refl | reflexivity].
  - rewrite forPatients_cons, run_bind, run_try_catch.
    unfold requestAiTimeline. simpl run at 1.
    destruct (env_ai env tr p) as [d|e]; cbn [run bind lift try_catch get put].
    + match goal with
      | |- context [run env (forPatients ps ?a) ?w1 ?t] =>
          destruct (IH a w1 t) as (m & w' & more & -> & Hsame & Hmore)
      end.
      exists m, w', (AiRequested p :: more).
      rewrite <- app_assoc. split; [reflexivity|]. split; [|exact Hmore].
      eapply sameButInsights_trans; [|exact Hsame]. eexists. reflexivity.
    + rewrite run_bind.
      destruct (generatePatientAITimestamps_run env p w (tr ++ [AiRequested p])%list)
        as (ts & more1 & -> & Hmore1 & _).
      simpl.
      match goal with
      | |- context [run env (forPatients ps ?a) ?w1 ?t] =>
          destruct (IH a w1 t) as (m & w' & more & -> & Hsame & Hmore)
      end.
      exists m, w', (AiRequested p :: more1 ++ more)%list.
      rewrite <- !app_assoc. split; [reflexivity|]. split; [exact Hsame|].
      simpl. rewrite forallb_app, Hmore1, Hmore. reflexivity.
Qed.

Lemma enhanceWithAITimestamps_run (env : Env) (data : Data) (w : World) (tr : list Event) :
  exists m w' more,
    run env (enhanceWithAITimestamps data) w tr = (Ok (annotate m data), w', (tr ++ more)%list) /\
    sameButInsights w w' /\ forallb internal more = true.
Proof.
  unfold enhanceWithAITimestamps, generateAITimestamps.
  rewrite run_try_catch, run_bind.
  destruct (patients data) as [ps|].
  - destruct (forPatients_run env ps ∅ w tr) as (m & w' & more & -> & Hsame & Hmore).
    simpl. eauto 8.
  - simpl. exists ∅, w, []. rewrite app_nil_r.
    split; [reflexivity|]. split; [apply sameButInsights_refl | reflexivity].
Qed.

End EnhanceFacts.

(** ** Load cycles and initialisation *)

Section LoadFacts.
Import Dashboard Timeline Effects DataSyncService.

Variable adaptDashboardData : Body -> bool -> result Data.
Variable asDashboard : Body -> Data.

Local Abbreviation loadDashboardData :=
  (DataSyncService.loadDashboardData adaptDashboardData asDashboard).
Local Abbreviation loadAnalyticsData := (DataSyncService.loadAnalyticsData).
Local Abbreviation initialize := (DataSyncService.initialize adaptDashboardData asDashboard).

Lemma deliveries_present (callback : nat) (data : Data) (l : list nat) :
  In callback l ->
  exists later, deliveries callback (map (fun c => Notified c data) l) = data :: later.
Proof.
  induction l as [|c l IH]; [intros []|]. intros Hin.
  change (map _ (c :: l)) with (Notified c data :: map (fun c => Notified c data) l).
  rewrite deliveries_cons. destruct (Nat.eqb_spec c callback) as [->|Hne].
  - eexists. reflexivity.
  - destruct Hin as [->|Hin]; [contradiction|]. exact (IH Hin).
Qed.

Lemma requests_notified (data : Data) (l : list nat) :
  requests (map (fun c => Notified c data) l) = [].
Proof. induction l as [|c l IH]; [reflexivity | exact IH]. Qed.

(** The mock path of a load cycle, when the summary is served and the
    adapter accepts it. *)
Lemma loadDashboardData_mock (env : Env) (w : World) (tr : list Event)
    (status : Z) (b : Body) (adapted : Data) :
  isConnected w = false ->
  env_fetch env tr RestApi.summaryFixture = Responded status (Some b) ->
  adaptDashboardData b false = Ok adapted ->
  exists m i more now,
    let snapshot := spread (withAiInsights (cachedData w) i) (annotate m adapted) in
    run env loadDashboardData w tr =
      (Ok tt, setLastSyncTime (setCachedData w snapshot) (Some now),
       (tr ++ Fetched RestApi.summaryFixture :: more ++
        map (fun c => Notified c snapshot) (subscribers w) ++ [ClockRead])%list) /\
    forallb internal more = true.
Proof.
  intros Hconn Hfetch Hadapt.
  unfold DataSyncService.loadDashboardData. rewrite run_try_catch.
  cbn [run bind get]. rewrite Hconn.
  unfold RestApi.fetchResponse, fetch. cbn [run bind]. rewrite Hfetch.
  cbn [run bind RestApi.json snd get]. rewrite Hconn, Hadapt. cbn [lift bind].
  rewrite run_bind.
  destruct (enhanceWithAITimestamps_run env adapted w (tr ++ [Fetched RestApi.summaryFixture])%list)
    as (m & w1 & more & -> & [i ->] & Hmore).
  cbn [run bind get put]. rewrite run_bind, notifySubscribers_run.
  cbn [run bind get put newDate].
  exists m, i, more. eexists. cbv zeta. split; [|exact Hmore].
  rewrite <- !app_assoc. reflexivity.
Qed.

(** The analytics load never throws and asks for nothing but its file. *)
Lemma loadAnalyticsData_run (env : Env) (w : World) (tr : list Event) :
  exists w' more,
    run env loadAnalyticsData w tr = (Ok tt, w', (tr ++ more)%list) /\
    isConnected w' = isConnected w /\ syncInterval w' = syncInterval w /\
    requests more = [RestApi.analyticsFixture].
Proof.
  unfold DataSyncService.loadAnalyticsData. rewrite run_try_catch.
  unfold RestApi.fetchResponse, fetch. cbn [run bind].
  destruct (env_fetch env tr RestApi.analyticsFixture) as [|status [d|]].
  - cbn [run bind]. exists w, [Fetched RestApi.analyticsFixture]. repeat split.
  - cbn [run bind RestApi.json snd get put]. rewrite notifySubscribers_run.
    eexists. eexists. rewrite <- app_assoc. split; [reflexivity|]. repeat split.
    rewrite requests_app, requests_notified. reflexivity.
  - cbn [run bind RestApi.json snd]. exists w, [Fetched RestApi.analyticsFixture]. repeat split.
Qed.

Lemma failed_searchOutcome (o : FetchOutcome) :
  failed o = true -> RestApi.searchOutcome o = [].
Proof.
  destruct o as [|status [[[e|]|]|]]; try reflexivity.
  simpl. unfold RestApi.ok. intros ->%negb_true_iff. reflexivity.
Qed.

Lemma searchResources_failed (env : Env) (resourceType : string) (params : RestApi.Params)
    (w : World) (tr : list Event) :
  (forall tr' rt query, failed (env_fetch env tr' (SearchUrl rt query)) = true) ->
  exists more,
    run env (RestApi.searchResources resourceType params) w tr = (Ok [], w, (tr ++ more)%list) /\
    forallb remoteRequest more = true.
Proof.
  intros Hdown. rewrite searchResources_run. cbv zeta.
  destruct (RestApi.rejectsParameters _).
  - rewrite failed_searchOutcome by apply Hdown. eexists. split; reflexivity.
  - rewrite failed_searchOutcome by apply Hdown. eexists. split; reflexivity.
Qed.

Lemma remote_not_static (more : list Event) (path : string) :
  forallb remoteRequest more = true ->
  ~ In (Static path) (requests more) /\ forall callback, deliveries callback more = [].
Proof.
  induction more as [|ev more IH]; simpl; [intros _; split; [tauto | reflexivity]|].
  intros [Hev Hmore]%andb_prop. destruct (IH Hmore) as [IH1 IH2].
  destruct ev as [[]| | | | |]; try discriminate Hev. split.
  - unfold requests. simpl. intros [H|H]; [discriminate H | exact (IH1 H)].
  - intros callback. unfold deliveries. simpl. apply IH2.
Qed.

(** The REST path of a load cycle, when no search brings a 2xx response:
    the snapshot is assembled from three empty result sets. *)
Lemma loadDashboardData_remote_down (env : Env) (w : World) (tr : list Event) :
  isConnected w = true ->
  (forall tr' rt query, failed (env_fetch env tr' (SearchUrl rt query)) = true) ->
  exists more now,
    let snapshot := spread (cachedData w) RestApi.dashboardOfNothing in
    run env loadDashboardData w tr =
      (Ok tt, setLastSyncTime (setCachedData w snapshot) (Some now),
       (tr ++ more ++ map (fun c => Notified c snapshot) (subscribers w) ++ [ClockRead])%list) /\
    forallb remoteRequest more = true.
Proof.
  intros Hconn Hdown.
  unfold DataSyncService.loadDashboardData. rewrite run_try_catch.
  cbn [run bind get]. rewrite Hconn.
  unfold RestApi.getDashboardData. rewrite run_bind, run_try_catch, run_bind.
  destruct (searchResources_failed env RestApi.PATIENT [("_count", RestApi.PNum 20)] w tr Hdown)
    as (more1 & -> & H1).
  rewrite run_bind.
  destruct (searchResources_failed env RestApi.ENCOUNTER [("_count", RestApi.PNum 20)] w
              (tr ++ more1)%list Hdown) as (more2 & -> & H2).
  rewrite run_bind.
  destruct (searchResources_failed env RestApi.OBSERVATION [("_count", RestApi.PNum 50)] w
              ((tr ++ more1) ++ more2)%list Hdown) as (more3 & -> & H3).
  change (RestApi.buildDashboardData [] [] []) with (@Ret Data RestApi.dashboardOfNothing).
  cbn [run bind get]. rewrite Hconn. cbn [run bind].
  change (enhanceWithAITimestamps RestApi.dashboardOfNothing)
    with (@Ret Data RestApi.dashboardOfNothing).
  cbn [run bind get put]. rewrite run_bind, notifySubscribers_run.
  cbn [run bind get put newDate].
  exists (more1 ++ more2 ++ more3)%list. eexists. cbv zeta.
  split; [rewrite <- !app_assoc; reflexivity|].
  rewrite !forallb_app, H1, H2, H3. reflexivity.
Qed.

(** C1, as the code has it.  [initialize(true)] does not probe; it reads
    the flag the REST client's last probe left.  If that probe failed and
    the mock summary is served and adapted, initialisation ends without
    an error, the only requests are the two mock files, and every
    subscriber first receives the snapshot made from the adapted mock
    summary.  If the probe succeeded and every search then fails,
    initialisation also ends without an error, but the mock summary is
    not read: every subscriber first receives the snapshot assembled from
    three empty result sets. *)
Theorem initialize_fallback (env : Env) (w : World) (tr : list Event) :
  (rest_isConnected w = false ->
   forall status b adapted,
     env_fetch env tr RestApi.summaryFixture = Responded status (Some b) ->
     adaptDashboardData b false = Ok adapted ->
     exists w' more m i,
       run env (initialize true) w tr = (Ok tt, w', (tr ++ more)%list) /\
       requests more = [RestApi.summaryFixture; RestApi.analyticsFixture] /\
       forall callback, In callback (subscribers w) ->
         exists later,
           deliveries callback more =
           spread (withAiInsights (cachedData w) i) (annotate m adapted) :: later) /\
  (rest_isConnected w = true ->
   (forall tr' rt query, failed (env_fetch env tr' (SearchUrl rt query)) = true) ->
   exists w' more,
     run env (initialize true) w tr = (Ok tt, w', (tr ++ more)%list) /\
     ~ In RestApi.summaryFixture (requests more) /\
     forall callback, In callback (subscribers w) ->
       exists later,
         deliveries callback more = spread (cachedData w) RestApi.dashboardOfNothing :: later).
Proof.
  split.
  - intros Hprobe status b adapted Hfetch Hadapt.
    unfold DataSyncService.initialize. rewrite run_try_catch.
    cbn [run bind get put]. rewrite Hprobe. cbn [andb]. rewrite run_bind.
    destruct (loadDashboardData_mock env (setIsConnected w false) tr status b adapted
                eq_refl Hfetch Hadapt) as (m & i & more & now & Hrun & Hmore).
    cbv zeta in Hrun. rewrite Hrun. clear Hrun. rewrite run_bind.
    match goal with
    | |- context [run env loadAnalyticsData ?W ?T] =>
        destruct (loadAnalyticsData_run env W T) as (w' & more2 & -> & Hc & _ & Hreq)
    end.
    cbn [run bind get]. rewrite Hc. cbn [isConnected setLastSyncTime setCachedData setIsConnected].
    cbn [run].
    exists w'. eexists. exists m, i. rewrite <- !app_assoc.
    split; [reflexivity|]. split.
    + change (Fetched RestApi.summaryFixture :: ?l)
        with ([Fetched RestApi.summaryFixture] ++ l)%list.
      rewrite !requests_app, (internal_requests _ Hmore), requests_notified, Hreq.
      reflexivity.
    + intros callback Hin.
      change (Fetched RestApi.summaryFixture :: ?l)
        with ([Fetched RestApi.summaryFixture] ++ l)%list.
      rewrite !deliveries_app, (internal_deliveries _ _ Hmore).
      destruct (deliveries_present callback
                  (spread (withAiInsights (cachedData w) i) (annotate m adapted))
                  (subscribers w) Hin) as (later & Hlater).
      cbn [subscribers cachedData setIsConnected] in *. rewrite Hlater.
      eexists. reflexivity.
  - intros Hprobe Hdown.
    unfold DataSyncService.initialize. rewrite run_try_catch.
    cbn [run bind get put]. rewrite Hprobe. cbn [andb]. rewrite run_bind.
    destruct (loadDashboardData_remote_down env (setIsConnected w true) tr eq_refl Hdown)
      as (more & now & Hrun & Hmore).
    cbv zeta in Hrun. rewrite Hrun. clear Hrun. rewrite run_bind.
    match goal with
    | |- context [run env loadAnalyticsData ?W ?T] =>
        destruct (loadAnalyticsData_run env W T) as (w' & more2 & -> & Hc & _ & Hreq)
    end.
    cbn [run bind get]. rewrite Hc. cbn [isConnected setLastSyncTime setCachedData setIsConnected].
    unfold startPeriodicSync. cbn [run bind get put].
    eexists. eexists. rewrite <- !app_assoc.
    split; [reflexivity|]. split.
    + rewrite !requests_app, requests_notified, Hreq.
      intros [H|[H|[]]]%in_app_or; [|discriminate H].
      exact (proj1 (remote_not_static more _ Hmore) H).
    + intros callback Hin.
      rewrite !deliveries_app, (proj2 (remote_not_static more "" Hmore)).
      destruct (deliveries_present callback
                  (spread (cachedData w) RestApi.dashboardOfNothing)
                  (subscribers w) Hin) as (later & Hlater).
      cbn [subscribers cachedData setIsConnected] in *. rewrite Hlater.
      eexists. reflexivity.
Qed.

End LoadFacts.

Section InitializeExamples.
Import Dashboard Effects DataSyncService.

Lemma initialize_fallback_witness :
  (exists w' more m i,
     run Samples.remoteDown (initialize Samples.sampleAdapter Samples.sampleView true)
         (Samples.subscribedWorld false) [] = (Ok tt, w', more) /\
     requests more = [RestApi.summaryFixture; RestApi.analyticsFixture] /\
     forall callback, In callback [0; 1]%nat ->
       exists later,
         deliveries callback more =
         spread (withAiInsights initialCache i) (annotate m Samples.mockDashboard) :: later) /\
  (exists w' more,
     run Samples.offline (initialize Samples.sampleAdapter Samples.sampleView true)
         (Samples.subscribedWorld true) [] = (Ok tt, w', more) /\
     ~ In RestApi.summaryFixture (requests more) /\
     forall callback, In callback [0; 1]%nat ->
       exists later,
         deliveries callback more = spread initialCache RestApi.dashboardOfNothing :: later).
Proof.
  destruct (initialize_fallback Samples.sampleAdapter Samples.sampleView Samples.remoteDown
              (Samples.subscribedWorld false) []) as [H1 _].
  destruct (initialize_fallback Samples.sampleAdapter Samples.sampleView Samples.offline
              (Samples.subscribedWorld true) []) as [_ H2].
  split.
  - exact (H1 eq_refl 200 Samples.summaryDocument Samples.mockDashboard eq_refl eq_refl).
  - exact (H2 eq_refl (fun _ _ _ => eq_refl)).
Defined.

(** When the probe had succeeded and the searches then fail,
    initialisation ends without an error, but the subscribers receive
    snapshots without patients, and the mock summary, which is being
    served and lists a patient, is never read. *)
Lemma initialize_remote_down_not_mock :
  let outcome :=
    run Samples.remoteDown (initialize Samples.sampleAdapter Samples.sampleView true)
        (Samples.subscribedWorld true) [] in
  fst (fst outcome) = Ok tt /\
  map patients (deliveries 1 (snd outcome)) = [Some []; Some []] /\
  ~ fellBackToMock [0; 1]%nat outcome.
Proof.
  split; [vm_compute; reflexivity|]. split; [vm_compute; reflexivity|].
  intros (_ & Hin & _). vm_compute in Hin.
  repeat (destruct Hin as [Hin|Hin]; [discriminate Hin|]). exact Hin.
Qed.

End InitializeExamples.

(** ** Overlapping refreshes *)

Section RefreshFacts.
Import Dashboard Effects DataSyncService EventLoop.

Variable adaptDashboardData : Body -> bool -> result Data.
Variable asDashboard : Body -> Data.

Local Abbreviation refresh := (DataSyncService.refresh adaptDashboardData asDashboard).

Lemma rounds_app (tr1 tr2 : list Event) :
  rounds (tr1 ++ tr2) = (rounds tr1 + rounds tr2)%nat.
Proof.
  unfold rounds. rewrite requests_app, List.filter_app, length_app. reflexivity.
Qed.

Lemma rounds_snoc (tr : list Event) (u : Url) :
  opensRound u = true -> rounds (tr ++ [Fetched u]) = (rounds tr + 1)%nat.
Proof.
  intros Hu. rewrite rounds_app. unfold rounds at 2, requests. simpl. rewrite Hu. reflexivity.
Qed.

Lemma advance_extends (env : Env) (p : prog unit) (w : World) (tr : list Event) :
  exists more, snd (fst (advance env p w tr)) = (tr ++ more)%list.
Proof.
  revert w tr.
  induction p as [a|e|u k IH|k IH|k IH|l k IH|c d k IH|p k IH|k IH|w0 k IH]; intros w tr; simpl.
  - exists []. rewrite app_nil_r. reflexivity.
  - exists []. rewrite app_nil_r. reflexivity.
  - eexists. reflexivity.
  - destruct (IH (env_random env tr) w (tr ++ [RandomDrawn])%list) as (more & ->).
    exists (RandomDrawn :: more). rewrite <- app_assoc. reflexivity.
  - destruct (IH (env_now env tr) w (tr ++ [ClockRead])%list) as (more & ->).
    exists (ClockRead :: more). rewrite <- app_assoc. reflexivity.
  - destruct (IH (env_shuffle env tr l) w (tr ++ [Shuffled])%list) as (more & ->).
    exists (Shuffled :: more). rewrite <- app_assoc. reflexivity.
  - destruct (IH (env_callback env tr c d) w (tr ++ [Notified c d])%list) as (more & ->).
    exists (Notified c d :: more). rewrite <- app_assoc. reflexivity.
  - eexists. reflexivity.
  - apply IH.
  - apply IH.
Qed.

Lemma enter_extends (env : Env) (p : prog unit) (l : Loop) (others : list Suspended) :
  exists more, observed (enter env p l others) = (observed l ++ more)%list.
Proof.
  unfold enter. destruct (advance_extends env p (world l) (observed l)) as (more & H).
  destruct (advance env p (world l) (observed l)) as [[w tr] s]. simpl in *.
  exists more. exact H.
Qed.

Lemma steps_extend (env : Env) (l1 l2 : Loop) :
  steps env l1 l2 -> exists more, observed l2 = (observed l1 ++ more)%list.
Proof.
  induction 1 as [l|l1 l2 l3 Hstep _ (more2 & IH)].
  - exists []. rewrite app_nil_r. reflexivity.
  - assert (exists more1, observed l2 = (observed l1 ++ more1)%list) as (more1 & H1).
    { destruct Hstep; apply enter_extends. }
    exists (more1 ++ more2)%list. rewrite IH, H1, app_assoc. reflexivity.
Qed.

(** The request with which a refresh opens its round. *)
Lemma refresh_opens_round (env : Env) (l : Loop) :
  exists u k,
    callAsync env refresh l =
      {| world := world l;
         observed := (observed l ++ [Fetched u])%list;
         suspended := (suspended l ++ [AwaitFetch k])%list |} /\
    opensRound u = true.
Proof.
  unfold callAsync, enter, DataSyncService.refresh, DataSyncService.loadDashboardData.
  cbn [advance bind try_catch get].
  destruct (isConnected (world l)).
  - eexists. eexists. split; reflexivity.
  - eexists. eexists. split; reflexivity.
Qed.

(** C9, as the code has it.  A call of [refresh] opens a round of source
    fetches at once, whatever is in flight: two calls in a row are
    observed as two rounds, and so are two calls between which the
    earlier cycles have made any progress. *)
Theorem refresh_not_serialized (env : Env) (l l2 : Loop) :
  steps env (callAsync env refresh l) l2 ->
  rounds (observed (callAsync env refresh (callAsync env refresh l)))
    = (rounds (observed l) + 2)%nat /\
  (rounds (observed l) + 2 <= rounds (observed (callAsync env refresh l2)))%nat.
Proof.
  intros Hsteps. split.
  - destruct (refresh_opens_round env (callAsync env refresh l)) as (u2 & k2 & -> & Hu2).
    destruct (refresh_opens_round env l) as (u1 & k1 & -> & Hu1).
    cbn [observed]. rewrite !rounds_snoc by assumption. lia.
  - destruct (refresh_opens_round env l2) as (u2 & k2 & -> & Hu2).
    destruct (steps_extend _ _ _ Hsteps) as (more & ->).
    destruct (refresh_opens_round env l) as (u1 & k1 & -> & Hu1).
    cbn [observed]. rewrite rounds_snoc, rounds_app, rounds_snoc by assumption. lia.
Qed.

End RefreshFacts.

Section RefreshExamples.
Import Dashboard Effects DataSyncService EventLoop.

Lemma refresh_not_serialized_witness :
  let refresh := DataSyncService.refresh Samples.sampleAdapter Samples.sampleView in
  let l := idle (freshWorld false) in
  rounds (observed (callAsync Samples.remoteDown refresh (callAsync Samples.remoteDown refresh l)))
    = 2%nat /\
  (2 <= rounds (observed (callAsync Samples.remoteDown refresh
                            (callAsync Samples.remoteDown refresh l))))%nat.
Proof.
  exact (refresh_not_serialized Samples.sampleAdapter Samples.sampleView Samples.remoteDown
           (idle (freshWorld false)) _ (steps_refl _ _)).
Defined.

(** Two calls of [refresh], the second issued while the first awaits its
    response, are observed as two requests for the mock summary, both
    still outstanding. *)
Lemma refresh_twice_two_rounds :
  let refresh := DataSyncService.refresh Samples.sampleAdapter Samples.sampleView in
  let l := callAsync Samples.remoteDown refresh
             (callAsync Samples.remoteDown refresh (idle (freshWorld false))) in
  requests (observed l) = [RestApi.summaryFixture; RestApi.summaryFixture] /\
  length (suspended l) = 2%nat /\
  ~ (rounds (observed l) <= 1)%nat.
Proof.
  split; [reflexivity|]. split; [reflexivity|]. vm_compute. lia.
Qed.

End RefreshExamples.

(** * Further properties of the services *)

(** ** Rounding *)

Section RoundingFacts.

Lemma inject_Z_pos (m : Z) : 0 < m -> ~ (inject_Z m == 0)%Q.
Proof. unfold Qeq. simpl. lia. Qed.

(** [Math.round] of a ratio of integers, as an integer division. *)
Lemma Math_round_div (n m : Z) :
  0 < m -> Js.Math_round (inject_Z n / inject_Z m) = (2 * n + m) / (2 * m).
Proof.
  intros Hm. unfold Js.Math_round. rewrite Zdiv_Qdiv. apply Qfloor_comp.
  rewrite inject_Z_plus, !inject_Z_mult. field. apply inject_Z_pos, Hm.
Qed.

Lemma Math_round_between (n m lo hi : Z) :
  0 < m -> lo * m <= n <= hi * m ->
  lo <= Js.Math_round (inject_Z n / inject_Z m) <= hi.
Proof.
  intros Hm [Hlo Hhi]. rewrite Math_round_div by exact Hm. split.
  - apply Z.div_le_lower_bound; nia.
  - assert (2 * n + m < 2 * m * Z.succ hi) by nia.
    apply Z.lt_succ_r, Z.div_lt_upper_bound; lia.
Qed.

(** [Math.floor(Math.random() * n)] for a draw in the unit interval. *)
Lemma floor_of_draw (r : Q) (n : Z) :
  (0 <= r)%Q -> (r < 1)%Q -> 0 < n -> 0 <= Js.Math_floor (r * inject_Z n) < n.
Proof.
  intros H0 H1 Hn. unfold Js.Math_floor. split.
  - rewrite <- (Qfloor_Z 0). apply Qfloor_resp_le.
    apply Qmult_le_0_compat; [exact H0|]. unfold Qle. simpl. lia.
  - assert (Hlt : (r * inject_Z n < inject_Z n)%Q).
    { rewrite <- (Qmult_1_l (inject_Z n)) at 2.
      apply Qmult_lt_compat_r; [unfold Qlt; simpl; lia | exact H1]. }
    pose proof (Qfloor_le (r * inject_Z n)) as Hf.
    pose proof (Qle_lt_trans _ _ _ Hf Hlt) as H.
    rewrite <- Zlt_Qlt in H. exact H.
Qed.

Lemma sum_fold (l : list Z) (a : Z) : fold_left Z.add l a = a + fold_left Z.add l 0.
Proof.
  revert a. induction l as [|x l IH]; intros a; simpl; [lia|].
  rewrite (IH (a + x)), (IH (0 + x)). lia.
Qed.

Lemma sum_between (l : list Z) (lo hi : Z) :
  Forall (fun x => lo <= x <= hi) l ->
  lo * Z.of_nat (length l) <= fold_left Z.add l 0 <= hi * Z.of_nat (length l).
Proof.
  induction 1 as [|x l Hx Hl IH]; [simpl; lia|].
  simpl fold_left. rewrite sum_fold. rewrite length_cons, Nat2Z.inj_succ. lia.
Qed.

End RoundingFacts.

(** ** More on the age and on the REST search *)

Section AgeAndSearch.
Import Age Dashboard Effects RestApi.

(** X1.  [calculateAge] counts the anniversaries of the local calendar
    day on which the parsed birth date falls: [n] is at most the age
    exactly when the [n]-th anniversary of that day is not after today,
    and the age is negative, not clamped at zero, exactly when that day
    is after today.  A date text is parsed as midnight UTC and read with
    the local getters: at or east of UTC that day is the written one,
    and the age is the exact calendar age; west of UTC it is the day
    before, so that on the eve of a birthday that is not the first of a
    month the age already counts the year. *)
Theorem calculateAge_exact (offset : Z) (today written : JsDate) :
  -1440 < offset < 1440 ->
  Notions.validDate written ->
  let birth := Notions.localFields offset written in
  let age := Age.calculateAge today (Some birth) in
  (forall n, n <= age <-> dateLe (anniversary birth n) today) /\
  (age < 0 <-> ~ dateLe birth today) /\
  (0 <= offset -> birth = written) /\
  (offset < 0 -> 1 < getDate written ->
   forall n,
     today = mkDate (getFullYear written + n) (getMonth written) (getDate written - 1) ->
     age = n /\ ~ dateLe (anniversary written n) today).
Proof.
  intros _ _. cbv zeta. split; [|split; [|split]].
  - intros n. apply calculateAge_anniversaries.
  - unfold dateLe, monthDayBefore, Age.calculateAge.
    destruct (Z.ltb_spec (getMonth today - getMonth (Notions.localFields offset written)) 0),
             (Z.eqb_spec (getMonth today - getMonth (Notions.localFields offset written)) 0),
             (Z.ltb_spec (getDate today) (getDate (Notions.localFields offset written)));
      simpl; lia.
  - intros H. unfold Notions.localFields.
    destruct (Z.ltb_spec offset 0); [lia | reflexivity].
  - intros Hwest Hday n ->. unfold Notions.localFields, Notions.dayBefore.
    destruct (Z.ltb_spec offset 0); [|lia].
    destruct (Z.ltb_spec 1 (getDate written)); [|lia].
    unfold Age.calculateAge, dateLe, monthDayBefore, anniversary. cbn [getFullYear getMonth getDate].
    rewrite Z.sub_diag, Z.ltb_irrefl. cbn [Z.ltb Z.eqb Z.compare orb andb].
    rewrite Z.ltb_irrefl.
    split; [lia|]. intros [H1|[_ H1]]; [lia|]. apply H1. right. split; [reflexivity | lia].
Qed.

Lemma calculateAge_exact_witness :
  Age.calculateAge (mkDate 2024 5 14) (Some (Notions.localFields (-300) Samples.birth)) = 24 /\
  ~ dateLe (anniversary Samples.birth 24) (mkDate 2024 5 14).
Proof.
  destruct (calculateAge_exact (-300) (mkDate 2024 5 14) Samples.birth) as (_ & _ & _ & H).
  - lia.
  - unfold Notions.validDate. cbn. lia.
  - apply H; [lia | cbn; lia | reflexivity].
Defined.

Lemma getParam_absent (params : Params) (key : string) :
  ~ In key (map fst params) -> getParam params key = PUndefined.
Proof.
  induction params as [|[k v] r IH]; simpl; [reflexivity|]. intros Hno.
  destruct (String.eqb_spec k key) as [->|_]; [tauto | apply IH; tauto].
Qed.

Lemma truthy_param_in_query (params : Params) (key : string) :
  truthyParam (getParam params key) = true ->
  In key (map fst (flat_map (fun kv : string * ParamValue =>
            match paramText (snd kv) with
            | Some text => [(fst kv, text)]
            | None => []
            end) params)).
Proof.
  induction params as [|[k v] r IH]; simpl; [discriminate|]. intros H.
  destruct (String.eqb_spec k key) as [->|Hne].
  - destruct v; simpl in *; try discriminate H; auto.
  - rewrite map_app. apply in_or_app. right. apply IH, H.
Qed.

(** X2.  Every request carries a [_count] parameter.  When the caller
    passes no [_sort], the first request ends with the default sort and
    the retry is the same request without it. *)
Theorem buildUrl_defaults (resourceType : string) (params : Params) :
  (forall omitSort,
     In "_count" (map fst (queryOf (buildUrl resourceType params omitSort)))) /\
  (~ In "_sort" (map fst params) ->
   queryOf (buildUrl resourceType params false) =
     (queryOf (buildUrl resourceType params true) ++ [("_sort", "-_lastUpdated")])%list /\
   ~ In "_sort" (map fst (queryOf (buildUrl resourceType params true)))).
Proof.
  split.
  - intros omitSort. unfold buildUrl. simpl.
    assert (H : In "_count" (map fst
               (if truthyParam (getParam params "_count")
                then flat_map (fun kv : string * ParamValue =>
                       match paramText (snd kv) with
                       | Some text => [(fst kv, text)]
                       | None => []
                       end) params
                else (flat_map (fun kv : string * ParamValue =>
                       match paramText (snd kv) with
                       | Some text => [(fst kv, text)]
                       | None => []
                       end) params ++ [("_count", "10")])%list))).
    { destruct (truthyParam (getParam params "_count")) eqn:E.
      - apply truthy_param_in_query, E.
      - rewrite map_app. apply in_or_app. right. left. reflexivity. }
    destruct (negb omitSort && negb (truthyParam (getParam params "_sort"))); [|exact H].
    rewrite map_app. apply in_or_app. left. exact H.
  - intros Hno. split; [|apply retry_without_default_sort, Hno].
    unfold buildUrl. rewrite (getParam_absent _ _ Hno). reflexivity.
Qed.

Lemma buildUrl_defaults_witness :
  queryOf (buildUrl "Encounter" [("patient", PStr "p1"); ("_count", PNum 10)] false) =
    [("patient", "p1"); ("_count", "10"); ("_sort", "-_lastUpdated")] /\
  ~ In "_sort" (map fst (queryOf (buildUrl "Encounter"
                           [("patient", PStr "p1"); ("_count", PNum 10)] true))).
Proof.
  apply (proj2 (buildUrl_defaults "Encounter" [("patient", PStr "p1"); ("_count", PNum 10)])).
  simpl. intros [H|[H|[]]]; discriminate H.
Defined.

(** A falsy [_count] of the caller is sent along with the default. *)
Example buildUrl_count_zero :
  queryOf (buildUrl "Patient" [("_count", PNum 0)] true) = [("_count", "0"); ("_count", "10")].
Proof. reflexivity. Qed.

(** X3.  A search never throws and leaves the services as they are.  It
    sends one request, and a second one exactly when the first response
    has status 400 or 422; it resolves to the empty list whenever the
    last response is a rejection or is not 2xx. *)
Theorem searchResources_contract (env : Env) (resourceType : string) (params : Params)
    (w : World) (tr : list Event) :
  let u0 := buildUrl resourceType params false in
  let u1 := buildUrl resourceType params true in
  let first := env_fetch env tr u0 in
  let second := env_fetch env (tr ++ [Fetched u0]) u1 in
  let retried := rejectsParameters first in
  let last := if retried then second else first in
  exists entries,
    run env (searchResources resourceType params) w tr =
      (Ok entries, w,
       (tr ++ Fetched u0 :: (if retried then [Fetched u1] else []))%list) /\
    (failed last = true -> entries = []) /\
    (entries <> [] ->
     exists status, last = Responded status (Some (Bundle (Some entries))) /\
                    200 <= status <= 299).
Proof.
  cbv zeta. rewrite searchResources_run. cbv zeta.
  destruct (rejectsParameters (env_fetch env tr (buildUrl resourceType params false))).
  - eexists. split; [reflexivity|]. split; [apply failed_searchOutcome|].
    destruct (env_fetch env (tr ++ [Fetched _]) _) as [|status [[[e|]|]|]]; simpl;
      try congruence.
    unfold ok. destruct ((200 <=? status) && (status <=? 299)) eqn:E; [|congruence].
    intros _. exists status. split; [reflexivity | lia].
  - eexists. split; [reflexivity|]. split; [apply failed_searchOutcome|].
    destruct (env_fetch env tr _) as [|status [[[e|]|]|]]; simpl; try congruence.
    unfold ok. destruct ((200 <=? status) && (status <=? 299)) eqn:E; [|congruence].
    intros _. exists status. split; [reflexivity | lia].
Qed.

End AgeAndSearch.

(** ** The dashboard assembled by the REST client *)

Section RestDashboardFacts.
Import Fhir Dashboard Effects RestApi Notions.
#[local] Arguments Js.Math_floor : simpl never.
#[local] Arguments Js.Math_round : simpl never.

Lemma internal_app (a b : list Event) :
  forallb internal (a ++ b) = forallb internal a && forallb internal b.
Proof. apply forallb_app. Qed.

Lemma wait_in_range (env : Env) (tr : list Event) :
  fairEnv env -> 10 <= Math_floor (env_random env tr * 60) + 10 <= 69.
Proof.
  intros [Hr _]. destruct (Hr tr) as [H0 H1].
  pose proof (floor_of_draw _ 60 H0 H1 eq_refl) as H.
  change (inject_Z 60) with 60%Q in H. lia.
Qed.

Lemma adaptPatient_run (env : Env) (observations : list Entry) (p : Entry)
    (w : World) (tr : list Event) :
  exists row more,
    run env (adaptPatient observations p) w tr = (Ok row, w, (tr ++ more)%list) /\
    forallb internal more = true /\ adaptedFrom env observations p row.
Proof.
  unfold adaptPatient, RestApi.calculateAge, calculateWaitTime.
  destruct (birthDate (resource p)) as [birth|]; simpl.
  - eexists. exists [ClockRead; RandomDrawn]. rewrite <- app_assoc.
    split; [reflexivity|]. split; [reflexivity|].
    unfold adaptedFrom. do 6 (split; [reflexivity|]).
    intros Hf. cbn [waitTime]. apply wait_in_range, Hf.
  - eexists. exists [RandomDrawn].
    split; [reflexivity|]. split; [reflexivity|].
    unfold adaptedFrom. do 6 (split; [reflexivity|]).
    intros Hf. cbn [waitTime]. apply wait_in_range, Hf.
Qed.

Lemma mapM_run {A B} (env : Env) (f : A -> prog B) (R : A -> B -> Prop)
    (l : list A) (w : World) :
  (forall x tr, exists y more,
      run env (f x) w tr = (Ok y, w, (tr ++ more)%list) /\
      forallb internal more = true /\ R x y) ->
  forall tr, exists ys more,
    run env (mapM f l) w tr = (Ok ys, w, (tr ++ more)%list) /\
    forallb internal more = true /\ Forall2 R l ys.
Proof.
  intros Hf. induction l as [|x l IH]; intros tr.
  - exists [], []. cbn [mapM run]. rewrite app_nil_r. repeat split. constructor.
  - change (mapM f (x :: l))
      with (bind (f x) (fun y => bind (mapM f l) (fun ys => Ret (y :: ys)))).
    rewrite run_bind.
    destruct (Hf x tr) as (y & m1 & -> & H1 & Hy).
    rewrite run_bind.
    destruct (IH (tr ++ m1)%list) as (ys & m2 & -> & H2 & Hys).
    exists (y :: ys), (m1 ++ m2)%list. rewrite app_assoc.
    split; [reflexivity|]. split; [rewrite internal_app, H1, H2; reflexivity|].
    constructor; assumption.
Qed.

Lemma adaptPatients_run (env : Env) (observations patients : list Entry)
    (w : World) (tr : list Event) :
  exists rows more,
    run env (mapM (adaptPatient observations) patients) w tr = (Ok rows, w, (tr ++ more)%list) /\
    forallb internal more = true /\
    Forall2 (adaptedFrom env observations) patients rows.
Proof.
  apply mapM_run. intros p tr'. apply adaptPatient_run.
Qed.

Lemma finished_run (env : Env) (encounters : list Entry) (w : World) (tr : list Event) :
  exists admitted more,
    run env (buildAdmittedPatients encounters) w tr = (Ok admitted, w, (tr ++ more)%list) /\
    forallb internal more = true /\
    Forall2 (fun enc a => adm_id a = Fhir.id (resource enc) /\
                          (fairEnv env -> 60 <= bedWaitTime a <= 179))
            (List.filter (hasStatus "finished") encounters) admitted.
Proof.
  unfold buildAdmittedPatients. apply mapM_run. intros enc tr'.
  eexists. exists [RandomDrawn]. split; [reflexivity|]. split; [reflexivity|].
  split; [reflexivity|]. intros [Hr _]. cbn [bedWaitTime].
  destruct (Hr tr') as [H0 H1].
  pose proof (floor_of_draw _ 120 H0 H1 eq_refl) as H.
  change (inject_Z 120) with 120%Q in H. lia.
Qed.

Lemma admitted_ids (env : Env) (l : list Entry) (admitted : list AdmittedPatient) :
  Forall2 (fun enc a => adm_id a = Fhir.id (resource enc) /\
                        (fairEnv env -> 60 <= bedWaitTime a <= 179)) l admitted ->
  map adm_id admitted = map (fun e => Fhir.id (resource e)) l /\
  (fairEnv env -> Forall (fun a => 60 <= bedWaitTime a <= 179) admitted).
Proof.
  induction 1 as [|enc a l adm [Hid Hb] _ [I1 I2]]; [split; [reflexivity | constructor]|].
  split; [simpl; rewrite Hid, I1; reflexivity|].
  intros Hf. constructor; [exact (Hb Hf) | exact (I2 Hf)].
Qed.

Lemma in_treatment_never_waiting (env : Env) (observations patients : list Entry)
    (rows : list PatientSummary) :
  Forall2 (adaptedFrom env observations) patients rows ->
  List.filter (fun p => String.eqb (status p) "waiting") rows = [] /\
  List.filter isCritical rows = [] /\
  length rows = length patients /\
  map id rows = map (fun p => Fhir.id (resource p)) patients.
Proof.
  induction 1 as [|p row ps rows (Hid & _ & _ & Hs & Hp & _) _ (I1 & I2 & I3 & I4)];
    [repeat split|].
  simpl. unfold isCritical in *. rewrite Hs, Hp, I1, I2, I3, I4, Hid. repeat split.
Qed.

(** X5.  The dashboard of the REST client has one row per patient entry,
    in order and with the entry's id and its extracted vital signs; every
    row is in treatment with normal priority, so the dashboard never
    counts a waiting patient and never raises a critical alert.  Its
    assembly never throws and leaves the services as they are. *)
Theorem buildDashboardData_shape (env : Env) (patients encounters observations : list Entry)
    (w : World) (tr : list Event) :
  exists d rows k more,
    run env (buildDashboardData patients encounters observations) w tr
      = (Ok d, w, (tr ++ more)%list) /\
    forallb internal more = true /\
    Dashboard.patients d = Some rows /\
    Forall2 (adaptedFrom env observations) patients rows /\
    map id rows = map (fun p => Fhir.id (resource p)) patients /\
    kpis d = Some k /\
    totalPatients k = Z.of_nat (length patients) /\
    waitingPatients k = 0 /\
    criticalAlerts k = 0 /\
    alerts d = Some [].
Proof.
  unfold buildDashboardData. rewrite run_bind.
  destruct (adaptPatients_run env observations patients w tr) as (rows & m1 & -> & H1 & Hrows).
  rewrite run_bind.
  destruct (finished_run env encounters w (tr ++ m1)%list) as (adm & m2 & -> & H2 & _).
  destruct (in_treatment_never_waiting _ _ _ _ Hrows) as (F1 & F2 & F3 & F4).
  simpl. eexists. exists rows. eexists. exists (m1 ++ m2)%list. rewrite app_assoc.
  split; [reflexivity|]. split; [rewrite internal_app, H1, H2; reflexivity|].
  split; [reflexivity|]. split; [exact Hrows|]. split; [exact F4|].
  split; [reflexivity|]. simpl. unfold countCriticalAlerts, buildAlertsData.
  rewrite F1, F2, F3. repeat split.
Qed.

Lemma average_in_range (rows : list PatientSummary) :
  Forall (fun p => 10 <= waitTime p <= 69) rows ->
  rows <> [] -> 10 <= calculateAverageWaitTime rows <= 69.
Proof.
  intros Hall Hne. unfold calculateAverageWaitTime.
  destruct rows as [|p ps]; [congruence|].
  assert (Hsum : fold_left (fun sum p => sum + waitTime p) (p :: ps) 0 =
                 fold_left Z.add (map waitTime (p :: ps)) 0).
  { generalize 0. generalize (p :: ps). clear.
    induction l as [|x l IH]; intros a; simpl; [reflexivity | apply IH]. }
  rewrite Hsum. apply Math_round_between; [simpl; lia|].
  rewrite <- (length_map waitTime). apply sum_between.
  apply Forall_map. exact Hall.
Qed.

(** X6.  With draws of [Math.random()] in the unit interval, every wait
    time of the REST dashboard lies between 10 and 69 minutes, and so
    does the average that the KPI shows unless there is no patient, when
    it is 0; the admitted patients are the finished encounters, in
    order, each with a bed wait between 60 and 179 minutes. *)
Theorem buildDashboardData_times (env : Env) (patients encounters observations : list Entry)
    (w : World) (tr : list Event) :
  fairEnv env ->
  exists d rows k admitted more,
    run env (buildDashboardData patients encounters observations) w tr
      = (Ok d, w, (tr ++ more)%list) /\
    Dashboard.patients d = Some rows /\ kpis d = Some k /\
    admittedPatients d = Some admitted /\
    Forall (fun p => 10 <= waitTime p <= 69) rows /\
    (patients = [] -> averageWaitTime k = 0) /\
    (patients <> [] -> 10 <= averageWaitTime k <= 69) /\
    map adm_id admitted =
      map (fun e => Fhir.id (resource e)) (List.filter (hasStatus "finished") encounters) /\
    Forall (fun a => 60 <= bedWaitTime a <= 179) admitted.
Proof.
  intros Hfair. unfold buildDashboardData. rewrite run_bind.
  destruct (adaptPatients_run env observations patients w tr) as (rows & m1 & -> & H1 & Hrows).
  rewrite run_bind.
  destruct (finished_run env encounters w (tr ++ m1)%list) as (adm & m2 & -> & H2 & Hadm).
  destruct (admitted_ids _ _ _ Hadm) as [Hids Hbeds].
  assert (Hwait : Forall (fun p => 10 <= waitTime p <= 69) rows).
  { clear - Hrows Hfair. induction Hrows as [|p row ps rows Hrow _ IH]; constructor; [|exact IH].
    apply Hrow, Hfair. }
  simpl. eexists. exists rows. eexists. exists adm, (m1 ++ m2)%list. rewrite app_assoc.
  split; [reflexivity|]. split; [reflexivity|]. split; [reflexivity|].
  split; [reflexivity|]. split; [exact Hwait|]. simpl.
  split; [|split; [|split; [exact Hids | exact (Hbeds Hfair)]]].
  - intros ->. inversion Hrows. reflexivity.
  - intros Hne. apply average_in_range; [exact Hwait|].
    intros ->. inversion Hrows; subst. congruence.
Qed.

Lemma buildDashboardData_times_witness :
  exists d rows k admitted more,
    run Samples.remoteDown (buildDashboardData [Samples.patientEntry] [] []) 
        (DataSyncService.freshWorld true) []
      = (Ok d, DataSyncService.freshWorld true, more) /\
    Dashboard.patients d = Some rows /\ kpis d = Some k /\
    admittedPatients d = Some admitted /\
    Forall (fun p => 10 <= waitTime p <= 69) rows /\
    ([Samples.patientEntry] = [] -> averageWaitTime k = 0) /\
    ([Samples.patientEntry] <> [] -> 10 <= averageWaitTime k <= 69) /\
    map adm_id admitted = [] /\
    Forall (fun a => 60 <= bedWaitTime a <= 179) admitted.
Proof.
  apply (buildDashboardData_times Samples.remoteDown [Samples.patientEntry] [] []
           (DataSyncService.freshWorld true) []).
  split.
  - intros tr. split; [unfold Qle | unfold Qlt]; simpl; lia.
  - reflexivity.
Defined.

(** X7.  The bed occupancy is five times the number of encounters in
    progress: it is computed against twenty beds and not capped, so it
    exceeds 100 as soon as more than twenty encounters are in progress. *)
Theorem calculateBedOccupancy_uncapped (encounters : list Entry) :
  let active := Z.of_nat (length (List.filter (hasStatus "in-progress") encounters)) in
  calculateBedOccupancy encounters = 5 * active /\
  (100 < calculateBedOccupancy encounters <-> 20 < active).
Proof.
  cbv zeta. unfold calculateBedOccupancy.
  set (active := Z.of_nat _).
  assert (H : Math_round (inject_Z active / 20 * 100) = 5 * active).
  { unfold Math_round.
    assert (E : (inject_Z active / 20 * 100 + (1 # 2) ==
                 inject_Z (10 * active + 1) / inject_Z 2)%Q).
    { rewrite inject_Z_plus, inject_Z_mult. field. }
    rewrite (Qfloor_comp _ _ E), <- Zdiv_Qdiv.
    symmetry. apply Z.div_unique with (r := 1); lia. }
  rewrite H. lia.
Qed.

End RestDashboardFacts.

(** ** Patient names *)

Section NameFacts.
Import Js Fhir RestApi.

Lemma trimEnd_cons (c : ascii) (r : string) :
  trimEnd (String c r) =
  match trimEnd r with
  | EmptyString => if isSpace c then EmptyString else String c EmptyString
  | r' => String c r'
  end.
Proof. reflexivity. Qed.

Lemma trimEnd_idem (s : string) : trimEnd (trimEnd s) = trimEnd s.
Proof.
  induction s as [|c r IH]; [reflexivity|].
  rewrite trimEnd_cons. destruct (trimEnd r) as [|c' r'] eqn:E.
  - destruct (isSpace c) eqn:Ec; [reflexivity|].
    rewrite trimEnd_cons. cbn [trimEnd]. rewrite Ec. reflexivity.
  - rewrite trimEnd_cons, IH. reflexivity.
Qed.

Lemma trimEnd_head (c : ascii) (r : string) :
  isSpace c = false -> trimEnd (String c r) = String c (trimEnd r).
Proof.
  intros Hc. rewrite trimEnd_cons, Hc. destruct (trimEnd r); reflexivity.
Qed.

Lemma trimStart_head (s : string) :
  match trimStart s with
  | String c _ => isSpace c = false
  | EmptyString => True
  end.
Proof.
  induction s as [|c r IH]; [exact I|].
  cbn [trimStart]. destruct (isSpace c) eqn:Ec; [exact IH | exact Ec].
Qed.

Lemma trim_idem (s : string) : trim (trim s) = trim s.
Proof.
  unfold trim. pose proof (trimStart_head s) as H.
  destruct (trimStart s) as [|c r]; [reflexivity|].
  rewrite (trimEnd_head c r H). cbn [trimStart]. rewrite H.
  rewrite <- (trimEnd_head c r H). apply trimEnd_idem.
Qed.

(** X8.  The display name of a patient carries no space at either end.
    It is "Unknown Patient" when the resource has no name entry; with a
    first entry that has no given name it is the trimmed family name,
    and so the empty text, not "Unknown Patient", when that entry has
    no family name either. *)
Theorem getPatientName_cases (patient : Resource) :
  trim (getPatientName patient) = getPatientName patient /\
  ((Fhir.name patient = None \/ Fhir.name patient = Some []) ->
   getPatientName patient = "Unknown Patient") /\
  (forall n others,
     Fhir.name patient = Some (n :: others) ->
     given n = None \/ given n = Some [] ->
     getPatientName patient = trim (default "" (family n)) /\
     (family n = None -> getPatientName patient = "")).
Proof.
  unfold getPatientName. split; [|split].
  - destruct (Fhir.name patient) as [[|n others]|]; try reflexivity. apply trim_idem.
  - intros [-> | ->]; reflexivity.
  - intros n others -> Hg.
    assert (E : match given n with Some g => String.concat " " g | None => "" end = "")
      by (destruct Hg as [-> | ->]; reflexivity).
    rewrite E. destruct (family n) as [[|c f]|]; split; try reflexivity; discriminate.
Qed.

Lemma getPatientName_cases_witness :
  getPatientName (resource Samples.patientEntry) =
  trim (getPatientName (resource Samples.patientEntry)).
Proof.
  symmetry. apply (getPatientName_cases (resource Samples.patientEntry)).
Defined.

End NameFacts.

(** ** Subscriptions and timers *)

Section SubscriptionFacts.
Import Dashboard Effects DataSyncService Notions.

Lemma setAdd_cases (f : nat) (s : list nat) :
  (In f s -> setAdd f s = s) /\ (~ In f s -> setAdd f s = (s ++ [f])%list).
Proof.
  unfold setAdd. destruct (existsb (Nat.eqb f) s) eqn:E.
  - apply existsb_exists in E as (g & Hg & Heq). apply Nat.eqb_eq in Heq. subst g.
    split; [reflexivity | contradiction].
  - split; [|reflexivity]. intros Hin. exfalso.
    assert (existsb (Nat.eqb f) s = true)
      by (apply existsb_exists; exists f; split; [exact Hin | apply Nat.eqb_refl]).
    congruence.
Qed.

Lemma setAdd_In (f : nat) (s : list nat) : In f (setAdd f s).
Proof.
  destruct (in_dec Nat.eq_dec f s) as [Hin | Hout].
  - rewrite (proj1 (setAdd_cases f s) Hin). exact Hin.
  - rewrite (proj2 (setAdd_cases f s) Hout). apply in_or_app. right. left. reflexivity.
Qed.

Lemma setAdd_NoDup (f : nat) (s : list nat) : List.NoDup s -> List.NoDup (setAdd f s).
Proof.
  intros Hs. destruct (in_dec Nat.eq_dec f s) as [Hin | Hout].
  - rewrite (proj1 (setAdd_cases f s) Hin). exact Hs.
  - rewrite (proj2 (setAdd_cases f s) Hout).
    apply List.NoDup_rev in Hs. rewrite <- (rev_involutive (s ++ [f])).
    apply List.NoDup_rev. rewrite rev_app_distr. simpl. constructor; [|exact Hs].
    rewrite <- in_rev. exact Hout.
Qed.

Lemma setDelete_absent (f : nat) (s : list nat) : ~ In f s -> setDelete f s = s.
Proof.
  unfold setDelete. induction s as [|g s IH]; [reflexivity|].
  intros Hout. simpl. destruct (Nat.eqb g f) eqn:E.
  - apply Nat.eqb_eq in E. subst g. exfalso. apply Hout. left. reflexivity.
  - simpl. f_equal. apply IH. intros Hin. apply Hout. right. exact Hin.
Qed.

Lemma setDelete_In (f g : nat) (s : list nat) : In g (setDelete f s) <-> In g s /\ g <> f.
Proof.
  unfold setDelete. rewrite filter_In. split; intros [Hin Hne]; split; try exact Hin.
  - intros ->. rewrite Nat.eqb_refl in Hne. discriminate.
  - apply Bool.negb_true_iff, Nat.eqb_neq. exact Hne.
Qed.

Lemma setDelete_setAdd (f : nat) (s : list nat) : setDelete f (setAdd f s) = setDelete f s.
Proof.
  destruct (in_dec Nat.eq_dec f s) as [Hin | Hout].
  - rewrite (proj1 (setAdd_cases f s) Hin). reflexivity.
  - rewrite (proj2 (setAdd_cases f s) Hout). unfold setDelete.
    rewrite List.filter_app. simpl. rewrite Nat.eqb_refl. simpl. apply app_nil_r.
Qed.

Lemma deliveries_split (callback : nat) (a b : list Event) :
  deliveries callback (a ++ b) = (deliveries callback a ++ deliveries callback b)%list.
Proof. apply deliveries_app. Qed.

(** X9.  A function that subscribes, once or again, is in the set once:
    earlier subscribers keep their places, a new one comes last, and
    every notification reaches it exactly once. *)
Theorem subscribe_once (env : Env) (f : nat) (w : World) (tr : list Event) :
  List.NoDup (subscribers w) ->
  exists w',
    run env (bind (subscribe (Function f)) (fun _ => subscribe (Function f))) w tr
      = (Ok (DeleteCallback f), w', tr) /\
    run env (subscribe (Function f)) w tr = (Ok (DeleteCallback f), w', tr) /\
    (In f (subscribers w) -> subscribers w' = subscribers w) /\
    (~ In f (subscribers w) -> subscribers w' = (subscribers w ++ [f])%list) /\
    List.NoDup (subscribers w') /\
    forall data tr',
      deliveries f (snd (run env (notifySubscribers data) w' tr')) =
      (deliveries f tr' ++ [data])%list.
Proof.
  intros Hs. exists (setSubscribers w (setAdd f (subscribers w))).
  split; [|split; [reflexivity|]].
  - cbn [run bind subscribe get put]. cbn [subscribers setSubscribers].
    rewrite (proj1 (setAdd_cases f (setAdd f (subscribers w))) (setAdd_In f _)).
    reflexivity.
  - cbn [subscribers setSubscribers].
    split; [apply setAdd_cases|]. split; [apply setAdd_cases|].
    split; [apply setAdd_NoDup, Hs|].
    intros data tr'. rewrite notifySubscribers_run. cbn [snd subscribers setSubscribers].
    rewrite deliveries_split. f_equal.
    apply deliveries_notified; [apply setAdd_In | apply setAdd_NoDup, Hs].
Qed.

Lemma subscribe_once_witness :
  exists w',
    run Samples.offline
        (bind (subscribe (Function 1)) (fun _ => subscribe (Function 1)))
        (setSubscribers (freshWorld false) [0; 1]%nat) []
      = (Ok (DeleteCallback 1), w', []) /\
    subscribers w' = [0; 1]%nat.
Proof.
  destruct (subscribe_once Samples.offline 1
              (setSubscribers (freshWorld false) [0; 1]%nat) [])
    as (w' & H1 & _ & H2 & _).
  - repeat constructor; simpl; intuition lia.
  - exists w'. split; [exact H1|]. apply H2. simpl. auto.
Defined.

(** X10.  The function that [subscribe] returned removes the callback
    from the set, however often it had been subscribed, and leaves the
    others in their order; the callback is then not notified any more,
    and a second call changes nothing. *)
Theorem unsubscribe_removes (env : Env) (f : nat) (w : World) (tr : list Event) :
  let w' := setSubscribers w (setDelete f (subscribers w)) in
  run env (bind (subscribe (Function f)) unsubscribe) w tr = (Ok tt, w', tr) /\
  run env (unsubscribe (DeleteCallback f)) w' tr = (Ok tt, w', tr) /\
  (forall g, In g (subscribers w') <-> In g (subscribers w) /\ g <> f) /\
  (~ In f (subscribers w) -> subscribers w' = subscribers w) /\
  forall data tr',
    deliveries f (snd (run env (notifySubscribers data) w' tr')) = deliveries f tr'.
Proof.
  cbv zeta. split; [|split; [|split; [|split]]].
  - rewrite run_bind. cbn [run subscribe bind get put unsubscribe try_catch].
    cbn [subscribers setSubscribers]. rewrite setDelete_setAdd. reflexivity.
  - cbn [run unsubscribe bind get put try_catch]. cbn [subscribers setSubscribers].
    rewrite (setDelete_absent f (setDelete f (subscribers w))); [reflexivity|].
    intros Hin. apply setDelete_In in Hin. destruct Hin as [_ Hne]. congruence.
  - intros g. cbn [subscribers setSubscribers]. apply setDelete_In.
  - intros Hout. cbn [subscribers setSubscribers]. apply setDelete_absent, Hout.
  - intros data tr'. rewrite notifySubscribers_run. cbn [snd subscribers setSubscribers].
    rewrite deliveries_split, deliveries_absent, app_nil_r; [reflexivity|].
    intros Hin. apply setDelete_In in Hin. destruct Hin as [_ Hne]. congruence.
Qed.

Lemma timer_cleared (t : nat) : List.filter (fun u => negb (Nat.eqb u t)) [t] = [].
Proof. simpl. rewrite Nat.eqb_refl. reflexivity. Qed.

Lemma startPeriodicSync_run (env : Env) (w : World) (tr : list Event) :
  timersOwned w ->
  exists w',
    run env startPeriodicSync w tr = (Ok tt, w', tr) /\
    timersOwned w' /\
    activeTimers w' = [nextTimer w] /\
    syncInterval w' = Some (nextTimer w) /\
    isConnected w' = isConnected w /\ subscribers w' = subscribers w /\
    cachedData w' = cachedData w.
Proof.
  intros [Hact Hbelow]. eexists. split; [reflexivity|].
  assert (Hnew : activeTimers
                   (setSyncInterval
                      (setInterval
                         match syncInterval w with
                         | Some timer => clearInterval w timer
                         | None => w
                         end)
                      (Some (nextTimer
                         match syncInterval w with
                         | Some timer => clearInterval w timer
                         | None => w
                         end))) = [nextTimer w]).
  { destruct (syncInterval w) as [t|];
      cbn [activeTimers setSyncInterval setInterval clearInterval nextTimer];
      rewrite Hact; [rewrite timer_cleared|]; reflexivity. }
  split; [|split; [exact Hnew|]].
  - split.
    + rewrite Hnew. destruct (syncInterval w); reflexivity.
    + rewrite Hnew. constructor; [|constructor].
      destruct (syncInterval w); cbn; lia.
  - destruct (syncInterval w); repeat split.
Qed.

(** X11.  When the only running timer is the one the service holds,
    [startPeriodicSync] leaves exactly one timer running, a fresh one,
    however often it is called, and [stopPeriodicSync] leaves none;
    neither throws, and a stop without a timer changes nothing. *)
Theorem periodicSync_single_timer (env : Env) (w : World) (tr : list Event) :
  timersOwned w ->
  (exists w',
     run env startPeriodicSync w tr = (Ok tt, w', tr) /\
     timersOwned w' /\
     activeTimers w' = [nextTimer w] /\
     syncInterval w' = Some (nextTimer w) /\
     ~ In (nextTimer w) (activeTimers w)) /\
  (exists w',
     run env stopPeriodicSync w tr = (Ok tt, w', tr) /\
     timersOwned w' /\
     activeTimers w' = [] /\
     syncInterval w' = None /\
     (syncInterval w = None -> w' = w)).
Proof.
  intros Howned. split.
  - destruct (startPeriodicSync_run env w tr Howned) as (w' & Hrun & Ho & Ha & Hs & _).
    exists w'. repeat (split; [assumption|]).
    destruct Howned as [_ Hbelow]. intros Hin.
    rewrite List.Forall_forall in Hbelow. specialize (Hbelow _ Hin). lia.
  - destruct Howned as [Hact Hbelow]. destruct (syncInterval w) as [t|] eqn:E.
    + eexists. cbn [run stopPeriodicSync bind get put]. rewrite E.
      split; [reflexivity|].
      assert (Hnone : activeTimers (setSyncInterval (clearInterval w t) None) = []).
      { cbn [activeTimers setSyncInterval clearInterval]. rewrite Hact. apply timer_cleared. }
      split; [split; [rewrite Hnone; reflexivity | rewrite Hnone; constructor]|].
      split; [exact Hnone|]. split; [reflexivity|]. discriminate.
    + exists w. cbn [run stopPeriodicSync bind get put]. rewrite E.
      split; [reflexivity|].
      split; [unfold timersOwned; rewrite E; split; [exact Hact | exact Hbelow]|].
      split; [exact Hact|]. split; reflexivity.
Qed.

Lemma periodicSync_single_timer_witness :
  exists w',
    run Samples.offline startPeriodicSync (freshWorld true) [] = (Ok tt, w', []) /\
    timersOwned w'.
Proof.
  destruct (periodicSync_single_timer Samples.offline (freshWorld true) [])
    as [(w' & H1 & H2 & _) _].
  - split; [reflexivity | constructor].
  - exists w'. split; [exact H1 | exact H2].
Defined.

(** X12.  [destroy] stops the timer and empties the subscriber set and
    the AI timestamps, so that a later notification reaches nobody; it
    keeps the cached dashboard and the connection flag, never throws,
    and a second call changes nothing. *)
Theorem destroy_releases (env : Env) (w : World) (tr : list Event) :
  timersOwned w ->
  exists w',
    run env destroy w tr = (Ok tt, w', tr) /\
    activeTimers w' = [] /\ syncInterval w' = None /\
    subscribers w' = [] /\ aiTimestampData w' = ∅ /\
    cachedData w' = cachedData w /\ isConnected w' = isConnected w /\
    lastSyncTime w' = lastSyncTime w /\
    run env destroy w' tr = (Ok tt, w', tr) /\
    forall data, run env (notifySubscribers data) w' tr = (Ok tt, w', tr).
Proof.
  intros [Hact _]. unfold destroy. rewrite run_bind.
  destruct (syncInterval w) as [t|] eqn:E.
  - cbn [run stopPeriodicSync bind get put]. rewrite E. cbn [run bind get put].
    eexists. split; [reflexivity|].
    cbn [activeTimers syncInterval subscribers aiTimestampData cachedData isConnected
         lastSyncTime setAiTimestampData setSubscribers setSyncInterval clearInterval].
    rewrite Hact, timer_cleared. do 7 (split; [reflexivity|]).
    split.
    + rewrite run_bind. cbn. reflexivity.
    + intros data. rewrite notifySubscribers_run. cbn. rewrite app_nil_r. reflexivity.
  - cbn [run stopPeriodicSync bind get put]. rewrite E. cbn [run bind get put].
    eexists. split; [reflexivity|].
    cbn [activeTimers syncInterval subscribers aiTimestampData cachedData isConnected
         lastSyncTime setAiTimestampData setSubscribers].
    rewrite Hact, E. do 7 (split; [reflexivity|]).
    split.
    + reflexivity.
    + intros data. rewrite notifySubscribers_run. cbn. rewrite app_nil_r. reflexivity.
Qed.

Lemma destroy_releases_witness :
  exists w',
    run Samples.offline destroy (setSubscribers (freshWorld true) [0; 1]%nat) []
      = (Ok tt, w', []) /\
    subscribers w' = [].
Proof.
  destruct (destroy_releases Samples.offline
              (setSubscribers (freshWorld true) [0; 1]%nat) [])
    as (w' & H1 & _ & _ & H2 & _).
  - split; [reflexivity | constructor].
  - exists w'. split; [exact H1 | exact H2].
Defined.

End SubscriptionFacts.

(** ** The load cycle of the synchronisation service *)

Section LoadCycleFacts.
Import Fhir Dashboard Effects RestApi DataSyncService Notions.
#[local] Arguments Js.Math_floor : simpl never.
#[local] Arguments Js.Math_round : simpl never.

Variable adaptDashboardData : Body -> bool -> result Data.
Variable asDashboard : Body -> Data.

Local Abbreviation loadDashboardData :=
  (DataSyncService.loadDashboardData adaptDashboardData asDashboard).
Local Abbreviation loadAnalyticsData := DataSyncService.loadAnalyticsData.
Local Abbreviation initialize :=
  (DataSyncService.initialize adaptDashboardData asDashboard).
Local Abbreviation refresh := (DataSyncService.refresh adaptDashboardData asDashboard).

Lemma remote_serverOrInternal (l : list Event) :
  forallb remoteRequest l = true -> forallb serverOrInternal l = true.
Proof.
  rewrite !forallb_forall. intros H ev Hin. unfold serverOrInternal.
  rewrite (H ev Hin). reflexivity.
Qed.

Lemma internal_serverOrInternal (l : list Event) :
  forallb internal l = true -> forallb serverOrInternal l = true.
Proof.
  rewrite !forallb_forall. intros H ev Hin. unfold serverOrInternal.
  rewrite (H ev Hin). apply Bool.orb_true_r.
Qed.

Lemma serverOrInternal_quiet (l : list Event) :
  forallb serverOrInternal l = true ->
  (forall path, ~ In (Static path) (requests l)) /\
  ~ In Metadata (requests l) /\
  forall callback, deliveries callback l = [].
Proof.
  induction l as [|ev l IH]; [repeat split; intros; auto|].
  cbn [forallb]. intros [Hev Hl]%andb_prop. destruct (IH Hl) as (I1 & I2 & I3).
  assert (Hr : requests (ev :: l) = requests l \/
               exists rt q, requests (ev :: l) = SearchUrl rt q :: requests l).
  { destruct ev as [[| |]| | | | |]; try (cbv in Hev; discriminate Hev);
      (left; reflexivity) || (right; eexists; eexists; reflexivity). }
  assert (Hd : forall callback, deliveries callback (ev :: l) = deliveries callback l).
  { intros callback.
    destruct ev as [| | | | |]; try (cbv in Hev; discriminate Hev); reflexivity. }
  split; [|split].
  - intros path. destruct Hr as [-> | (rt & q & ->)]; [apply I1|].
    intros [H|H]; [discriminate H | exact (I1 _ H)].
  - destruct Hr as [-> | (rt & q & ->)]; [apply I2|].
    intros [H|H]; [discriminate H | exact (I2 H)].
  - intros callback. rewrite Hd. apply I3.
Qed.

Lemma searchResources_server (env : Env) (resourceType : string) (params : Params)
    (w : World) (tr : list Event) :
  exists entries rest,
    run env (searchResources resourceType params) w tr
      = (Ok entries, w, (tr ++ Fetched (buildUrl resourceType params false) :: rest)%list) /\
    forallb remoteRequest (Fetched (buildUrl resourceType params false) :: rest) = true.
Proof.
  rewrite searchResources_run. cbv zeta.
  destruct (rejectsParameters _); eexists; eexists; split; reflexivity.
Qed.

Lemma buildDashboardData_run (env : Env) (patients encounters observations : list Entry)
    (w : World) (tr : list Event) :
  exists d more,
    run env (buildDashboardData patients encounters observations) w tr
      = (Ok d, w, (tr ++ more)%list) /\
    forallb internal more = true /\ analytics d = None.
Proof.
  unfold buildDashboardData. rewrite run_bind.
  destruct (adaptPatients_run env observations patients w tr) as (rows & m1 & -> & H1 & _).
  rewrite run_bind.
  destruct (finished_run env encounters w (tr ++ m1)%list) as (adm & m2 & -> & H2 & _).
  cbn [run]. eexists. exists (m1 ++ m2)%list. rewrite app_assoc.
  split; [reflexivity|]. split; [rewrite internal_app, H1, H2; reflexivity | reflexivity].
Qed.

Lemma getDashboardData_run (env : Env) (w : World) (tr : list Event) :
  exists d rest,
    run env getDashboardData w tr
      = (Ok (Shaped d), w,
         (tr ++ Fetched (buildUrl PATIENT [("_count", PNum 20)] false) :: rest)%list) /\
    forallb serverOrInternal
      (Fetched (buildUrl PATIENT [("_count", PNum 20)] false) :: rest) = true /\
    analytics d = None.
Proof.
  unfold getDashboardData. rewrite run_try_catch, run_bind.
  destruct (searchResources_server env PATIENT [("_count", PNum 20)] w tr)
    as (ps & r1 & -> & H1).
  rewrite run_bind.
  destruct (searchResources_server env ENCOUNTER [("_count", PNum 20)] w
              (tr ++ Fetched (buildUrl PATIENT [("_count", PNum 20)] false) :: r1)%list)
    as (es & r2 & -> & H2).
  rewrite run_bind.
  match goal with
  | |- context [run env (searchResources OBSERVATION ?P) w ?T] =>
      destruct (searchResources_server env OBSERVATION P w T) as (os & r3 & -> & H3)
  end.
  rewrite run_bind.
  match goal with
  | |- context [run env (buildDashboardData ps es os) w ?T] =>
      destruct (buildDashboardData_run env ps es os w T) as (d & m4 & -> & H4 & Ha)
  end.
  cbn [run].
  exists d. eexists. split; [|split; [|exact Ha]].
  - rewrite <- !app_assoc. rewrite <- !app_comm_cons. reflexivity.
  - apply remote_serverOrInternal in H1, H2, H3. apply internal_serverOrInternal in H4.
    cbn [forallb] in H1, H2, H3 |- *.
    apply andb_prop in H1 as [A1 B1]. apply andb_prop in H2 as [A2 B2].
    apply andb_prop in H3 as [A3 B3].
    rewrite A1, forallb_app, B1. cbn [andb forallb].
    rewrite A2, forallb_app, B2. cbn [andb forallb].
    rewrite A3, forallb_app, B3, H4. reflexivity.
Qed.

Lemma annotate_analytics (m : gmap string (list Timeline.TimelineEvent)) (d : Data) :
  analytics (annotate m d) = analytics d.
Proof.
  unfold annotate. destruct (patients d); cbn [encounters withPatients];
    destruct (encounters d); reflexivity.
Qed.

Lemma loadDashboardData_connected (env : Env) (w : World) (tr : list Event) :
  isConnected w = true ->
  exists d m i more now,
    let snapshot := spread (withAiInsights (cachedData w) i) (annotate m d) in
    run env loadDashboardData w tr =
      (Ok tt, setLastSyncTime (setCachedData w snapshot) (Some now),
       (tr ++ more ++ map (fun c => Notified c snapshot) (subscribers w) ++ [ClockRead])%list) /\
    forallb serverOrInternal more = true /\
    analytics d = None /\
    exists rest, more = Fetched (buildUrl PATIENT [("_count", PNum 20)] false) :: rest.
Proof.
  intros Hconn.
  unfold DataSyncService.loadDashboardData. rewrite run_try_catch.
  cbn [run bind get]. rewrite Hconn. rewrite run_bind.
  destruct (getDashboardData_run env w tr) as (d & r1 & -> & H1 & Ha).
  cbn [run bind get]. rewrite Hconn. cbn [run bind]. rewrite run_bind.
  match goal with
  | |- context [run env (enhanceWithAITimestamps d) w ?T] =>
      destruct (enhanceWithAITimestamps_run env d w T) as (m & w1 & m2 & -> & [i ->] & H2)
  end.
  cbn [run bind get put]. rewrite run_bind, notifySubscribers_run.
  cbn [run bind get put newDate].
  exists d, m, i, (Fetched (buildUrl PATIENT [("_count", PNum 20)] false) :: r1 ++ m2)%list.
  eexists. cbv zeta.
  split; [|split; [|split; [exact Ha|]]].
  - rewrite <- !app_assoc. rewrite <- !app_comm_cons. rewrite <- !app_assoc. reflexivity.
  - apply internal_serverOrInternal in H2.
    rewrite app_comm_cons, forallb_app, H1, H2. reflexivity.
  - eexists. reflexivity.
Qed.


(** X14.  With the service connected and a server that answers as FHIR
    asks, [loadDashboardData] never throws, whether the searches
    succeed or fail: it stores a snapshot in the cache, hands that same
    snapshot to every subscriber exactly once and to nobody else,
    records the time of the synchronisation and requests no static
    file; the analytics loaded earlier stay in the cache, and the
    connection flag, the subscribers and the timers are as before. *)
Theorem loadDashboardData_publishes (env : Env) (w : World) (tr : list Event) :
  conformantServer env ->
  isConnected w = true ->
  List.NoDup (subscribers w) ->
  exists w' more,
    run env loadDashboardData w tr = (Ok tt, w', (tr ++ more)%list) /\
    (forall callback,
       deliveries callback more =
       if in_dec Nat.eq_dec callback (subscribers w) then [cachedData w'] else []) /\
    (forall path, ~ In (Static path) (requests more)) /\
    analytics (cachedData w') = analytics (cachedData w) /\
    lastSyncTime w' <> None /\
    isConnected w' = true /\ subscribers w' = subscribers w /\
    syncInterval w' = syncInterval w /\ activeTimers w' = activeTimers w.
Proof.
  intros _ Hconn Hnodup.
  destruct (loadDashboardData_connected env w tr Hconn)
    as (d & m & i & more & now & Hrun & Hq & Ha & _).
  cbv zeta in Hrun. rewrite Hrun.
  destruct (serverOrInternal_quiet _ Hq) as (Q1 & _ & Q3).
  eexists. eexists. split; [reflexivity|].
  cbn [cachedData lastSyncTime isConnected subscribers syncInterval activeTimers
       setLastSyncTime setCachedData].
  split; [|split; [|split; [|split; [discriminate|]]]].
  - intros callback. rewrite !deliveries_app, Q3. cbn [app].
    change (deliveries callback [ClockRead]) with (@nil Data). rewrite app_nil_r.
    destruct (in_dec Nat.eq_dec callback (subscribers w)) as [Hin | Hout].
    + apply deliveries_notified; assumption.
    + apply deliveries_absent; assumption.
  - intros path. rewrite !requests_app, requests_notified. cbn [app].
    change (requests [ClockRead]) with (@nil Url). rewrite app_nil_r. apply Q1.
  - cbn [analytics spread withAiInsights]. rewrite annotate_analytics, Ha. reflexivity.
  - repeat split. exact Hconn.
Qed.

Lemma loadDashboardData_mock_failure (env : Env) (w : World) (tr : list Event) (e : exn) :
  isConnected w = false ->
  mockFailure adaptDashboardData (env_fetch env tr summaryFixture) = Some e ->
  run env loadDashboardData w tr = (Err e, w, (tr ++ [Fetched summaryFixture])%list).
Proof.
  intros Hconn Hfail.
  unfold DataSyncService.loadDashboardData. rewrite run_try_catch.
  cbn [run bind get]. rewrite Hconn.
  unfold fetchResponse, fetch. cbn [run bind].
  destruct (env_fetch env tr summaryFixture) as [|status [b|]]; cbn [mockFailure] in Hfail.
  - injection Hfail as <-. reflexivity.
  - cbn [run bind json snd get]. rewrite Hconn.
    destruct (adaptDashboardData b false) as [d|e']; [discriminate Hfail|].
    injection Hfail as <-. reflexivity.
  - injection Hfail as <-. reflexivity.
Qed.

(** X15.  When the mock summary cannot be loaded (the request is
    rejected, the body does not parse, or the adapter throws), the
    error reaches the caller of [loadDashboardData], of [refresh] and of
    [initialize]: the cache and the time of the last synchronisation are
    as before, nobody is notified, the analytics are not requested and
    no timer is started. *)
Theorem mock_failure_propagates (env : Env) (w : World) (tr : list Event) (e : exn)
    (useFHIR : bool) :
  mockFailure adaptDashboardData (env_fetch env tr summaryFixture) = Some e ->
  (isConnected w = false ->
   run env loadDashboardData w tr = (Err e, w, (tr ++ [Fetched summaryFixture])%list) /\
   run env refresh w tr = (Err e, w, (tr ++ [Fetched summaryFixture])%list)) /\
  (useFHIR && rest_isConnected w = false ->
   run env (initialize useFHIR) w tr =
   (Err e, setIsConnected w false, (tr ++ [Fetched summaryFixture])%list)).
Proof.
  intros Hfail. split.
  - intros Hconn. split; [apply loadDashboardData_mock_failure; assumption|].
    unfold DataSyncService.refresh. rewrite run_bind.
    rewrite (loadDashboardData_mock_failure env w tr e Hconn Hfail). reflexivity.
  - intros Hoff. unfold DataSyncService.initialize. rewrite run_try_catch.
    cbn [run bind get put]. rewrite Hoff. rewrite run_bind.
    rewrite (loadDashboardData_mock_failure env (setIsConnected w false) tr e eq_refl Hfail).
    reflexivity.
Qed.

(** X16.  [loadAnalyticsData] never throws and does not look at the
    status of the response: any response whose body parses replaces the
    analytics in the cache and is announced to every subscriber; a
    rejected request or a body that does not parse leaves the state as
    it is and notifies nobody. *)
Theorem loadAnalyticsData_cases (env : Env) (w : World) (tr : list Event) :
  run env loadAnalyticsData w tr =
  match env_fetch env tr analyticsFixture with
  | Responded status (Some b) =>
      let snapshot := withAnalytics (cachedData w) (Some b) in
      (Ok tt, setCachedData w snapshot,
       (tr ++ Fetched analyticsFixture ::
              map (fun c => Notified c snapshot) (subscribers w))%list)
  | _ => (Ok tt, w, (tr ++ [Fetched analyticsFixture])%list)
  end.
Proof.
  unfold DataSyncService.loadAnalyticsData. rewrite run_try_catch.
  unfold fetchResponse, fetch. cbn [run bind].
  destruct (env_fetch env tr analyticsFixture) as [|status [b|]].
  - reflexivity.
  - cbn [run bind json snd get put]. rewrite notifySubscribers_run.
    rewrite <- app_assoc. reflexivity.
  - reflexivity.
Qed.

Lemma loadAnalyticsData_state (env : Env) (w : World) (tr : list Event) :
  exists w' more,
    run env loadAnalyticsData w tr = (Ok tt, w', (tr ++ more)%list) /\
    isConnected w' = isConnected w /\ syncInterval w' = syncInterval w /\
    activeTimers w' = activeTimers w /\ nextTimer w' = nextTimer w /\
    requests more = [analyticsFixture].
Proof.
  unfold DataSyncService.loadAnalyticsData. rewrite run_try_catch.
  unfold fetchResponse, fetch. cbn [run bind].
  destruct (env_fetch env tr analyticsFixture) as [|status [b|]].
  - cbn [run bind]. exists w, [Fetched analyticsFixture]. repeat split.
  - cbn [run bind json snd get put]. rewrite notifySubscribers_run.
    eexists. eexists. rewrite <- app_assoc. split; [reflexivity|]. repeat split.
    rewrite requests_app, requests_notified. reflexivity.
  - cbn [run bind json snd]. exists w, [Fetched analyticsFixture]. repeat split.
Qed.

(** X17.  With the REST client connected and a server that answers as
    FHIR asks, [initialize(true)] never throws, whether the searches
    succeed or fail: it marks the service connected, hands a snapshot
    to every subscriber, requests the analytics but not the mock
    summary, and leaves exactly one timer running, also when a timer
    was running before. *)
Theorem initialize_connected (env : Env) (w : World) (tr : list Event) :
  conformantServer env ->
  rest_isConnected w = true ->
  timersOwned w ->
  exists w' more,
    run env (initialize true) w tr = (Ok tt, w', (tr ++ more)%list) /\
    isConnected w' = true /\
    activeTimers w' = [nextTimer w] /\ syncInterval w' = Some (nextTimer w) /\
    timersOwned w' /\
    ~ In summaryFixture (requests more) /\
    In analyticsFixture (requests more) /\
    forall callback, In callback (subscribers w) -> deliveries callback more <> [].
Proof.
  intros _ Hprobe Howned.
  unfold DataSyncService.initialize. rewrite run_try_catch.
  cbn [run bind get put]. rewrite Hprobe. cbn [andb]. rewrite run_bind.
  destruct (loadDashboardData_connected env (setIsConnected w true) tr eq_refl)
    as (d & m & i & more & now & Hrun & Hq & _ & _).
  cbv zeta in Hrun. rewrite Hrun. clear Hrun. rewrite run_bind.
  match goal with
  | |- context [run env loadAnalyticsData ?W ?T] =>
      destruct (loadAnalyticsData_state env W T)
        as (w1 & more2 & -> & Hc & Hs & Ht & Hn & Hreq)
  end.
  cbn [isConnected syncInterval activeTimers nextTimer
       setLastSyncTime setCachedData setIsConnected] in Hc, Hs, Ht, Hn.
  cbn [run bind get]. rewrite Hc.
  assert (Howned1 : timersOwned w1).
  { destruct Howned as [Ha Hb]. split; rewrite Ht, ?Hs, ?Hn; assumption. }
  match goal with
  | |- context [run env startPeriodicSync w1 ?T] =>
      destruct (startPeriodicSync_run env w1 T Howned1)
        as (w' & -> & Ho & Hact & Hsync & Hconn & _)
  end.
  exists w'. eexists. rewrite <- !app_assoc. split; [reflexivity|].
  rewrite Hn in Hact, Hsync. rewrite Hc in Hconn.
  split; [exact Hconn|]. split; [exact Hact|]. split; [exact Hsync|]. split; [exact Ho|].
  destruct (serverOrInternal_quiet _ Hq) as (Q1 & _ & Q3).
  cbn [subscribers cachedData setIsConnected].
  split; [|split].
  - rewrite !requests_app, requests_notified, Hreq. cbn [app].
    change (requests [ClockRead]) with (@nil Url). cbn [app].
    intros [H|[H|[]]]%in_app_or; [exact (Q1 _ H) | discriminate H].
  - rewrite !requests_app, Hreq. apply in_or_app. right. apply in_or_app. right.
    apply in_or_app. right. left. reflexivity.
  - intros callback Hin. rewrite !deliveries_app, Q3. cbn [app].
    match goal with
    | |- context [map (fun c => Notified c ?S) ?L] =>
        destruct (deliveries_present callback S L Hin) as (later & ->)
    end.
    discriminate.
Qed.

End LoadCycleFacts.

Section LoadCycleExamples.
Import Fhir Dashboard Effects RestApi DataSyncService Notions.

Lemma servingSample_conformant : conformantServer servingSample.
Proof.
  intros tr resourceType query status body H _. cbn in H.
  destruct (String.eqb resourceType RestApi.PATIENT); injection H as _ <-; eexists; reflexivity.
Qed.


Lemma loadDashboardData_publishes_witness :
  exists w' more,
    run servingSample
        (DataSyncService.loadDashboardData Samples.sampleAdapter Samples.sampleView)
        (setIsConnected (setSubscribers (freshWorld true) [0; 1]%nat) true) []
      = (Ok tt, w', more) /\
    deliveries 1 more = [cachedData w'].
Proof.
  destruct (loadDashboardData_publishes Samples.sampleAdapter Samples.sampleView
              servingSample
              (setIsConnected (setSubscribers (freshWorld true) [0; 1]%nat) true) [])
    as (w' & more & H1 & H2 & _).
  - exact servingSample_conformant.
  - reflexivity.
  - repeat constructor; simpl; intuition lia.
  - exists w', more. split; [exact H1|]. exact (H2 1%nat).
Defined.

Lemma mock_failure_propagates_witness :
  run Samples.offline
      (DataSyncService.initialize Samples.sampleAdapter Samples.sampleView false)
      (freshWorld false) [] =
  (Err NetworkFailure, setIsConnected (freshWorld false) false, [Fetched summaryFixture]).
Proof.
  apply (mock_failure_propagates Samples.sampleAdapter Samples.sampleView
           Samples.offline (freshWorld false) [] NetworkFailure false);
    reflexivity.
Defined.

Lemma initialize_connected_witness :
  exists w' more,
    run servingSample
        (DataSyncService.initialize Samples.sampleAdapter Samples.sampleView true)
        (freshWorld true) []
      = (Ok tt, w', more) /\
    activeTimers w' = [0%nat].
Proof.
  destruct (initialize_connected Samples.sampleAdapter Samples.sampleView
              servingSample (freshWorld true) [])
    as (w' & more & H1 & _ & H2 & _).
  - exact servingSample_conformant.
  - reflexivity.
  - split; [reflexivity | constructor].
  - exists w', more. split; [exact H1 | exact H2].
Defined.

End LoadCycleExamples.

(** ** Generated timelines *)

Section GeneratedTimelineFacts.
Import Dashboard Timeline Effects DataSyncService Notions.

Lemma truncate_between (x : Q) (lo hi : Z) :
  (inject_Z lo <= x)%Q -> (x <= inject_Z hi)%Q -> lo <= truncate x <= hi.
Proof.
  intros Hlo Hhi. unfold truncate. destruct (Qle_bool 0 x); split.
  - rewrite <- (Qfloor_Z lo). apply Qfloor_resp_le, Hlo.
  - rewrite <- (Qfloor_Z hi). apply Qfloor_resp_le, Hhi.
  - rewrite <- (Qceiling_Z lo). apply Qceiling_resp_le, Hlo.
  - rewrite <- (Qceiling_Z hi). apply Qceiling_resp_le, Hhi.
Qed.

Lemma generatedFor_older (now : Z) (p : PatientSummary) (b b' : Z) (e : TimelineEvent) :
  b <= b' -> generatedFor now p b e -> generatedFor now p b' e.
Proof.
  intros Hb ([Hlo Hhi] & H). split; [split; [lia | exact Hhi] | exact H].
Qed.

Lemma aiEvent_run (env : Env) (now : Z) (p : PatientSummary) (index : nat)
    (event : EventTemplate) (w : World) (tr : list Event) :
  fairEnv env ->
  exists e,
    run env (aiEvent now p index event) w tr
      = (Ok e, w, (tr ++ [RandomDrawn; RandomDrawn; RandomDrawn])%list) /\
    generatedFor now p (Z.of_nat index * 15 + 30) e.
Proof.
  intros [Hr _]. eexists. split.
  - unfold aiEvent. cbn [run bind random]. rewrite <- !app_assoc. reflexivity.
  - destruct (Hr tr) as [H0 H1].
    destruct (Hr (tr ++ [RandomDrawn])%list) as [C0 C1].
    split; [|split; [reflexivity|split; [reflexivity|]]].
    + cbn [timestamp]. apply truncate_between.
      * unfold Z.sub. rewrite inject_Z_plus, inject_Z_opp, inject_Z_mult, inject_Z_plus.
        change (inject_Z 30) with 30%Q. change (inject_Z 60000) with 60000%Q. lra.
      * assert (0 <= inject_Z (Z.of_nat index * 15))%Q
          by (change 0%Q with (inject_Z 0); rewrite <- Zle_Qle; lia).
        lra.
    + eexists. split; [reflexivity|]. split; lra.
Qed.

Lemma forEachIndexed_generated (env : Env) (now : Z) (p : PatientSummary)
    (l : list EventTemplate) (index : nat) (w : World) (tr : list Event) :
  fairEnv env ->
  exists ts more,
    run env (forEachIndexed (aiEvent now p) index l) w tr = (Ok ts, w, (tr ++ more)%list) /\
    forallb internal more = true /\
    length ts = length l /\
    Forall (generatedFor now p (Z.of_nat (index + length l) * 15 + 15)) ts.
Proof.
  intros Hfair. revert index tr. induction l as [|ev l IH]; intros index tr.
  - exists [], []. cbn [forEachIndexed run]. rewrite app_nil_r. repeat split. constructor.
  - change (forEachIndexed (aiEvent now p) index (ev :: l))
      with (bind (aiEvent now p index ev)
              (fun y => bind (forEachIndexed (aiEvent now p) (S index) l)
                             (fun ys => Ret (y :: ys)))).
    rewrite run_bind.
    destruct (aiEvent_run env now p index ev w tr Hfair) as (e & -> & He).
    rewrite run_bind.
    destruct (IH (S index) (tr ++ [RandomDrawn; RandomDrawn; RandomDrawn])%list)
      as (ts & more & -> & Hmore & Hlen & Hts).
    cbn [run]. exists (e :: ts). eexists. rewrite <- app_assoc.
    split; [reflexivity|]. split; [exact Hmore|]. split; [cbn [length]; lia|].
    constructor.
    + apply (generatedFor_older now p (Z.of_nat index * 15 + 30)); [|exact He].
      cbn [length]. lia.
    + replace (index + length (ev :: l))%nat with (S index + length l)%nat
        by (cbn [length]; lia).
      exact Hts.
Qed.

(** X18.  With draws in the unit interval and a random sort that keeps
    the seven templates, [generatePatientAITimestamps] makes between
    three and seven events, newest first; each is marked as generated
    for the patient, is not later than the present and at most two
    hours old, and has a confidence from 70 up to but not including 100
    percent.  The state is left as it is. *)
Theorem generatePatientAITimestamps_bounds (env : Env) (p : PatientSummary)
    (w : World) (tr : list Event) :
  fairEnv env ->
  exists ts more,
    run env (generatePatientAITimestamps p) w tr = (Ok ts, w, (tr ++ more)%list) /\
    (3 <= length ts <= 7)%nat /\
    sortedDesc ts /\
    Forall (generatedFor (getTime (env_now env tr)) p 120) ts.
Proof.
  intros Hfair. pose proof Hfair as [Hr Hs].
  unfold generatePatientAITimestamps. cbn [run bind newDate random].
  rewrite run_bind.
  set (now := getTime (env_now env tr)).
  set (r := env_random env (tr ++ [ClockRead])%list).
  set (shuffled := env_shuffle env ((tr ++ [ClockRead]) ++ [RandomDrawn])%list eventTable).
  set (selectedEvents := firstn (Z.to_nat (Math_floor (r * 5) + 3)) shuffled).
  match goal with
  | |- context [run env (forEachIndexed (aiEvent now p) 0 selectedEvents) w ?T] =>
      destruct (forEachIndexed_generated env now p selectedEvents 0 w T Hfair)
        as (ts & more & -> & _ & Hlen & Hts)
  end.
  cbn [run]. eexists. eexists. rewrite <- !app_assoc. split; [reflexivity|].
  assert (Hn : 0 <= Math_floor (r * 5) < 5).
  { destruct (Hr (tr ++ [ClockRead])%list) as [H0 H1].
    pose proof (floor_of_draw _ 5 H0 H1 eq_refl) as H.
    change (inject_Z 5) with 5%Q in H. exact H. }
  assert (Hsel : (3 <= length selectedEvents <= 7)%nat).
  { unfold selectedEvents. rewrite length_firstn. unfold shuffled. rewrite Hs.
    change (length eventTable) with 7%nat. lia. }
  pose proof (Array_sort_perm byTimestampDesc ts) as Hperm.
  split; [rewrite <- (Permutation_length Hperm), Hlen; exact Hsel|].
  split; [apply Array_sort_sorted|].
  apply (Permutation_Forall Hperm).
  revert Hts. apply List.Forall_impl. intros e. apply generatedFor_older. lia.
Qed.

Lemma generatePatientAITimestamps_bounds_witness :
  exists ts more,
    run fairSample (generatePatientAITimestamps Samples.mockPatient)
        (freshWorld false) [] = (Ok ts, freshWorld false, more) /\
    (3 <= length ts <= 7)%nat.
Proof.
  destruct (generatePatientAITimestamps_bounds fairSample Samples.mockPatient
              (freshWorld false) [])
    as (ts & more & H1 & H2 & _).
  - split.
    + intros tr. split; [unfold Qle | unfold Qlt]; simpl; lia.
    + reflexivity.
  - exists ts, more. split; [exact H1 | exact H2].
Defined.





End GeneratedTimelineFacts.

(** ** The readings behind the vital signs *)

Section VitalsReadings.
Import Fhir Vitals RestApiService BloodPressure Notions.

Lemma lastValue_snoc (patientId c : string) (l : list Entry) (obs : Entry) :
  lastValue patientId c (l ++ [obs]) =
  if usable patientId c obs then quantityValue obs else lastValue patientId c l.
Proof.
  unfold lastValue. rewrite List.filter_app. cbn [List.filter].
  destruct (usable patientId c obs).
  - rewrite rev_app_distr. reflexivity.
  - rewrite app_nil_r. reflexivity.
Qed.

Lemma usable_cases (patientId c : string) (obs : Entry) :
  usable patientId c obs =
  isPatientObservation patientId obs &&
  match firstCode obs, quantityValue obs with
  | Some c', Some v => String.eqb c' c && Js.truthyQ v
  | _, _ => false
  end.
Proof.
  unfold usable, matchesCode. destruct (isPatientObservation patientId obs); [|reflexivity].
  cbn [andb]. destruct (firstCode obs), (quantityValue obs); try reflexivity.
  apply Bool.andb_false_r.
Qed.

Lemma halfText_slashFree (x : option Z) : slashFree (halfText x) = true.
Proof.
  destruct x as [z|]; [|reflexivity].
  apply integerText_slashFree, integerText_string_of_Z.
Qed.

Lemma bpSet_text (acc : VitalsAcc) (s d : option Z) :
  acc_bp acc = bpText s d ->
  match bpSet acc with
  | Some old => Js.split "/" old = [halfText s; halfText d]
  | None => s = None /\ d = None
  end.
Proof.
  unfold bpSet. intros ->. unfold bpText.
  destruct s as [a|], d as [b|]; try (split; reflexivity);
    rewrite truthy_pair; apply split_pair; apply halfText_slashFree.
Qed.

Lemma assign_systolic (acc : VitalsAcc) (s d : option Z) (v : Q) :
  acc_bp acc = bpText s d ->
  acc_bp (assignVital acc "8480-6" v) = bpText (Some (Js.Math_round v)) d.
Proof.
  intros H. pose proof (bpSet_text acc s d H) as Hset.
  unfold assignVital. cbn [String.eqb Ascii.eqb Bool.eqb acc_bp].
  destruct (bpSet acc) as [old|].
  - rewrite Hset. destruct d; reflexivity.
  - destruct Hset as [_ ->]. reflexivity.
Qed.

Lemma assign_diastolic (acc : VitalsAcc) (s d : option Z) (v : Q) :
  acc_bp acc = bpText s d ->
  acc_bp (assignVital acc "8462-4" v) = bpText s (Some (Js.Math_round v)).
Proof.
  intros H. pose proof (bpSet_text acc s d H) as Hset.
  unfold assignVital. cbn [String.eqb Ascii.eqb Bool.eqb acc_bp].
  destruct (bpSet acc) as [old|].
  - rewrite Hset. destruct s; reflexivity.
  - destruct Hset as [-> _]. reflexivity.
Qed.

Lemma assignVital_readings (patientId : string) (l : list Entry) (obs : Entry)
    (c : string) (v : Q) :
  isPatientObservation patientId obs = true ->
  firstCode obs = Some c -> quantityValue obs = Some v -> Js.truthyQ v = true ->
  assignVital (readings patientId l) c v = readings patientId (l ++ [obs]).
Proof.
  intros Hp Hc Hv Ht.
  assert (Hlast : forall c', lastValue patientId c' (l ++ [obs]) =
                             if String.eqb c c' then Some v else lastValue patientId c' l).
  { intros c'. rewrite lastValue_snoc, usable_cases, Hp, Hc, Hv, Ht.
    cbn [andb]. rewrite Bool.andb_true_r. reflexivity. }
  unfold readings at 2. rewrite !Hlast.
  destruct (String.eqb c "8867-4") eqn:E1.
  { apply String.eqb_eq in E1. subst c. reflexivity. }
  destruct (String.eqb c "8480-6") eqn:E2.
  { apply String.eqb_eq in E2. subst c.
    pose proof (assign_systolic (readings patientId l) _ _ v eq_refl) as Hbp.
    unfold assignVital in *. cbn [String.eqb Ascii.eqb Bool.eqb] in *.
    cbn [acc_bp] in Hbp. cbn [option_map]. rewrite <- Hbp. reflexivity. }
  destruct (String.eqb c "8462-4") eqn:E3.
  { apply String.eqb_eq in E3. subst c.
    pose proof (assign_diastolic (readings patientId l) _ _ v eq_refl) as Hbp.
    unfold assignVital in *. cbn [String.eqb Ascii.eqb Bool.eqb] in *.
    cbn [acc_bp] in Hbp. cbn [option_map]. rewrite <- Hbp. reflexivity. }
  destruct (String.eqb c "8310-5") eqn:E4.
  { apply String.eqb_eq in E4. subst c. reflexivity. }
  destruct (String.eqb c "2708-6") eqn:E5.
  { apply String.eqb_eq in E5. subst c. reflexivity. }
  unfold assignVital. rewrite E1, E2, E3, E4, E5. reflexivity.
Qed.

Lemma skipped_readings (patientId : string) (l : list Entry) (obs : Entry) :
  (forall c, usable patientId c obs = false) ->
  readings patientId (l ++ [obs]) = readings patientId l.
Proof.
  intros H. unfold readings. rewrite !lastValue_snoc, !H. reflexivity.
Qed.

Lemma fold_readings (patientId : string) (observations : list Entry) :
  fold_left vitalsStep (List.filter (isPatientObservation patientId) observations) emptyAcc
  = readings patientId observations.
Proof.
  induction observations as [|obs l IH] using rev_ind; [reflexivity|].
  rewrite List.filter_app, fold_left_app, IH. cbn [List.filter].
  destruct (isPatientObservation patientId obs) eqn:Hp.
  - cbn [fold_left]. unfold vitalsStep.
    destruct (firstCode obs) as [c|] eqn:Hc.
    + destruct (quantityValue obs) as [v|] eqn:Hv.
      * destruct (Js.truthyQ v) eqn:Ht.
        -- destruct (Js.truthyS c) eqn:Hs; cbn [andb].
           ++ apply (assignVital_readings patientId l obs c v Hp Hc Hv Ht).
           ++ destruct c; [|discriminate Hs].
              rewrite <- (assignVital_readings patientId l obs "" v Hp Hc Hv Ht).
              reflexivity.
        -- rewrite Bool.andb_false_r. symmetry. apply skipped_readings.
           intros c'. rewrite usable_cases, Hc, Hv, Ht, Bool.andb_false_r.
           apply Bool.andb_false_r.
      * symmetry. apply skipped_readings.
        intros c'. rewrite usable_cases, Hc, Hv. apply Bool.andb_false_r.
    + symmetry. apply skipped_readings.
      intros c'. rewrite usable_cases, Hc. apply Bool.andb_false_r.
  - cbn [fold_left]. symmetry. apply skipped_readings.
    intros c'. rewrite usable_cases, Hp. reflexivity.
Qed.

Lemma lastValue_none (patientId c : string) (observations : list Entry) :
  lastValue patientId c observations = None <->
  existsb (usable patientId c) observations = false.
Proof.
  induction observations as [|obs l IH] using rev_ind; [split; reflexivity|].
  rewrite lastValue_snoc, existsb_app. cbn [existsb]. rewrite Bool.orb_false_r.
  destruct (usable patientId c obs) eqn:Hu.
  - rewrite Bool.orb_true_r. split; [|discriminate].
    rewrite usable_cases in Hu. apply andb_prop in Hu as [_ Hu].
    destruct (firstCode obs); [|discriminate Hu].
    destruct (quantityValue obs); [discriminate | discriminate Hu].
  - rewrite Bool.orb_false_r. exact IH.
Qed.

(** X20.  Each vital sign that [extractVitals] reports comes from the
    last observation of the patient with the field's code and a value
    that is neither missing nor zero: the heart rate and the oxygen
    saturation are that value rounded, the temperature is that value to
    one decimal, and the blood pressure joins the last systolic and the
    last diastolic reading, with [--] for the side that has none. *)
Theorem extractVitals_last_readings (observations : list Entry) (patientId : string) :
  extractVitals observations patientId = finishVitals (readings patientId observations).
Proof.
  unfold extractVitals. cbv zeta. rewrite fold_readings. reflexivity.
Qed.

(** X21.  The blood pressure that [extractVitals] reports is a complete
    pair of numbers exactly when the patient has both a systolic and a
    diastolic observation with a value that is neither missing nor
    zero, and it is the sentinel exactly when the patient has neither. *)
Theorem extractVitals_pair_complete (observations : list Entry) (patientId : string) :
  let v := extractVitals observations patientId in
  let measured c := existsb (usable patientId c) observations in
  ((exists s, bp v = Str s /\ isCompletePair s = true) <->
   measured "8480-6" = true /\ measured "8462-4" = true) /\
  (bp v = NA <-> measured "8480-6" = false /\ measured "8462-4" = false).
Proof.
  cbv zeta. unfold extractVitals. cbv zeta. rewrite fold_readings.
  cbn [bp finishVitals acc_bp readings].
  pose proof (lastValue_none patientId "8480-6" observations) as Hs.
  pose proof (lastValue_none patientId "8462-4" observations) as Hd.
  destruct (lastValue patientId "8480-6" observations) as [a|];
    destruct (lastValue patientId "8462-4" observations) as [b|];
    cbn [option_map bpText halfText strOrNA].
  all: try rewrite truthy_pair.
  all: destruct (existsb (usable patientId "8480-6") observations);
    try (exfalso; destruct Hs as [Hs1 Hs2]; (discriminate (Hs1 eq_refl) || discriminate (Hs2 eq_refl))).
  all: destruct (existsb (usable patientId "8462-4") observations);
    try (exfalso; destruct Hd as [Hd1 Hd2]; (discriminate (Hd1 eq_refl) || discriminate (Hd2 eq_refl))).
  - split; split.
    + intros _. split; reflexivity.
    + intros _. eexists. split; [reflexivity|]. unfold isCompletePair.
      rewrite split_pair by (apply integerText_slashFree, integerText_string_of_Z).
      rewrite !integerText_string_of_Z. reflexivity.
    + intros H. exfalso. injection H as H.
      pose proof (pair_with_placeholders (Js.string_of_Z (Js.Math_round a))
                    (Js.string_of_Z (Js.Math_round b))
                    (half_string_of_Z _) (half_string_of_Z _)) as Hp.
      rewrite H in Hp. discriminate Hp.
    + intros [H _]. discriminate H.
  - split; split.
    + intros (s & H & Hc). exfalso. injection H as <-. unfold isCompletePair in Hc.
      rewrite split_pair in Hc
        by (try reflexivity; apply integerText_slashFree, integerText_string_of_Z).
      rewrite Bool.andb_comm in Hc. discriminate Hc.
    + intros [_ H]. discriminate H.
    + intros H. exfalso. injection H as H.
      pose proof (pair_with_placeholders (Js.string_of_Z (Js.Math_round a)) "--"
                    (half_string_of_Z _) eq_refl) as Hp.
      rewrite H in Hp. discriminate Hp.
    + intros [H _]. discriminate H.
  - split; split.
    + intros (s & H & Hc). exfalso. injection H as <-. unfold isCompletePair in Hc.
      rewrite split_pair in Hc
        by (try reflexivity; apply integerText_slashFree, integerText_string_of_Z).
      discriminate Hc.
    + intros [H _]. discriminate H.
    + intros H. exfalso. injection H as H. discriminate H.
    + intros [_ H]. discriminate H.
  - split; split.
    + intros (s & H & Hc). exfalso. injection H as <-. discriminate Hc.
    + intros [H _]. discriminate H.
    + intros _. split; reflexivity.
    + intros _. reflexivity.
Qed.

End VitalsReadings.

(** ** The table of observation codes *)

Section CodeTable.
Import Fhir Vitals RestApiService BloodPressure Notions.




End CodeTable.

(** ** The dashboard of the SMART client *)

Section SmartDashboardFacts.
Import Js Fhir Vitals.

Variable Number_toString : Q -> string.

Local Abbreviation isPatientObservation := FHIRClient.isPatientObservation.
Local Abbreviation patientRow := (FHIRClient.patientRow Number_toString).
Local Abbreviation extractVitalsFromObservations :=
  (FHIRClient.extractVitalsFromObservations Number_toString).

Lemma rfilter_TypeError (patientId : string) (observations : list Entry) (e : exn) :
  rfilter (isPatientObservation patientId) observations = Err e -> e = TypeError.
Proof.
  induction observations as [|o l IH]; [discriminate|].
  cbn [rfilter]. unfold FHIRClient.isPatientObservation at 1.
  destruct (subject (resource o)); cbn [rbind].
  - destruct (rfilter (isPatientObservation patientId) l); cbn [rbind]; [discriminate|].
    intros H. injection H as <-. apply IH. reflexivity.
  - intros H. injection H as <-. reflexivity.
Qed.

Lemma rfilter_no_subject (patientId : string) (observations : list Entry) :
  Exists (fun o => subject (resource o) = None) observations ->
  rfilter (isPatientObservation patientId) observations = Err TypeError.
Proof.
  induction 1 as [o l Ho | o l _ IH].
  - cbn [rfilter]. unfold FHIRClient.isPatientObservation at 1. rewrite Ho. reflexivity.
  - cbn [rfilter]. rewrite IH.
    destruct (isPatientObservation patientId o) as [b|e] eqn:E; cbn [rbind]; [reflexivity|].
    unfold FHIRClient.isPatientObservation in E.
    destruct (subject (resource o)); [discriminate E | injection E as <-; reflexivity].
Qed.

Lemma forEachVital_TypeError (l : list Entry) (vitals : gmap string string) (e : exn) :
  FHIRClient.forEachVital Number_toString l vitals = Err e -> e = TypeError.
Proof.
  revert vitals. induction l as [|o l IH]; intros vitals; [discriminate|].
  cbn [FHIRClient.forEachVital]. unfold FHIRClient.vitalsStep, FHIRClient.firstCode.
  destruct (code (resource o)) as [cc|]; cbn [rbind].
  - destruct (coding cc) as [[|c cs]|]; cbn [rbind]; try (intros H; injection H as <-; reflexivity).
    apply IH.
  - intros H. injection H as <-. reflexivity.
Qed.

Lemma patientRow_TypeError (today : Age.JsDate) (observations : list Entry) (p : Entry)
    (e : exn) :
  patientRow today observations p = Err e -> e = TypeError.
Proof.
  unfold FHIRClient.patientRow, FHIRClient.displayName.
  destruct (name (resource p)) as [[|n ns]|]; cbn [rbind];
    try (intros H; injection H as <-; reflexivity).
  destruct (given n) as [g|]; cbn [rbind]; [|intros H; injection H as <-; reflexivity].
  unfold FHIRClient.extractVitalsFromObservations.
  destruct (rfilter _ observations) as [l|e'] eqn:E; cbn [rbind].
  - destruct (FHIRClient.forEachVital Number_toString l ∅) as [m|e'] eqn:E2; cbn [rbind];
      [discriminate|].
    intros H. injection H as <-. exact (forEachVital_TypeError _ _ _ E2).
  - intros H. injection H as <-. exact (rfilter_TypeError _ _ _ E).
Qed.

Lemma patientRow_no_subject (today : Age.JsDate) (observations : list Entry) (p : Entry) :
  Exists (fun o => subject (resource o) = None) observations ->
  patientRow today observations p = Err TypeError.
Proof.
  intros Hex. destruct (patientRow today observations p) as [row|e] eqn:E.
  - exfalso. revert E. unfold FHIRClient.patientRow.
    destruct (FHIRClient.displayName (resource p)); cbn [rbind]; [|discriminate].
    unfold FHIRClient.extractVitalsFromObservations.
    rewrite (rfilter_no_subject _ _ Hex). discriminate.
  - rewrite (patientRow_TypeError _ _ _ _ E). reflexivity.
Qed.

Lemma rmap_TypeError (today : Age.JsDate) (observations patients : list Entry) (e : exn) :
  rmap (patientRow today observations) patients = Err e -> e = TypeError.
Proof.
  induction patients as [|p ps IH]; [discriminate|].
  cbn [rmap]. destruct (patientRow today observations p) as [row|e'] eqn:E; cbn [rbind].
  - destruct (rmap (patientRow today observations) ps); cbn [rbind]; [discriminate|].
    intros H. injection H as <-. apply IH. reflexivity.
  - intros H. injection H as <-. exact (patientRow_TypeError _ _ _ _ E).
Qed.

Lemma rmap_rows (today : Age.JsDate) (observations patients : list Entry)
    (rows : list FHIRClient.PatientRow) :
  rmap (patientRow today observations) patients = Ok rows ->
  Forall2 (fun p row =>
             FHIRClient.row_id row = id (resource p) /\
             FHIRClient.row_gender row = gender (resource p) /\
             FHIRClient.row_waitTime row = 15 /\
             FHIRClient.row_status row = "in-treatment" /\
             extractVitalsFromObservations observations (id (resource p))
               = Ok (FHIRClient.row_vitals row))
          patients rows.
Proof.
  revert rows. induction patients as [|p ps IH]; intros rows.
  - intros H. injection H as <-. constructor.
  - cbn [rmap]. destruct (patientRow today observations p) as [row|e] eqn:E; cbn [rbind];
      [|discriminate].
    destruct (rmap (patientRow today observations) ps) as [rest|e]; cbn [rbind];
      [|discriminate].
    intros H. injection H as <-. constructor; [|apply IH; reflexivity].
    revert E. unfold FHIRClient.patientRow.
    destruct (FHIRClient.displayName (resource p)); cbn [rbind]; [|discriminate].
    destruct (extractVitalsFromObservations observations (id (resource p))) as [v|];
      cbn [rbind]; [|discriminate].
    intros H. injection H as <-. repeat split.
Qed.

Lemma rmap_no_name (today : Age.JsDate) (observations patients : list Entry) :
  Exists (fun p => name (resource p) = None) patients ->
  rmap (patientRow today observations) patients = Err TypeError.
Proof.
  induction 1 as [p ps Hp | p ps _ IH].
  - cbn [rmap]. unfold FHIRClient.patientRow at 1, FHIRClient.displayName.
    rewrite Hp. reflexivity.
  - cbn [rmap]. rewrite IH.
    destruct (patientRow today observations p) as [row|e] eqn:E; cbn [rbind]; [reflexivity|].
    rewrite (patientRow_TypeError _ _ _ _ E). reflexivity.
Qed.

(** X22.  The dashboard of the SMART client is all or nothing.  With at
    least one patient, a single observation without a subject, whose
    ever it is, makes [buildDashboardData] throw a [TypeError], as does
    a patient without a name; no other error is thrown.  Without
    patients the observations are not looked at.  When the call
    returns, there is one row per patient, in order, with the patient's
    id, gender and vital signs and a wait time of 15. *)
Theorem smart_dashboard_all_or_nothing (today : Age.JsDate)
    (patients encounters observations : list Entry) :
  let outcome :=
    FHIRClient.buildDashboardData Number_toString today patients encounters observations in
  (patients = [] -> exists d, outcome = Ok d /\ FHIRClient.patients d = []) /\
  (patients <> [] -> Exists (fun o => subject (resource o) = None) observations ->
   outcome = Err TypeError) /\
  (Exists (fun p => name (resource p) = None) patients -> outcome = Err TypeError) /\
  (forall e, outcome = Err e -> e = TypeError) /\
  (forall d, outcome = Ok d ->
     FHIRClient.totalPatients (FHIRClient.kpis d) = Z.of_nat (length (FHIRClient.patients d)) /\
     Forall2 (fun p row =>
                FHIRClient.row_id row = id (resource p) /\
                FHIRClient.row_gender row = gender (resource p) /\
                FHIRClient.row_waitTime row = 15 /\
                FHIRClient.row_status row = "in-treatment" /\
                extractVitalsFromObservations observations (id (resource p))
                  = Ok (FHIRClient.row_vitals row))
             patients (FHIRClient.patients d)).
Proof.
  cbv zeta. unfold FHIRClient.buildDashboardData. cbv zeta.
  assert (Herr : forall e, rmap (patientRow today observations) patients = Err e ->
                           e = TypeError) by (intros e; apply rmap_TypeError).
  split; [|split; [|split; [|split]]].
  - intros ->. eexists. split; reflexivity.
  - intros Hne Hex. destruct patients as [|p ps]; [congruence|].
    cbn [rmap]. rewrite (patientRow_no_subject today observations p Hex). reflexivity.
  - intros Hex. rewrite (rmap_no_name today observations patients Hex). reflexivity.
  - intros e. destruct (rmap (patientRow today observations) patients) as [rows|e'];
      cbn [rbind]; [discriminate|].
    intros H. injection H as <-. apply Herr. reflexivity.
  - intros d. destruct (rmap (patientRow today observations) patients) as [rows|e'] eqn:E;
      cbn [rbind]; [|discriminate].
    intros H. injection H as <-. cbn [FHIRClient.kpis FHIRClient.patients FHIRClient.totalPatients].
    pose proof (rmap_rows _ _ _ _ E) as Hrows. split; [|exact Hrows].
    f_equal. clear - Hrows. induction Hrows; cbn [length]; congruence.
Qed.

End SmartDashboardFacts.

(** ** The turnaround cards *)

Section TurnaroundCardFacts.
Import TurnaroundCards.

Lemma percentage_div (value h : Z) :
  0 < h ->
  Js.Math_round (inject_Z value / inject_Z h * 100) = (200 * value + h) / (2 * h).
Proof.
  intros Hh. unfold Js.Math_round. rewrite Zdiv_Qdiv. apply Qfloor_comp.
  rewrite inject_Z_plus, !inject_Z_mult. change (inject_Z 200) with 200%Q.
  change (inject_Z 2) with 2%Q. field. apply inject_Z_pos, Hh.
Qed.

(** X23.  The width of the bar of a turnaround card lies between 0 and
    100 percent.  The bar is shown as exceeding the target exactly when
    the value reaches 99.5 percent of the upper threshold: whenever the
    value is coloured as exceeding, the bar is too, but the bar also
    is for the values just below the threshold, which the value's own
    colour does not mark. *)
Theorem card_bar_and_colour (value : Z) (thresholds : Thresholds) :
  0 < high thresholds ->
  (0 <= value -> 0 <= calculatePercentage value thresholds <= 100) /\
  calculatePercentage value thresholds <= 100 /\
  (barTone (calculatePercentage value thresholds) = Danger <->
   199 * high thresholds <= 200 * value) /\
  (getMetricColor value thresholds = Danger ->
   barTone (calculatePercentage value thresholds) = Danger).
Proof.
  intros Hh. unfold calculatePercentage. rewrite (percentage_div value _ Hh).
  set (h := high thresholds) in *.
  assert (Hq : 100 <= (200 * value + h) / (2 * h) <-> 199 * h <= 200 * value).
  { split; intros H.
    - pose proof (Z.mul_div_le (200 * value + h) (2 * h) ltac:(lia)). nia.
    - apply Z.div_le_lower_bound; lia. }
  assert (Hbar : barTone (Z.min ((200 * value + h) / (2 * h)) 100) = Danger <->
                 199 * h <= 200 * value).
  { rewrite <- Hq. unfold barTone.
    destruct (Z.leb_spec 100 (Z.min ((200 * value + h) / (2 * h)) 100)) as [H|H].
    - split; [lia | reflexivity].
    - split; [|lia].
      destruct (75 <=? Z.min ((200 * value + h) / (2 * h)) 100); discriminate. }
  split; [|split; [lia|split; [exact Hbar|]]].
  - intros Hv. split; [|lia]. apply Z.min_glb; [|lia]. apply Z.div_pos; lia.
  - unfold getMetricColor. fold h. destruct (Z.leb_spec h value) as [H|H].
    + intros _. apply Hbar. lia.
    + destruct (medium thresholds <=? value); discriminate.
Qed.

Lemma card_bar_and_colour_witness :
  let thresholds := thresholdsFor "Admission Request to Bed" in
  barTone (calculatePercentage 239 thresholds) = Danger /\
  getMetricColor 239 thresholds = Accent.
Proof.
  split.
  - destruct (card_bar_and_colour 239 (thresholdsFor "Admission Request to Bed"))
      as (_ & _ & [_ H] & _).
    + vm_compute. reflexivity.
    + apply H. vm_compute. intros E. discriminate E.
  - vm_compute. reflexivity.
Defined.

End TurnaroundCardFacts.

(** ** The analytics computed from the server *)

Section AnalyticsFacts.
Import Dashboard Timeline Effects Analytics.
#[local] Arguments Js.Math_round : simpl never.

Lemma stayMinutes_run (env : Env) (p : Period) (start : Z) (w : World) (tr : list Event) :
  exists m more,
    run env (stayMinutes p start) w tr = (Ok m, w, (tr ++ more)%list) /\
    forallb internal more = true /\ 0 <= m.
Proof.
  unfold stayMinutes. destruct (period_end p) as [t|].
  - eexists. exists []. rewrite app_nil_r. split; [reflexivity|].
    split; [reflexivity | apply Z.le_max_l].
  - eexists. exists [ClockRead]. split; [reflexivity|].
    split; [reflexivity | apply Z.le_max_l].
Qed.

(** X24.  The lengths of stay behind the statistics are one per
    encounter with a started period and never negative, also when a
    period ends before it starts; their computation never throws and
    leaves the state as it is.  Without any such encounter the average
    is 4.5 hours and the median 3.2 hours. *)
Theorem losMinutes_facts (env : Env) (encounters : list EncounterEntry)
    (w : World) (tr : list Event) :
  exists minutes more,
    run env (losMinutes encounters) w tr = (Ok minutes, w, (tr ++ more)%list) /\
    forallb internal more = true /\
    length minutes = length (startedPeriods encounters) /\
    Forall (fun m => 0 <= m) minutes /\
    (startedPeriods encounters = [] ->
     avgLosHours minutes = 45 # 10 /\ medianLosHours minutes = 32 # 10).
Proof.
  unfold losMinutes.
  destruct (mapM_run env (fun ps => stayMinutes (fst ps) (snd ps))
              (fun _ m => 0 <= m) (startedPeriods encounters) w
              (fun ps tr' => stayMinutes_run env (fst ps) (snd ps) w tr') tr)
    as (minutes & more & Hrun & Hmore & Hall).
  exists minutes, more. split; [exact Hrun|]. split; [exact Hmore|].
  split; [|split].
  - clear - Hall. induction Hall; cbn [length]; congruence.
  - clear - Hall. induction Hall; constructor; assumption.
  - intros Hnone. rewrite Hnone in Hall. inversion Hall. split; reflexivity.
Qed.

Lemma sortInsert_ascending (x : Z) (l : list Z) :
  StronglySorted Z.le l -> StronglySorted Z.le (sortInsert ascending x l).
Proof.
  induction 1 as [|y r Hr IH Hy]; [repeat constructor|].
  cbn [sortInsert]. unfold ascending at 1.
  destruct (Z.leb_spec (x - y) 0) as [H|H].
  - constructor; [constructor; assumption|].
    constructor; [lia|]. revert Hy. apply List.Forall_impl. intros z Hz. lia.
  - constructor; [exact IH|].
    apply (Permutation_Forall (sortInsert_perm ascending x r)).
    constructor; [lia | exact Hy].
Qed.

Lemma Array_sort_ascending (l : list Z) : StronglySorted Z.le (Array_sort ascending l).
Proof.
  unfold Array_sort. induction l as [|x l IH]; [constructor|].
  cbn [fold_right]. apply sortInsert_ascending, IH.
Qed.

Lemma sorted_around (l1 l2 : list Z) (m : Z) :
  StronglySorted Z.le (l1 ++ m :: l2) ->
  Forall (fun x => x <= m) l1 /\ Forall (fun x => m <= x) l2.
Proof.
  induction l1 as [|a l1 IH]; cbn [app]; intros H.
  - inversion H; subst. split; [constructor | assumption].
  - inversion H as [|? ? Hs Ha]; subst. destruct (IH Hs) as [I1 I2].
    split; [|exact I2]. constructor; [|exact I1].
    rewrite List.Forall_forall in Ha. apply Ha. apply in_or_app. right. left. reflexivity.
Qed.

(** X25.  The median length of stay is taken from the element that
    stands in the middle of the sorted stays, the upper of the two
    middle ones when their number is even: half of the stays, rounded
    down, are at most as long, all others at least as long. *)
Theorem medianLosHours_upper_middle (minutes : list Z) :
  minutes <> [] ->
  exists m before after,
    medianLosHours minutes = oneDecimal (inject_Z m / 60) /\
    Permutation minutes (before ++ m :: after) /\
    length before = Nat.div (length minutes) 2 /\
    Forall (fun x => x <= m) before /\
    Forall (fun x => m <= x) after.
Proof.
  intros Hne.
  pose proof (Array_sort_perm ascending minutes) as Hperm.
  pose proof (Array_sort_ascending minutes) as Hsorted.
  assert (Hk : (Nat.div (length minutes) 2 < length (Array_sort ascending minutes))%nat).
  { rewrite <- (Permutation_length Hperm).
    destruct minutes as [|x l]; [congruence|].
    apply Nat.div_lt; cbn [length]; lia. }
  destruct (nth_split (Array_sort ascending minutes) 0 Hk) as (before & after & Hsplit & Hlen).
  exists (middle minutes), before, after. unfold middle at 2 3 4.
  rewrite Hsplit in Hsorted. destruct (sorted_around _ _ _ Hsorted) as [H1 H2].
  split; [|split; [|split; [exact Hlen | split; [exact H1 | exact H2]]]].
  - unfold medianLosHours. destruct minutes; [congruence | reflexivity].
  - rewrite <- Hsplit. exact Hperm.
Qed.

Lemma medianLosHours_upper_middle_witness :
  exists m before after,
    medianLosHours [30; 10] = oneDecimal (inject_Z m / 60) /\
    Permutation [30; 10] (before ++ m :: after) /\
    length before = 1%nat /\
    Forall (fun x => x <= m) before /\
    Forall (fun x => m <= x) after.
Proof.
  apply (medianLosHours_upper_middle [30; 10]). discriminate.
Defined.

Lemma avg_at_least_one (arr : list Z) (a : Z) : avg arr = Some a -> 1 <= a.
Proof.
  unfold avg. destruct arr; [discriminate|]. intros H. injection H as <-. apply Z.le_max_l.
Qed.

Lemma override_lookup (key : string) (value : option Z) (t : gmap string Z) (k : string) :
  override key value t !! k =
  if decide (k = key) then orElse value (t !! key) else t !! k.
Proof.
  unfold override. destruct value as [v|]; destruct (decide (k = key)) as [->|Hne];
    cbn [orElse].
  - apply lookup_insert_eq.
  - apply lookup_insert_ne. congruence.
  - destruct (t !! key); reflexivity.
  - reflexivity.
Qed.

Lemma defaultTurnaround_lookup :
  DepartmentAnalytics.defaultTurnaround !! "Triage to Nurse" = Some 8 /\
  DepartmentAnalytics.defaultTurnaround !! "Triage to Doctor" = Some 25 /\
  DepartmentAnalytics.defaultTurnaround !! "Pathology Request to Result" = Some 45 /\
  DepartmentAnalytics.defaultTurnaround !! "Imaging Request to Reported" = Some 75 /\
  DepartmentAnalytics.defaultTurnaround !! "Doctor to Senior Doctor" = None /\
  DepartmentAnalytics.defaultTurnaround !! "Admission Request to Bed" = Some 90 /\
  DepartmentAnalytics.defaultTurnaround !! "Bed Allocation to Departure" = Some 20.
Proof. repeat split; vm_compute; reflexivity. Qed.

(** X26.  The turnaround mapping of the analytics has the six steps of
    the fixed table and no other.  Four of them always keep the fixed
    values; the pathology and the imaging step take the average of the
    measured durations when there are any, at least one minute, and
    keep 45 and 75 minutes otherwise.  The journey time that the
    department view derives from the mapping is therefore 143 minutes
    plus these two. *)
Theorem turnaroundOf_steps (encounters : list Fhir.Entry) (diagReports : list ReportEntry) :
  let t := turnaroundOf encounters diagReports in
  let labAvg := avg (durationsOf lab diagReports) in
  let imgAvg := avg (durationsOf imaging diagReports) in
  dom t = dom DepartmentAnalytics.defaultTurnaround /\
  (forall k, k <> "Pathology Request to Result" -> k <> "Imaging Request to Reported" ->
     t !! k = DepartmentAnalytics.defaultTurnaround !! k) /\
  t !! "Pathology Request to Result" = Some (default 45 labAvg) /\
  t !! "Imaging Request to Reported" = Some (default 75 imgAvg) /\
  1 <= default 45 labAvg /\ 1 <= default 75 imgAvg /\
  DepartmentAnalytics.estimatedJourney t = 143 + default 45 labAvg + default 75 imgAvg.
Proof.
  cbv zeta. unfold turnaroundOf, RestApi.buildTurnaroundData.
  set (labAvg := avg (durationsOf lab diagReports)).
  set (imgAvg := avg (durationsOf imaging diagReports)).
  set (t := override "Imaging Request to Reported" imgAvg
              (override "Pathology Request to Result" labAvg
                 DepartmentAnalytics.defaultTurnaround)).
  destruct defaultTurnaround_lookup as (D1 & D2 & D3 & D4 & D5 & D6 & D7).
  assert (Himg : t !! "Imaging Request to Reported" = Some (default 75 imgAvg)).
  { unfold t. rewrite override_lookup, decide_True by reflexivity.
    rewrite override_lookup, decide_False by discriminate. rewrite D4.
    destruct imgAvg; reflexivity. }
  assert (Hlab : t !! "Pathology Request to Result" = Some (default 45 labAvg)).
  { unfold t. rewrite override_lookup, decide_False by discriminate.
    rewrite override_lookup, decide_True by reflexivity. rewrite D3.
    destruct labAvg; reflexivity. }
  assert (Hother : forall k,
            k <> "Pathology Request to Result" -> k <> "Imaging Request to Reported" ->
            t !! k = DepartmentAnalytics.defaultTurnaround !! k).
  { intros k H1 H2. unfold t. rewrite !override_lookup, !decide_False by assumption.
    reflexivity. }
  split; [|split; [exact Hother|split; [exact Hlab|split; [exact Himg|split; [|split]]]]].
  - apply set_eq. intros k. rewrite !elem_of_dom.
    destruct (decide (k = "Imaging Request to Reported")) as [->|H1].
    + rewrite Himg, D4. split; eauto.
    + destruct (decide (k = "Pathology Request to Result")) as [->|H2].
      * rewrite Hlab, D3. split; eauto.
      * rewrite (Hother k H2 H1). reflexivity.
  - destruct labAvg as [a|] eqn:E; cbn [default from_option]; unfold Datatypes.id;
      [exact (avg_at_least_one _ _ E) | lia].
  - destruct imgAvg as [a|] eqn:E; cbn [default from_option]; unfold Datatypes.id;
      [exact (avg_at_least_one _ _ E) | lia].
  - rewrite estimatedJourney_sum.
    unfold DepartmentAnalytics.journeySum, DepartmentAnalytics.stepMinutes.
    rewrite Himg, Hlab.
    rewrite (Hother "Triage to Nurse"), (Hother "Triage to Doctor"),
            (Hother "Doctor to Senior Doctor"), (Hother "Admission Request to Bed"),
            (Hother "Bed Allocation to Departure") by discriminate.
    rewrite D1, D2, D5, D6, D7. cbn [default from_option]. unfold Datatypes.id. lia.
Qed.

End AnalyticsFacts.

(** ** Patient timelines and their timestamps *)

Section SyncQueryFacts.
Import Fhir Dashboard Timeline Effects DataSyncService SyncQueries Notions.

Variable adaptEncounterData : RawEncounter -> bool -> result Encounter.

Local Abbreviation getPatientTimeline := (SyncQueries.getPatientTimeline adaptEncounterData).

Lemma mapM_lift_run {A B} (env : Env) (f : A -> result B) (l : list A)
    (w : World) (tr : list Event) :
  run env (mapM (fun x => lift (f x)) l) w tr = (rmap f l, w, tr).
Proof.
  induction l as [|x l IH]; [reflexivity|].
  change (mapM (fun x => lift (f x)) (x :: l))
    with (bind (lift (f x))
            (fun y => bind (mapM (fun x => lift (f x)) l) (fun ys => Ret (y :: ys)))).
  rewrite run_bind. cbn [rmap]. destruct (f x) as [y|e]; cbn [lift run rbind]; [|reflexivity].
  rewrite run_bind, IH. destruct (rmap f l); reflexivity.
Qed.

(** What the timeline of a patient holds for each encounter. *)
Lemma withTimeline_facts (ts : list TimelineEvent) (l : list Encounter) :
  Forall (fun e => aiTimeline e = ts /\ sortedDesc (timelineEvents e) /\
                   incl ts (timelineEvents e))
         (map (withTimeline ts) l).
Proof.
  apply Forall_map. apply List.Forall_forall. intros e _.
  cbn [withTimeline aiTimeline timelineEvents]. split; [reflexivity|]. split.
  - apply Array_sort_sorted.
  - intros x Hx. unfold generateTimelineEvents.
    apply (Permutation_in x (Array_sort_perm byTimestampDesc _)).
    unfold pushedEvents. apply in_or_app. right. apply in_or_app. left. exact Hx.
Qed.

Lemma getPatientTimeline_run (env : Env) (patientId : string) (w : World)
    (tr : list Event) :
  exists encounters more,
    run env (getPatientTimeline patientId) w tr = (Ok encounters, w, (tr ++ more)%list) /\
    Forall (fun e => aiTimeline e = default [] (aiTimestampData w !! patientId) /\
                     sortedDesc (timelineEvents e) /\
                     incl (default [] (aiTimestampData w !! patientId)) (timelineEvents e))
           encounters /\
    (if isConnected w then forallb remoteRequest more = true
     else more = [Fetched (Static (syncEncounterPath patientId))]).
Proof.
  unfold SyncQueries.getPatientTimeline. rewrite run_try_catch.
  cbn [run bind get]. destruct (isConnected w) eqn:Hc.
  - rewrite run_bind. unfold restPatientTimeline at 1. rewrite run_bind, run_try_catch, run_bind.
    match goal with
    | |- context [run env (RestApi.searchResources ?R ?P) w tr] =>
        destruct (searchResources_server env R P w tr) as (es & rest & -> & Hrest)
    end.
    cbn [run bind get]. rewrite Hc. rewrite run_bind, mapM_lift_run.
    destruct (rmap _ _) as [adapted|e].
    + cbn [run bind get]. eexists. eexists. split; [reflexivity|].
      split; [apply withTimeline_facts | exact Hrest].
    + cbn [run]. eexists. eexists. split; [reflexivity|]. split; [constructor | exact Hrest].
  - unfold RestApi.fetchResponse, fetch. cbn [run bind].
    destruct (env_fetch env tr (Static (syncEncounterPath patientId))) as [|status [b|]].
    + cbn [run]. exists [], [Fetched (Static (syncEncounterPath patientId))].
      split; [reflexivity|]. split; [constructor | reflexivity].
    + cbn [run bind RestApi.json snd].
      destruct b as [entry|[| | | |items|]]; cbn [documentItems run bind get];
        try (exists [], [Fetched (Static (syncEncounterPath patientId))];
             split; [reflexivity|]; split; [constructor | reflexivity]).
      rewrite Hc. rewrite run_bind, mapM_lift_run.
      destruct (rmap _ _) as [adapted|e].
      * cbn [run bind get]. eexists. eexists. split; [reflexivity|].
        split; [apply withTimeline_facts | reflexivity].
      * cbn [run]. eexists. eexists. split; [reflexivity|]. split; [constructor | reflexivity].
    + cbn [run bind RestApi.json snd].
      exists [], [Fetched (Static (syncEncounterPath patientId))].
      split; [reflexivity|]. split; [constructor | reflexivity].
Qed.

(** X27.  [getPatientTimeline] never throws, leaves the state as it is
    and notifies nobody.  Every encounter it returns carries the AI
    timestamps stored for the patient, none when nothing is stored, and
    a timeline sorted newest first that holds them all.  Disconnected,
    it makes one request, for the mock document of the patient;
    connected, it asks only the server. *)
Theorem getPatientTimeline_safe (env : Env) (patientId : string) (w : World)
    (tr : list Event) :
  exists encounters more,
    run env (getPatientTimeline patientId) w tr = (Ok encounters, w, (tr ++ more)%list) /\
    (forall callback, deliveries callback more = []) /\
    Forall (fun e => aiTimeline e = default [] (aiTimestampData w !! patientId) /\
                     sortedDesc (timelineEvents e) /\
                     incl (aiTimeline e) (timelineEvents e))
           encounters /\
    (isConnected w = false -> requests more = [Static (syncEncounterPath patientId)]) /\
    (isConnected w = true -> forall path, ~ In (Static path) (requests more)).
Proof.
  destruct (getPatientTimeline_run env patientId w tr) as (encs & more & Hrun & Hall & Hreq).
  exists encs, more. split; [exact Hrun|]. split; [|split; [|split]].
  - intros callback. destruct (isConnected w).
    + exact (proj2 (remote_not_static more "" Hreq) callback).
    + rewrite Hreq. reflexivity.
  - revert Hall. apply List.Forall_impl. intros e (H1 & H2 & H3).
    split; [exact H1|]. split; [exact H2|]. rewrite H1. exact H3.
  - intros Hc. rewrite Hc in Hreq. rewrite Hreq. reflexivity.
  - intros Hc path. rewrite Hc in Hreq. exact (proj1 (remote_not_static more path Hreq)).
Qed.

Lemma updateFirst_ids (patientId : string) (ts : list TimelineEvent)
    (ps : list PatientSummary) :
  map id (updateFirst patientId ts ps) = map id ps.
Proof.
  induction ps as [|p ps IH]; [reflexivity|].
  cbn [updateFirst]. destruct (String.eqb (id p) patientId); cbn [map id]; [reflexivity|].
  rewrite IH. reflexivity.
Qed.

Lemma updateFirst_absent (patientId : string) (ts : list TimelineEvent)
    (ps : list PatientSummary) :
  ~ In patientId (map id ps) -> updateFirst patientId ts ps = ps.
Proof.
  induction ps as [|p ps IH]; [reflexivity|].
  cbn [updateFirst map]. intros Hout. destruct (String.eqb_spec (id p) patientId) as [E|E].
  - exfalso. apply Hout. left. exact E.
  - rewrite IH; [reflexivity|]. intros Hin. apply Hout. right. exact Hin.
Qed.

Lemma updateFirst_present (patientId : string) (ts : list TimelineEvent)
    (ps : list PatientSummary) :
  In patientId (map id ps) ->
  exists before p after,
    ps = (before ++ p :: after)%list /\ id p = patientId /\
    ~ In patientId (map id before) /\
    updateFirst patientId ts ps =
      (before ++ enhancePatient {[patientId := ts]} p :: after)%list.
Proof.
  induction ps as [|p ps IH]; [intros []|].
  cbn [updateFirst map]. intros Hin. destruct (String.eqb_spec (id p) patientId) as [E|E].
  - exists [], p, ps. split; [reflexivity|]. split; [exact E|]. split; [intros []|].
    cbn [app]. unfold enhancePatient. rewrite E, lookup_singleton_eq. reflexivity.
  - destruct Hin as [Hin|Hin]; [contradiction|].
    destruct (IH Hin) as (before & q & after & -> & Hq & Hout & Hupd).
    exists (p :: before), q, after. split; [reflexivity|]. split; [exact Hq|].
    split; [|rewrite Hupd; reflexivity].
    cbn [map]. intros [H|H]; [contradiction | exact (Hout H)].
Qed.

(** X28.  [updateAITimestamps] stores the timestamps under the patient
    id, leaves the timestamps of the other patients alone and hands the
    cache to every subscriber, whether or not the patient is cached.
    The cached patients keep their order; only the first with that id
    receives the timestamps, the first of them as the latest.  A
    timeline asked for afterwards carries these timestamps. *)
Theorem updateAITimestamps_round_trip (env : Env) (patientId : string)
    (timestamps : list TimelineEvent) (w : World) (tr : list Event) :
  exists w',
    run env (updateAITimestamps patientId timestamps) w tr
      = (Ok tt, w', (tr ++ map (fun c => Notified c (cachedData w')) (subscribers w))%list) /\
    aiTimestampData w' !! patientId = Some timestamps /\
    (forall other, other <> patientId ->
       aiTimestampData w' !! other = aiTimestampData w !! other) /\
    option_map (map id) (patients (cachedData w'))
      = option_map (map id) (patients (cachedData w)) /\
    (forall ps, patients (cachedData w) = Some ps ->
       (~ In patientId (map id ps) -> patients (cachedData w') = Some ps) /\
       (In patientId (map id ps) ->
        exists before p after,
          ps = (before ++ p :: after)%list /\ id p = patientId /\
          ~ In patientId (map id before) /\
          patients (cachedData w') =
            Some (before ++ enhancePatient {[patientId := timestamps]} p :: after)%list)) /\
    subscribers w' = subscribers w /\ isConnected w' = isConnected w /\
    forall tr',
      exists encounters more,
        run env (getPatientTimeline patientId) w' tr'
          = (Ok encounters, w', (tr' ++ more)%list) /\
        Forall (fun e => aiTimeline e = timestamps) encounters.
Proof.
  unfold updateAITimestamps. cbn [run bind get put].
  cbn [cachedData setAiTimestampData].
  assert (Htl : forall w', aiTimestampData w' !! patientId = Some timestamps ->
    forall tr', exists encounters more,
      run env (getPatientTimeline patientId) w' tr' = (Ok encounters, w', (tr' ++ more)%list) /\
      Forall (fun e => aiTimeline e = timestamps) encounters).
  { intros w' Hw' tr'.
    destruct (getPatientTimeline_run env patientId w' tr') as (encs & more & Hrun & Hall & _).
    exists encs, more. split; [exact Hrun|].
    revert Hall. apply List.Forall_impl. intros e (H1 & _). rewrite H1, Hw'. reflexivity. }
  destruct (patients (cachedData w)) as [ps|] eqn:Hps.
  - exists (setCachedData
              (setAiTimestampData w (<[patientId := timestamps]> (aiTimestampData w)))
              (withPatients (cachedData w) (Some (updateFirst patientId timestamps ps)))).
    split; [unfold put; cbn [run bind]; rewrite notifySubscribers_run; reflexivity|].
    cbn [aiTimestampData cachedData subscribers isConnected patients
         setCachedData setAiTimestampData withPatients].
    split; [apply lookup_insert_eq|].
    split; [intros other Hne; apply lookup_insert_ne; congruence|].
    split; [cbn [option_map]; rewrite updateFirst_ids; reflexivity|].
    split.
    + intros ps' H. injection H as <-. split.
      * intros Hout. rewrite updateFirst_absent by exact Hout. reflexivity.
      * intros Hin.
        destruct (updateFirst_present patientId timestamps ps Hin)
          as (before & p & after & H1 & H2 & H3 & H4).
        exists before, p, after. rewrite H4. repeat split; assumption.
    + split; [reflexivity|]. split; [reflexivity|].
      apply Htl. cbn [aiTimestampData setCachedData setAiTimestampData].
      apply lookup_insert_eq.
  - exists (setAiTimestampData w (<[patientId := timestamps]> (aiTimestampData w))).
    split; [unfold put; cbn [run bind]; rewrite notifySubscribers_run; reflexivity|].
    cbn [aiTimestampData cachedData subscribers isConnected patients setAiTimestampData].
    split; [apply lookup_insert_eq|].
    split; [intros other Hne; apply lookup_insert_ne; congruence|].
    split; [rewrite Hps; reflexivity|].
    split; [intros ps' H; discriminate H|].
    split; [reflexivity|]. split; [reflexivity|].
    apply Htl. cbn [aiTimestampData setAiTimestampData]. apply lookup_insert_eq.
Qed.

Lemma length_padStart3 (s : string) :
  String.length (padStart3 s) = Nat.max 3 (String.length s).
Proof.
  unfold padStart3.
  destruct s as [|a [|b [|c r]]]; reflexivity.
Qed.

Lemma length_append (a b : string) :
  String.length (a +:+ b) = (String.length a + String.length b)%nat.
Proof. induction a as [|c a IH]; simpl; [reflexivity | f_equal; exact IH]. Qed.

Lemma length_substring_le (n m : nat) (s : string) :
  (String.length (String.substring n m s) <= Nat.min m (String.length s))%nat.
Proof.
  revert n m. induction s as [|c s IH]; intros n m.
  - destruct n, m; cbn; lia.
  - destruct n as [|n].
    + destruct m as [|m]; cbn; [lia|]. specialize (IH 0%nat m). lia.
    + cbn. specialize (IH n m). lia.
Qed.

(** X29.  The synchronisation service asks for the mock encounter
    document named by the patient id padded to three characters, the
    application for the one named by the last three characters of the
    id: the two ask for the same document exactly when the id has
    three characters. *)
Theorem encounter_paths_agree (patientId : string) :
  syncEncounterPath patientId = appEncounterPath patientId <->
  String.length patientId = 3%nat.
Proof.
  unfold syncEncounterPath, appEncounterPath. split.
  - intros H. apply (f_equal String.length) in H. rewrite !length_append in H.
    pose proof (length_padStart3 patientId) as H1.
    pose proof (length_substring_le (String.length patientId - 3) 3 patientId) as H2.
    fold (sliceLast3 patientId) in H2. lia.
  - intros H. destruct patientId as [|a [|b [|c [|d r]]]]; try discriminate H.
    reflexivity.
Qed.

End SyncQueryFacts.

(** ** The colour of a vital sign *)

Section VitalColourFacts.
Import Vitals RestApiService VitalMonitoring Notions.

Variable ToNumber : string -> option Q.

Local Abbreviation getVitalColor := (VitalMonitoring.getVitalColor ToNumber).

Lemma NaN_green (type : string) :
  ToNumber "N/A" = None ->
  getVitalColor type NA = if existsb (String.eqb type) ["hr"; "spo2"; "temp"] then Green else Gray.
Proof.
  intros H. unfold VitalMonitoring.getVitalColor, above, below, toNumber, NA. rewrite H.
  cbn [existsb orb].
  destruct (String.eqb type "hr"); [reflexivity|].
  destruct (String.eqb type "spo2"); [reflexivity|].
  destruct (String.eqb type "temp"); reflexivity.
Qed.

(** X30.  A vital sign without a reading is shown in green, like a
    normal one: when the patient has no observation of the field with
    a value that is neither missing nor zero, or no vital signs at
    all, the heart rate, the oxygen saturation and the temperature are
    the sentinel, which is not a number, and no comparison with it
    holds.  The blood pressure is always shown in gray. *)
Theorem missing_vital_is_green (observations : list Fhir.Entry) (patientId : string) :
  ToNumber "N/A" = None ->
  let v := vitalsOrNA (Some (extractVitals observations patientId)) in
  let measured c := existsb (usable patientId c) observations in
  (measured "8867-4" = false -> getVitalColor "hr" (hr v) = Green) /\
  (measured "2708-6" = false -> getVitalColor "spo2" (spo2 v) = Green) /\
  (measured "8310-5" = false -> getVitalColor "temp" (temp v) = Green) /\
  getVitalColor "bp" (bp v) = Gray /\
  getVitalColor "hr" (hr (vitalsOrNA None)) = Green /\
  getVitalColor "spo2" (spo2 (vitalsOrNA None)) = Green /\
  getVitalColor "temp" (temp (vitalsOrNA None)) = Green.
Proof.
  intros HNaN. cbv zeta. cbn [vitalsOrNA hr spo2 temp bp].
  unfold extractVitals. cbv zeta. rewrite fold_readings.
  cbn [finishVitals readings hr spo2 temp bp acc_hr acc_spo2 acc_temp acc_bp].
  split; [|split; [|split; [|split; [reflexivity|]]]].
  - intros H. apply lastValue_none in H. rewrite H. apply (NaN_green "hr" HNaN).
  - intros H. apply lastValue_none in H. rewrite H. apply (NaN_green "spo2" HNaN).
  - intros H. apply lastValue_none in H. rewrite H. apply (NaN_green "temp" HNaN).
  - repeat split; [apply (NaN_green "hr" HNaN) | apply (NaN_green "spo2" HNaN)
                  | apply (NaN_green "temp" HNaN)].
Qed.

End VitalColourFacts.

Section VitalColourExamples.
Import Vitals RestApiService VitalMonitoring Notions.

Lemma missing_vital_is_green_witness :
  VitalMonitoring.getVitalColor digitsToNumber "hr"
    (hr (extractVitals [Samples.observation "p1" "8462-4" 80] "p1")) = Green.
Proof.
  apply (missing_vital_is_green digitsToNumber [Samples.observation "p1" "8462-4" 80] "p1");
    reflexivity.
Defined.

End VitalColourExamples.

(** ** The probe of the server *)

Section ProbeFacts.
Import Dashboard Effects RestApi.

(** X4.  [testConnection] never throws and makes one request, for the
    capability statement.  It resolves to true exactly when the answer
    is a 2xx response, whatever its body, and records the same value as
    the connection flag of the REST client; the synchronisation service
    keeps its own flag, its cache and its subscribers. *)
Theorem testConnection_probe (env : Env) (w : World) (tr : list Event) :
  exists connected,
    run env testConnection w tr
      = (Ok connected, setRestConnected w connected, (tr ++ [Fetched Metadata])%list) /\
    (connected = true <->
     exists status body,
       env_fetch env tr Metadata = Responded status body /\ 200 <= status <= 299) /\
    rest_isConnected (setRestConnected w connected) = connected /\
    isConnected (setRestConnected w connected) = isConnected w /\
    cachedData (setRestConnected w connected) = cachedData w /\
    subscribers (setRestConnected w connected) = subscribers w.
Proof.
  exists (negb (failed (env_fetch env tr Metadata))).
  split; [apply testConnection_run|]. split; [|repeat split].
  destruct (env_fetch env tr Metadata) as [|status body]; cbn [failed negb].
  - split; [discriminate|]. intros (status & body & H & _). discriminate H.
  - rewrite Bool.negb_involutive. split.
    + intros H. apply andb_prop in H as [H1 H2]. exists status, body.
      split; [reflexivity | lia].
    + intros (s & b & H & Hs). injection H as -> ->.
      apply andb_true_intro. split; lia.
Qed.

End ProbeFacts.
